(** * MediSearch: the query layer of [app.py]

    A shallow embedding of the database-facing functions of the dashboard
    ([get_db_connection], [execute_query], [load_medicines_from_db],
    [get_user_history], [search_medicines_db], [generate_recommendations_db])
    together with the parts of MySQL, mysql.connector, Streamlit and pandas
    they rely on, and the properties stated about them.

    Layout:
    - [Text]    Python strings and the SQL string functions used by the queries;
    - [Data]    cell values, dictionary rows, the three tables;
    - [Sorting] what ORDER BY and [sort_values] guarantee, and one instance;
    - [Sql]     the meaning of each SQL statement the program sends;
    - [Pandas]  the DataFrame operations the program calls;
    - [App]     the world (driver, cache, UI log) and the functions of [app.py];
    - the theorems. *)

From Stdlib Require Import ZArith List String Ascii Sorted Permutation Lia Bool.
From stdpp Require Import base gmap list strings fin_maps.

Open Scope string_scope.
Open Scope list_scope.
Open Scope Z_scope.

(* ===================================================================== *)
(** ** Text *)
(* ===================================================================== *)

Module Text.

(** Strings are sequences of 8-bit characters; the model covers ASCII text.
    [str.lower()] maps A-Z to a-z and leaves every other character as it is. *)
Definition lower_char (c : ascii) : ascii :=
  let n := nat_of_ascii c in
  if ((65 <=? n)%nat && (n <=? 90)%nat)%bool then ascii_of_nat (n + 32) else c.

Definition chars (s : string) : list ascii := list_ascii_of_string s.
Definition text (l : list ascii) : string := string_of_list_ascii l.

(** [s.lower()] *)
Definition lower (s : string) : string := text (List.map lower_char (chars s)).

(** [s.replace(a, b)] for one-character [a] and [b] (the only use in [main]). *)
Definition replace_char (a b : ascii) (s : string) : string :=
  text (List.map (fun c => if Ascii.eqb c a then b else c) (chars s)).

(** The collation of the text columns decides when two characters are the
    same for LIKE, =, IN, GROUP BY and DISTINCT.  The CREATE TABLE statements
    are not part of the repository, so the collation is a parameter of the
    database: [general_ci] stands for the case-insensitive collations that are
    the default of MySQL 8.0, [binary] for a case-sensitive one. *)
Inductive collation := general_ci | binary.

Definition fold (co : collation) (c : ascii) : ascii :=
  match co with
  | general_ci => lower_char c
  | binary => c
  end.

Definition char_eq (co : collation) (a b : ascii) : bool :=
  Ascii.eqb (fold co a) (fold co b).

Fixpoint chars_eq (co : collation) (a b : list ascii) : bool :=
  match a, b with
  | [], [] => true
  | x :: a', y :: b' => char_eq co x y && chars_eq co a' b'
  | _, _ => false
  end.

(** [a = b] on a text column. *)
Definition str_eq (co : collation) (a b : string) : bool :=
  chars_eq co (chars a) (chars b).

(** *** LIKE

    A pattern is read left to right: [%] stands for any run of characters,
    [_] for any one character, a backslash takes the next character literally
    (a backslash at the very end stands for itself), and any other character
    stands for itself up to the collation. *)
Inductive pat_item := PMany | POne | PChar (c : ascii).

Fixpoint like_parse (p : list ascii) : list pat_item :=
  match p with
  | [] => []
  | c :: rest =>
      if Ascii.eqb c "\" then
        match rest with
        | [] => [PChar c]
        | d :: rest' => PChar d :: like_parse rest'
        end
      else if Ascii.eqb c "%" then PMany :: like_parse rest
      else if Ascii.eqb c "_" then POne :: like_parse rest
      else PChar c :: like_parse rest
  end.

Fixpoint like_match (co : collation) (p : list pat_item) : list ascii -> bool :=
  match p with
  | [] => fun s => match s with [] => true | _ :: _ => false end
  | PChar c :: p' =>
      fun s => match s with
               | [] => false
               | x :: s' => char_eq co c x && like_match co p' s'
               end
  | POne :: p' =>
      fun s => match s with
               | [] => false
               | _ :: s' => like_match co p' s'
               end
  | PMany :: p' =>
      fix many (s : list ascii) : bool :=
        like_match co p' s
        || match s with
           | [] => false
           | _ :: s' => many s'
           end
  end.

(** [s LIKE p] *)
Definition sql_like (co : collation) (s p : string) : bool :=
  like_match co (like_parse (chars p)) (chars s).

(** [SUBSTRING_INDEX(s, ',', 1)]: what comes before the first comma, or all
    of [s] when it has none. *)
Fixpoint before_comma (s : list ascii) : list ascii :=
  match s with
  | [] => []
  | c :: s' => if Ascii.eqb c "," then [] else c :: before_comma s'
  end.

Definition substring_index_comma_1 (s : string) : string :=
  text (before_comma (chars s)).

(** [CONCAT('%', s, '%')] *)
Definition concat_percent (s : string) : string := "%" +:+ s +:+ "%".

(** Python's [sub in s], on character lists: some suffix of [s] starts with
    [sub]. *)
Fixpoint starts_with (sub s : list ascii) : bool :=
  match sub, s with
  | [], _ => true
  | _ :: _, [] => false
  | a :: sub', b :: s' => Ascii.eqb a b && starts_with sub' s'
  end.

Fixpoint contains_chars (sub s : list ascii) : bool :=
  starts_with sub s
  || match s with
     | [] => false
     | _ :: s' => contains_chars sub s'
     end.

Definition str_contains (sub s : string) : bool :=
  contains_chars (chars sub) (chars s).

(** A text as the collation sees it. *)
Definition fold_text (co : collation) (s : string) : string :=
  text (List.map (fold co) (chars s)).

(** A LIKE metacharacter: [%], [_] or the escape character. *)
Definition is_meta (c : ascii) : bool :=
  Ascii.eqb c "\" || Ascii.eqb c "%" || Ascii.eqb c "_".

Definition meta_free (s : string) : bool :=
  forallb (fun c => negb (is_meta c)) (chars s).

Definition backslash_free (s : string) : bool :=
  forallb (fun c => negb (Ascii.eqb c "\")) (chars s).

End Text.

(* ===================================================================== *)
(** ** Data *)
(* ===================================================================== *)

Module Data.

(** A cell of a result row or of a DataFrame.  [VNull] is SQL's NULL,
    Python's [None] and pandas' NaN; [VNum] carries integers and fixed-point
    decimals (a DECIMAL column is an integer at a fixed scale); [VStr] text. *)
Inductive value := VNull | VNum (z : Z) | VStr (s : string).

#[global] Instance value_eq_dec : EqDecision value.
Proof. solve_decision. Defined.

Definition of_opt (o : option Z) : value :=
  match o with
  | Some z => VNum z
  | None => VNull
  end.

(** A row as the cursor delivers it with [dictionary=True]: column name to
    cell. *)
Abbreviation row := (gmap string value).

(** [r[col]] on a DataFrame row; a column the row does not have reads as
    NaN. *)
Definition cell (col : string) (r : row) : value :=
  match r !! col with
  | Some v => v
  | None => VNull
  end.

(** The order of cells under ORDER BY and [sort_values]: NULL below every
    number, numbers by size, text above numbers and by character code. *)
Fixpoint chars_leb (a b : list ascii) : bool :=
  match a, b with
  | [], _ => true
  | _ :: _, [] => false
  | x :: a', y :: b' =>
      let n := nat_of_ascii x in
      let m := nat_of_ascii y in
      (n <? m)%nat || ((n =? m)%nat && chars_leb a' b')
  end.

Definition value_leb (a b : value) : bool :=
  match a, b with
  | VNull, _ => true
  | VNum _, VNull => false
  | VNum x, VNum y => x <=? y
  | VNum _, VStr _ => true
  | VStr _, VNull => false
  | VStr _, VNum _ => false
  | VStr s, VStr t => chars_leb (Text.chars s) (Text.chars t)
  end.

Definition value_eqb (a b : value) : bool := bool_decide (a = b).

(** *** The tables *)

(** Modelled from the spec: the CREATE TABLE statements are not in the
    repository.  The spec lists medicines (name, type, treats, rating, price,
    reviews), users (id, name, profile) and purchase_history (user_id,
    medicine_id, quantity, purchase_date); the queries add the [id] columns.
    The program tests [rating] and [price] for emptiness before converting
    them, so the numeric catalog columns may be NULL. *)
Record Medicine := {
  m_id : Z;
  m_name : string;
  m_type : string;
  m_treats : string;
  m_rating : option Z;
  m_price : option Z;
  m_reviews : option Z
}.

Record User := {
  u_id : Z;
  u_name : string;
  u_profile : string
}.

Record Purchase := {
  ph_id : Z;
  ph_user_id : Z;
  ph_medicine_id : Z;
  ph_quantity : Z;
  ph_purchase_date : Z
}.

Record Database := {
  collation_of : Text.collation;
  medicines : list Medicine;
  users : list User;
  purchase_history : list Purchase
}.

(** [medicines.id] is the primary key. *)
Definition primary_key (db : Database) : Prop :=
  NoDup (List.map m_id (medicines db)).

(** [SELECT *] on medicines. *)
Definition medicine_columns : list string :=
  ["id"; "name"; "type"; "treats"; "rating"; "price"; "reviews"].

Definition medicine_row (m : Medicine) : row :=
  <["id" := VNum (m_id m)]>
  (<["name" := VStr (m_name m)]>
  (<["type" := VStr (m_type m)]>
  (<["treats" := VStr (m_treats m)]>
  (<["rating" := of_opt (m_rating m)]>
  (<["price" := of_opt (m_price m)]>
  (<["reviews" := of_opt (m_reviews m)]> ∅)))))).

End Data.

(* ===================================================================== *)
(** ** Sorting *)
(* ===================================================================== *)

Module Sorting.
Import Data.

(** [le x y = true] reads "x may stand before y". *)
Definition total {A} (le : A -> A -> bool) : Prop :=
  forall x y, le x y = true \/ le y x = true.

Definition transitive {A} (le : A -> A -> bool) : Prop :=
  forall x y z, le x y = true -> le y z = true -> le x z = true.

Definition sorted_by {A} (le : A -> A -> bool) (l : list A) : Prop :=
  StronglySorted (fun x y => le x y = true) l.

(** Neither MySQL's ORDER BY nor pandas' [sort_values] (numpy's quicksort by
    default) promises where rows with equal keys end up.  A sorter is
    therefore any function that rearranges its input into sorted order. *)
Record Sorter := {
  sort_with : forall A : Type, (A -> A -> bool) -> list A -> list A;
  sort_with_perm :
    forall (A : Type) (le : A -> A -> bool) (l : list A),
      Permutation (sort_with A le l) l;
  sort_with_sorted :
    forall (A : Type) (le : A -> A -> bool) (l : list A),
      total le -> transitive le -> sorted_by le (sort_with A le l)
}.

(** What Python finds in a cell that holds no number: [None], or the float
    NaN. *)
Inductive Missing := PyNone | NaN.

(** What a run of the program depends on and the source does not settle: the
    two sorters, and how a cell without a number reaches Python.  The driver
    hands out a DECIMAL as [decimal.Decimal] and NULL as [None]; pandas keeps
    such a column as objects, and [None] stays.  INT, FLOAT and DOUBLE arrive
    as Python numbers, and a column of these with a NULL in it becomes
    float64, with NaN for the NULL.  What [pd.concat] makes of a column with
    no number at all depends on the version of pandas.  [missing col frames
    r] is what the cell [col] of row [r] holds, when it holds no number,
    after the frames with the rows [frames] were concatenated. *)
Class Platform := {
  sql_order : Sorter;
  pandas_order : Sorter;
  missing : string -> list (list row) -> row -> Missing
}.

(** Descending order on a list of columns, the first column counting most:
    [ORDER BY k1 DESC, k2 DESC, ...].  NULL and NaN cells sort last. *)
Fixpoint desc (keys : list string) (r1 r2 : row) : bool :=
  match keys with
  | [] => true
  | k :: ks =>
      let a := cell k r1 in
      let b := cell k r2 in
      if value_leb b a then (if value_leb a b then desc ks r1 r2 else true)
      else false
  end.

(** Insertion sort, the sorter used to run the model on examples. *)
Fixpoint insert_sorted {A} (le : A -> A -> bool) (x : A) (l : list A) : list A :=
  match l with
  | [] => [x]
  | y :: l' => if le x y then x :: l else y :: insert_sorted le x l'
  end.

Fixpoint insertion_sort {A} (le : A -> A -> bool) (l : list A) : list A :=
  match l with
  | [] => []
  | x :: l' => insert_sorted le x (insertion_sort le l')
  end.

End Sorting.

(* ===================================================================== *)
(** ** Sql *)
(* ===================================================================== *)

Module Sql.
Import Text Data Sorting.

(** The statements built by the functions of [app.py].  [n] is the number of
    names in the history: every [IN (...)] list of the recommendation
    statements is written with [n] placeholders. *)
Inductive search_kind := ByMedicine | BySymptom | ByBoth.

Inductive Query :=
| QLoadMedicines
| QUserHistory
| QSearch (k : search_kind)
| QCategoryRecs (n : nat)
| QSymptomRecs (n : nat)
| QPopularRecs (n : nat).

(** *** Building blocks *)

(** Keep the first of every class of [same] rows; [seen] holds the rows kept
    so far.  This is DISTINCT, the list of groups of GROUP BY, and
    [drop_duplicates(keep='first')]. *)
Fixpoint dedup_by {A} (same : A -> A -> bool) (seen : list A) (l : list A) : list A :=
  match l with
  | [] => []
  | x :: l' =>
      if existsb (same x) seen then dedup_by same seen l'
      else x :: dedup_by same (x :: seen) l'
  end.

(** GROUP BY: one group per class, each with the rows of its class. *)
Definition group_by {A} (same : A -> A -> bool) (l : list A) : list (A * list A) :=
  List.map (fun k => (k, List.filter (same k) l)) (dedup_by same [] l).

Definition opt_eqb (a b : option Z) : bool :=
  match a, b with
  | Some x, Some y => x =? y
  | None, None => true
  | _, _ => false
  end.

(** [column = %s] and [column LIKE %s] for a text column and a bound
    parameter; [None] is SQL's unknown.  The program binds text to these
    placeholders; a number bound to them compares as different. *)
Definition text_equals (co : collation) (s : string) (v : value) : option bool :=
  match v with
  | VStr t => Some (str_eq co s t)
  | VNull => None
  | VNum _ => Some false
  end.

Definition like_param (co : collation) (s : string) (v : value) : bool :=
  match v with
  | VStr p => sql_like co s p
  | _ => false
  end.

(** [s IN (v1, ..., vn)]: true when one comparison is true, unknown when none
    is true and one is unknown, false otherwise. *)
Definition sql_in (co : collation) (s : string) (vs : list value) : option bool :=
  if existsb (fun v => bool_decide (text_equals co s v = Some true)) vs then Some true
  else if existsb (fun v => bool_decide (text_equals co s v = None)) vs then None
  else Some false.

Definition sql_not (b : option bool) : option bool := negb <$> b.

(** WHERE keeps a row when its condition is true (not false, not unknown). *)
Definition holds (b : option bool) : bool :=
  match b with
  | Some true => true
  | _ => false
  end.

Definition sql_and (a b : option bool) : option bool :=
  match a, b with
  | Some false, _ | _, Some false => Some false
  | Some true, Some true => Some true
  | _, _ => None
  end.

(** [LEFT JOIN purchase_history ph ON m.id = ph.medicine_id]: the purchases
    of the medicine, or one NULL row when it has none. *)
Definition left_join_purchases (db : Database) (m : Medicine) : list (option Purchase) :=
  match List.filter (fun ph => ph_medicine_id ph =? m_id m) (purchase_history db) with
  | [] => [None]
  | phs => List.map Some phs
  end.

(** [COUNT(ph.id)] over a group of joined rows: the rows where [ph.id] is
    not NULL. *)
Definition count_some {A} (l : list (option A)) : Z :=
  Z.of_nat (length (List.filter (fun o => match o with Some _ => true | None => false end) l)).

Definition sum_Z (l : list Z) : Z := fold_right Z.add 0 l.

(** MAX over a group, which is never empty. *)
Definition max_Z (x : Z) (l : list Z) : Z := fold_right Z.max x l.

Definition order_by `{Platform} (keys : list string) (rs : list row) : list row :=
  sort_with sql_order row (desc keys) rs.

(** DISTINCT compares the selected cells, text up to the collation. *)
Definition same_value (co : collation) (a b : value) : bool :=
  match a, b with
  | VStr s, VStr t => str_eq co s t
  | _, _ => value_eqb a b
  end.

Definition same_row (co : collation) (cols : list string) (a b : row) : bool :=
  forallb (fun c => same_value co (cell c a) (cell c b)) cols.

Definition distinct (co : collation) (cols : list string) (rs : list row) : list row :=
  dedup_by (same_row co cols) [] rs.

(** *** [load_medicines_from_db]
<<
    SELECT m.*,
           (SELECT COUNT(DISTINCT ph.id) FROM purchase_history ph
             WHERE ph.medicine_id = m.id) as purchase_count
    FROM medicines m
    GROUP BY m.id, m.name, m.type, m.treats, m.rating, m.price, m.reviews
    ORDER BY m.rating DESC
>> *)
Definition same_medicine (co : collation) (a b : Medicine) : bool :=
  (m_id a =? m_id b)
  && str_eq co (m_name a) (m_name b)
  && str_eq co (m_type a) (m_type b)
  && str_eq co (m_treats a) (m_treats b)
  && opt_eqb (m_rating a) (m_rating b)
  && opt_eqb (m_price a) (m_price b)
  && opt_eqb (m_reviews a) (m_reviews b).

Definition count_distinct_purchases (db : Database) (m : Medicine) : Z :=
  Z.of_nat (length (dedup_by Z.eqb []
    (List.map ph_id
       (List.filter (fun ph => ph_medicine_id ph =? m_id m) (purchase_history db))))).

Definition load_columns : list string := medicine_columns ++ ["purchase_count"].

Definition load_rows `{Platform} (db : Database) : list row :=
  order_by ["rating"]
    (List.map
       (fun g => <["purchase_count" := VNum (count_distinct_purchases db (fst g))]>
                   (medicine_row (fst g)))
       (group_by (same_medicine (collation_of db)) (medicines db))).

(** *** [get_user_history]
<<
    SELECT m.name, m.type, m.rating, m.price,
           SUM(ph.quantity) as total_quantity,
           MAX(ph.purchase_date) as latest_purchase_date
    FROM purchase_history ph
    JOIN medicines m ON ph.medicine_id = m.id
    WHERE ph.user_id = %s
    GROUP BY m.id, m.name, m.type, m.rating, m.price
    ORDER BY latest_purchase_date DESC
>> *)
Definition history_join (db : Database) : list (Purchase * Medicine) :=
  flat_map
    (fun ph =>
       List.map (fun m => (ph, m))
         (List.filter (fun m => ph_medicine_id ph =? m_id m) (medicines db)))
    (purchase_history db).

Definition user_is (v : value) (ph : Purchase) : bool :=
  match v with
  | VNum u => ph_user_id ph =? u
  | _ => false
  end.

Definition same_history_key (co : collation) (a b : Purchase * Medicine) : bool :=
  (m_id (snd a) =? m_id (snd b))
  && str_eq co (m_name (snd a)) (m_name (snd b))
  && str_eq co (m_type (snd a)) (m_type (snd b))
  && opt_eqb (m_rating (snd a)) (m_rating (snd b))
  && opt_eqb (m_price (snd a)) (m_price (snd b)).

Definition history_columns : list string :=
  ["name"; "type"; "rating"; "price"; "total_quantity"; "latest_purchase_date"].

Definition history_row (g : (Purchase * Medicine) * list (Purchase * Medicine)) : row :=
  let m := snd (fst g) in
  <["name" := VStr (m_name m)]>
  (<["type" := VStr (m_type m)]>
  (<["rating" := of_opt (m_rating m)]>
  (<["price" := of_opt (m_price m)]>
  (<["total_quantity" :=
       VNum (sum_Z (List.map (fun x => ph_quantity (fst x)) (snd g)))]>
  (<["latest_purchase_date" :=
       VNum (max_Z (ph_purchase_date (fst (fst g)))
                   (List.map (fun x => ph_purchase_date (fst x)) (snd g)))]> ∅))))).

Definition history_rows `{Platform} (db : Database) (user_id : value) : list row :=
  order_by ["latest_purchase_date"]
    (List.map history_row
       (group_by (same_history_key (collation_of db))
          (List.filter (fun x => user_is user_id (fst x)) (history_join db)))).

(** *** [search_medicines_db]
<<
    SELECT *, CASE WHEN name LIKE %s THEN 2 ELSE 0 END as relevance_score
    FROM medicines WHERE name LIKE %s
    ORDER BY relevance_score DESC, rating DESC

    SELECT *, CASE WHEN treats LIKE %s THEN 1 ELSE 0 END as relevance_score
    FROM medicines WHERE treats LIKE %s
    ORDER BY relevance_score DESC, rating DESC

    SELECT *, CASE WHEN name LIKE %s THEN 2
                   WHEN treats LIKE %s THEN 1
                   ELSE 0 END as relevance_score
    FROM medicines WHERE name LIKE %s OR treats LIKE %s
    ORDER BY relevance_score DESC, rating DESC
>> *)
Definition search_columns : list string := medicine_columns ++ ["relevance_score"].

Definition scored (score : Z) (m : Medicine) : row :=
  <["relevance_score" := VNum score]> (medicine_row m).

Definition search_medicine_rows `{Platform} (db : Database) (p1 p2 : value) : list row :=
  let co := collation_of db in
  order_by ["relevance_score"; "rating"]
    (List.map
       (fun m => scored (if like_param co (m_name m) p1 then 2 else 0) m)
       (List.filter (fun m => like_param co (m_name m) p2) (medicines db))).

Definition search_symptom_rows `{Platform} (db : Database) (p1 p2 : value) : list row :=
  let co := collation_of db in
  order_by ["relevance_score"; "rating"]
    (List.map
       (fun m => scored (if like_param co (m_treats m) p1 then 1 else 0) m)
       (List.filter (fun m => like_param co (m_treats m) p2) (medicines db))).

Definition both_score (co : collation) (p1 p2 : value) (m : Medicine) : Z :=
  if like_param co (m_name m) p1 then 2
  else if like_param co (m_treats m) p2 then 1
  else 0.

Definition search_both_rows `{Platform} (db : Database) (p1 p2 p3 p4 : value) : list row :=
  let co := collation_of db in
  order_by ["relevance_score"; "rating"]
    (List.map
       (fun m => scored (both_score co p1 p2 m) m)
       (List.filter
          (fun m => like_param co (m_name m) p3 || like_param co (m_treats m) p4)
          (medicines db))).

(** *** [generate_recommendations_db]: medicines of the same type
<<
    SELECT DISTINCT m2.name, m2.rating, m2.type,
           COUNT(ph.id) as popularity_score
    FROM medicines m1
    JOIN medicines m2 ON m1.type = m2.type
    LEFT JOIN purchase_history ph ON m2.id = ph.medicine_id
    WHERE m1.name IN (...)
    AND m2.name NOT IN (...)
    GROUP BY m2.id, m2.name, m2.rating, m2.type
    ORDER BY m2.rating DESC, popularity_score DESC
    LIMIT 3
>> *)
Definition in_history (co : collation) (ins outs : list value) (m1 m2 : Medicine) : bool :=
  holds (sql_and (sql_in co (m_name m1) ins) (sql_not (sql_in co (m_name m2) outs))).

Definition category_join (db : Database) : list (Medicine * Medicine * option Purchase) :=
  flat_map
    (fun m1 =>
       flat_map
         (fun m2 => List.map (fun ph => (m1, m2, ph)) (left_join_purchases db m2))
         (List.filter (fun m2 => str_eq (collation_of db) (m_type m1) (m_type m2))
            (medicines db)))
    (medicines db).

Definition same_category_key (co : collation)
    (a b : Medicine * Medicine * option Purchase) : bool :=
  let x := snd (fst a) in
  let y := snd (fst b) in
  (m_id x =? m_id y)
  && str_eq co (m_name x) (m_name y)
  && opt_eqb (m_rating x) (m_rating y)
  && str_eq co (m_type x) (m_type y).

Definition category_columns : list string :=
  ["name"; "rating"; "type"; "popularity_score"].

Definition category_row
    (g : (Medicine * Medicine * option Purchase)
         * list (Medicine * Medicine * option Purchase)) : row :=
  let m2 := snd (fst (fst g)) in
  <["name" := VStr (m_name m2)]>
  (<["rating" := of_opt (m_rating m2)]>
  (<["type" := VStr (m_type m2)]>
  (<["popularity_score" := VNum (count_some (List.map snd (snd g)))]> ∅))).

Definition category_rows `{Platform} (db : Database) (ins outs : list value) : list row :=
  let co := collation_of db in
  firstn 3
    (order_by ["rating"; "popularity_score"]
       (distinct co category_columns
          (List.map category_row
             (group_by (same_category_key co)
                (List.filter
                   (fun x => in_history co ins outs (fst (fst x)) (snd (fst x)))
                   (category_join db)))))).

(** *** [generate_recommendations_db]: medicines for the same symptoms
<<
    SELECT DISTINCT m2.name, m2.rating,
           (SELECT COUNT( * ) FROM purchase_history ph
             WHERE ph.medicine_id = m2.id) as popularity
    FROM medicines m1
    JOIN medicines m2 ON (
        m2.treats LIKE CONCAT('%', SUBSTRING_INDEX(m1.treats, ',', 1), '%') OR
        m1.treats LIKE CONCAT('%', SUBSTRING_INDEX(m2.treats, ',', 1), '%')
    )
    WHERE m1.name IN (...)
    AND m2.name NOT IN (...)
    ORDER BY m2.rating DESC, popularity DESC
    LIMIT 3
>> *)
Definition shares_symptom (co : collation) (m1 m2 : Medicine) : bool :=
  sql_like co (m_treats m2) (concat_percent (substring_index_comma_1 (m_treats m1)))
  || sql_like co (m_treats m1) (concat_percent (substring_index_comma_1 (m_treats m2))).

Definition symptom_join (db : Database) : list (Medicine * Medicine) :=
  flat_map
    (fun m1 =>
       List.map (fun m2 => (m1, m2))
         (List.filter (shares_symptom (collation_of db) m1) (medicines db)))
    (medicines db).

Definition count_purchases (db : Database) (m : Medicine) : Z :=
  Z.of_nat (length
    (List.filter (fun ph => ph_medicine_id ph =? m_id m) (purchase_history db))).

Definition symptom_columns : list string := ["name"; "rating"; "popularity"].

Definition symptom_row (db : Database) (x : Medicine * Medicine) : row :=
  <["name" := VStr (m_name (snd x))]>
  (<["rating" := of_opt (m_rating (snd x))]>
  (<["popularity" := VNum (count_purchases db (snd x))]> ∅)).

Definition symptom_rows `{Platform} (db : Database) (ins outs : list value) : list row :=
  let co := collation_of db in
  firstn 3
    (order_by ["rating"; "popularity"]
       (distinct co symptom_columns
          (List.map (symptom_row db)
             (List.filter (fun x => in_history co ins outs (fst x) (snd x))
                (symptom_join db))))).

(** *** [generate_recommendations_db]: the most purchased medicines
<<
    SELECT name, rating, reviews,
           COUNT(ph.id) as purchase_count
    FROM medicines m
    LEFT JOIN purchase_history ph ON m.id = ph.medicine_id
    WHERE m.name NOT IN (...)
    GROUP BY m.id, m.name, m.rating, m.reviews
    ORDER BY purchase_count DESC, rating DESC
    LIMIT 2
>> *)
Definition popular_join (db : Database) : list (Medicine * option Purchase) :=
  flat_map
    (fun m => List.map (fun ph => (m, ph)) (left_join_purchases db m))
    (medicines db).

Definition same_popular_key (co : collation) (a b : Medicine * option Purchase) : bool :=
  (m_id (fst a) =? m_id (fst b))
  && str_eq co (m_name (fst a)) (m_name (fst b))
  && opt_eqb (m_rating (fst a)) (m_rating (fst b))
  && opt_eqb (m_reviews (fst a)) (m_reviews (fst b)).

Definition popular_columns : list string :=
  ["name"; "rating"; "reviews"; "purchase_count"].

Definition popular_row
    (g : (Medicine * option Purchase) * list (Medicine * option Purchase)) : row :=
  let m := fst (fst g) in
  <["name" := VStr (m_name m)]>
  (<["rating" := of_opt (m_rating m)]>
  (<["reviews" := of_opt (m_reviews m)]>
  (<["purchase_count" := VNum (count_some (List.map snd (snd g)))]> ∅))).

Definition popular_rows `{Platform} (db : Database) (outs : list value) : list row :=
  let co := collation_of db in
  firstn 2
    (order_by ["purchase_count"; "rating"]
       (List.map popular_row
          (group_by (same_popular_key co)
             (List.filter
                (fun x => holds (sql_not (sql_in co (m_name (fst x)) outs)))
                (popular_join db))))).

(** *** Running a statement

    The parameters are bound to the placeholders from left to right.  [None]
    is the driver's ProgrammingError for a parameter list that does not fit
    the placeholders. *)
Definition sql_eval `{Platform} (db : Database) (q : Query) (params : list value)
  : option (list string * list row) :=
  match q with
  | QLoadMedicines =>
      match params with
      | [] => Some (load_columns, load_rows db)
      | _ => None
      end
  | QUserHistory =>
      match params with
      | [u] => Some (history_columns, history_rows db u)
      | _ => None
      end
  | QSearch ByMedicine =>
      match params with
      | [p1; p2] => Some (search_columns, search_medicine_rows db p1 p2)
      | _ => None
      end
  | QSearch BySymptom =>
      match params with
      | [p1; p2] => Some (search_columns, search_symptom_rows db p1 p2)
      | _ => None
      end
  | QSearch ByBoth =>
      match params with
      | [p1; p2; p3; p4] => Some (search_columns, search_both_rows db p1 p2 p3 p4)
      | _ => None
      end
  | QCategoryRecs n =>
      if (length params =? n + n)%nat
      then Some (category_columns, category_rows db (firstn n params) (skipn n params))
      else None
  | QSymptomRecs n =>
      if (length params =? n + n)%nat
      then Some (symptom_columns, symptom_rows db (firstn n params) (skipn n params))
      else None
  | QPopularRecs n =>
      if (length params =? n)%nat
      then Some (popular_columns, popular_rows db params)
      else None
  end.

End Sql.

(* ===================================================================== *)
(** ** Pandas *)
(* ===================================================================== *)

Module Pandas.
Import Data Sorting.

(** What a call can end with: a value, or a raised exception.  [DbError] is
    [mysql.connector.Error] with all its subclasses; [KeyError] is what
    pandas raises for a column the frame does not have. *)
Inductive Exn :=
| DbError (msg : string)
| KeyError (col : string).

Inductive Outcome (A : Type) :=
| Ret (a : A)
| Raise (e : Exn).
Arguments Ret {A} a.
Arguments Raise {A} e.

Record DataFrame := {
  columns : list string;
  rows : list row
}.

(** [pd.DataFrame()] *)
Definition no_frame : DataFrame := {| columns := []; rows := [] |}.

(** [pd.DataFrame(results, columns=columns)] *)
Definition frame_of (results : list row) (cols : list string) : DataFrame :=
  {| columns := cols; rows := results |}.

(** [df.empty]: no rows or no columns. *)
Definition empty (df : DataFrame) : bool :=
  match rows df, columns df with
  | [], _ => true
  | _, [] => true
  | _ :: _, _ :: _ => false
  end.

Definition has_column (col : string) (df : DataFrame) : bool :=
  bool_decide (col ∈ columns df).

(** [df.assign(col=v)]: a new column at the right, or the old one
    overwritten. *)
Definition assign (col : string) (v : value) (df : DataFrame) : DataFrame :=
  {| columns := if has_column col df then columns df else columns df ++ [col];
     rows := List.map (fun r => <[col := v]> r) (rows df) |}.

(** [pd.concat(frames, ignore_index=True)]: the rows one frame after the
    other; the columns are those of all frames in order of first appearance,
    and a cell a frame has no column for reads as NaN. *)
Fixpoint union_columns (seen : list string) (frames : list DataFrame) : list string :=
  match frames with
  | [] => seen
  | df :: rest =>
      union_columns
        (seen ++ List.filter (fun c => negb (bool_decide (c ∈ seen))) (columns df))
        rest
  end.

Definition concat (frames : list DataFrame) : DataFrame :=
  {| columns := union_columns [] frames;
     rows := flat_map rows frames |}.

Definition same_cell (col : string) (a b : row) : bool :=
  value_eqb (cell col a) (cell col b).

(** [df.drop_duplicates(col)], with [keep='first']: an empty frame is
    returned as it is, before the column is looked up. *)
Definition drop_duplicates (col : string) (df : DataFrame) : Outcome DataFrame :=
  if empty df then Ret df
  else if has_column col df then
    Ret {| columns := columns df;
           rows := Sql.dedup_by (same_cell col) [] (rows df) |}
  else Raise (KeyError col).

(** [drop_duplicates(keep='first')] in the words of its documentation: a row
    stays, and every later row with the same key goes. *)
Fixpoint keep_first (col : string) (l : list row) : list row :=
  match l with
  | [] => []
  | r :: l' => r :: List.filter (fun x => negb (same_cell col r x)) (keep_first col l')
  end.

(** [df.sort_values(col, ascending=False)] *)
Definition sort_values_desc `{Platform} (col : string) (df : DataFrame)
  : Outcome DataFrame :=
  if has_column col df then
    Ret {| columns := columns df;
           rows := sort_with pandas_order row (desc [col]) (rows df) |}
  else Raise (KeyError col).

(** [df.head(n)] *)
Definition head (n : nat) (df : DataFrame) : DataFrame :=
  {| columns := columns df; rows := firstn n (rows df) |}.

(** [df[col].tolist()] *)
Definition tolist (col : string) (df : DataFrame) : Outcome (list value) :=
  if has_column col df then Ret (List.map (cell col) (rows df))
  else Raise (KeyError col).

End Pandas.

(* ===================================================================== *)
(** ** App *)
(* ===================================================================== *)

Module App.
Import Text Data Sorting Sql Pandas.

(** A connection object of mysql.connector, named by the moment it was
    opened. *)
Definition Conn := nat.

(** What the dashboard shows through [st.markdown], [st.info], [st.warning]
    and [st.error]. *)
Inductive Level := Markdown | Info | Warning | Error.

Inductive Notice :=
| Connected (c : Conn)
| ConnectionFailed (e : string)
| Troubleshooting
| Reconnecting
| ReconnectFailed
| QueryError (e : string) (q : Query).

(** What a run does to the outside, in order. *)
Inductive Event :=
| EConnect
| EIsConnected (c : Conn)
| EPing (c : Conn) (reconnect : bool) (attempts delay : nat)
| EExecute (c : Conn) (q : Query) (params : list value)
| EShow (l : Level) (n : Notice).

(** The world a run happens in.  [up t] tells whether the server answers the
    [t]-th call to the driver; [tick] counts these calls; [cache] is the
    memory of [st.cache_resource] for [get_db_connection] ([None]: not called
    yet) and [cached_elements] what the cached call put on the page, which
    every later call shows again; [trace] collects the events, oldest first;
    [clock] is the time [pd.Timestamp.now()] reads. *)
Record World := {
  db : Database;
  up : nat -> bool;
  tick : nat;
  cache : option (option Conn);
  cached_elements : list (Level * Notice);
  trace : list Event;
  clock : Z
}.

(** The server answers every call. *)
Definition healthy (w : World) : Prop := forall t, up w t = true.

(** The statements a trace shows as sent to the server. *)
Definition statements (t : list Event) : list (Query * list value) :=
  flat_map
    (fun e =>
       match e with
       | EExecute _ q params => [(q, params)]
       | _ => []
       end) t.

Definition M (A : Type) : Type := World -> Outcome A * World.

Definition ret {A} (a : A) : M A := fun w => (Ret a, w).

Definition raise {A} (e : Exn) : M A := fun w => (Raise e, w).

Definition bind {A B} (m : M A) (k : A -> M B) : M B :=
  fun w =>
    match m w with
    | (Ret a, w') => k a w'
    | (Raise e, w') => (Raise e, w')
    end.

Notation "'let!' x ':=' m 'in' k" := (bind m (fun x => k))
  (at level 10, x name, m at level 200, k at level 200).
Notation "m >> k" := (bind m (fun _ => k))
  (at level 100, k at level 200, right associativity).

(** A pandas call inside the program. *)
Definition lift {A} (o : Outcome A) : M A := fun w => (o, w).

(** [try: body  except Error as e: handler(e)]: only database errors are
    caught. *)
Definition try_except_Error {A} (body : M A) (handler : string -> M A) : M A :=
  fun w =>
    match body w with
    | (Raise (DbError msg), w') => handler msg w'
    | r => r
    end.

Definition emit (e : Event) : M unit :=
  fun w =>
    (Ret tt,
     {| db := db w; up := up w; tick := tick w; cache := cache w;
        cached_elements := cached_elements w;
        trace := trace w ++ [e]; clock := clock w |}).

(** One call to the driver: it is recorded, and it uses up one tick. *)
Definition driver_call (e : Event) : M bool :=
  fun w =>
    (Ret (up w (tick w)),
     {| db := db w; up := up w; tick := S (tick w); cache := cache w;
        cached_elements := cached_elements w;
        trace := trace w ++ [e]; clock := clock w |}).

Definition show (l : Level) (n : Notice) : M unit := emit (EShow l n).

(** [mysql.connector.connect( **DB_CONFIG)] *)
Definition connect : M Conn :=
  fun w =>
    bind (driver_call EConnect)
      (fun ok => if ok then ret (tick w) else raise (DbError "connect")) w.

(** [connection.is_connected()] *)
Definition is_connected (c : Conn) : M bool := driver_call (EIsConnected c).

(** [connection.ping(reconnect, attempts, delay)]: raises when the server
    does not answer and cannot be reached again. *)
Definition ping (c : Conn) (reconnect : bool) (attempts delay : nat) : M unit :=
  let! ok := driver_call (EPing c reconnect attempts delay) in
  if ok then ret tt else raise (DbError "ping").

(** [cursor = connection.cursor(dictionary=True); cursor.execute(query,
    params); results = cursor.fetchall(); columns = [desc[0] for desc in
    cursor.description]; cursor.close()] *)
Definition run_cursor `{Platform} (c : Conn) (q : Query) (params : list value)
  : M (list row * list string) :=
  fun w =>
    bind (driver_call (EExecute c q params))
      (fun ok =>
         if ok then
           match sql_eval (db w) q params with
           | Some (cols, results) => ret (results, cols)
           | None => raise (DbError "parameters")
           end
         else raise (DbError "execute")) w.

(** [pd.Timestamp.now()] *)
Definition timestamp_now : M Z := fun w => (Ret (clock w), w).

(** *** [get_db_connection] *)

(** The body of the function: it returns the connection when it is open,
    [None] after a database error, and also [None] (by falling off its end)
    when the new connection does not report itself connected. *)
Definition open_connection : M (option Conn) :=
  try_except_Error
    (let! connection := connect in
     let! connected := is_connected connection in
     if connected then
       show Markdown (Connected connection) >>
       ret (Some connection)
     else ret None)
    (fun e =>
       show Error (ConnectionFailed e) >>
       show Info Troubleshooting >>
       ret None).

(** What a piece of trace put on the page, and the events that put it
    there again. *)
Definition shown_in (t : list Event) : list (Level * Notice) :=
  flat_map
    (fun e =>
       match e with
       | EShow l n => [(l, n)]
       | _ => []
       end) t.

Definition replay (elements : list (Level * Notice)) : list Event :=
  List.map (fun x => EShow (fst x) (snd x)) elements.

(** [@st.cache_resource]: the body runs once; its result is kept, together
    with the elements the body put on the page, and every later call hands
    out the result and shows these elements again, without running the
    body. *)
Definition cache_resource (body : M (option Conn)) : M (option Conn) :=
  fun w =>
    match cache w with
    | Some r =>
        (Ret r,
         {| db := db w; up := up w; tick := tick w; cache := cache w;
            cached_elements := cached_elements w;
            trace := trace w ++ replay (cached_elements w); clock := clock w |})
    | None =>
        match body w with
        | (Ret r, w') =>
            (Ret r,
             {| db := db w'; up := up w'; tick := tick w'; cache := Some r;
                cached_elements := shown_in (skipn (length (trace w)) (trace w'));
                trace := trace w'; clock := clock w' |})
        | (Raise e, w') => (Raise e, w')
        end
    end.

Definition get_db_connection : M (option Conn) := cache_resource open_connection.

(** *** [execute_query] *)

(** The statements after the if/else. *)
Definition fetch_frame `{Platform} (c : Conn) (query : Query) (params : list value)
  : M DataFrame :=
  let! r := run_cursor c query params in
  ret (frame_of (fst r) (snd r)).

Definition give_up_reconnecting : M DataFrame :=
  show Error ReconnectFailed >>
  ret no_frame.

(** The else branch: [connection] is rebound to what [get_db_connection]
    hands out; [not connection or not connection.is_connected()] asks the
    connection only when there is one. *)
Definition reconnect_and_fetch `{Platform} (query : Query) (params : list value)
  : M DataFrame :=
  show Warning Reconnecting >>
  let! connection := get_db_connection in
  match connection with
  | None => give_up_reconnecting
  | Some c =>
      let! connected := is_connected c in
      if negb connected then give_up_reconnecting
      else fetch_frame c query params
  end.

(** The body of the [try]; [connection and connection.is_connected()] asks
    the connection only when there is one. *)
Definition execute_query_body `{Platform} (connection : option Conn) (query : Query)
    (params : list value) : M DataFrame :=
  match connection with
  | None => reconnect_and_fetch query params
  | Some c =>
      let! connected := is_connected c in
      if connected then
        ping c true 3 1 >>
        fetch_frame c query params
      else reconnect_and_fetch query params
  end.

Definition execute_query `{Platform} (connection : option Conn) (query : Query)
    (params : list value) : M DataFrame :=
  try_except_Error
    (execute_query_body connection query params)
    (fun e =>
       show Error (QueryError e query) >>
       ret no_frame).

(** *** [load_medicines_from_db] *)
Definition load_medicines_from_db `{Platform} (connection : option Conn) : M DataFrame :=
  let! df := execute_query connection QLoadMedicines [] in
  if negb (empty df) then lift (drop_duplicates "name" df)
  else ret df.

(** *** [get_user_history] *)
Definition get_user_history `{Platform} (connection : option Conn) (user_id : Z)
  : M DataFrame :=
  execute_query connection QUserHistory [VNum user_id].

(** *** [search_medicines_db] *)
Definition search_medicines_db `{Platform} (connection : option Conn) (query : string)
    (search_type : string) : M DataFrame :=
  let query_lower := VStr ("%" +:+ lower query +:+ "%") in
  if String.eqb search_type "medicine" then
    execute_query connection (QSearch ByMedicine) [query_lower; query_lower]
  else if String.eqb search_type "symptom" then
    execute_query connection (QSearch BySymptom) [query_lower; query_lower]
  else
    execute_query connection (QSearch ByBoth)
      [query_lower; query_lower; query_lower; query_lower].

(** [search_type.lower().replace(" ", "_")], as [main] calls the search. *)
Definition search_type_of_label (label : string) : string :=
  replace_char " " "_" (lower label).

(** The options of the "Search Type:" select box. *)
Definition search_type_labels : list string :=
  ["Both"; "Medicine Only"; "Symptoms Only"].

(** *** [generate_recommendations_db] *)

(** The JSON-compatible dictionary the function builds. *)
#[local] Set Warnings "-register-all".
Inductive json :=
| JNull
| JNaN
| JNum (z : Z)
| JStr (s : string)
| JList (l : list json)
| JDict (fields : list (string * json)).

Definition json_of (v : value) : json :=
  match v with
  | VNull => JNull
  | VNum z => JNum z
  | VStr s => JStr s
  end.

(** [row[col]] on a row of the concatenated frame: a cell the frame of the
    row had no column for was filled with NaN by [pd.concat]. *)
Definition json_cell (col : string) (r : row) : json :=
  match r !! col with
  | Some v => json_of v
  | None => JNaN
  end.

(** [float(row['rating']) if row['rating'] else 0.0]: zero and [None] are
    false and read as 0.0; NaN is true, and [float] leaves it as it is.  (The
    statements deliver numbers and NULL in this column, no text.) *)
Definition rating_json (m : Missing) (v : value) : json :=
  match v with
  | VNum z => JNum z
  | VNull =>
      match m with
      | PyNone => JNum 0
      | NaN => JNaN
      end
  | VStr _ => JNum 0
  end.

(** One entry of ["recommendations"]; ['type' in row] asks whether the frame
    has the column. *)
Definition recommendation_json `{Platform} (frames : list (list row))
    (top_recs : DataFrame) (r : row) : json :=
  JDict
    [("name", json_of (cell "name" r));
     ("type", if has_column "type" top_recs then json_cell "type" r else JNull);
     ("rating", rating_json (missing "rating" frames r) (cell "rating" r));
     ("source", json_of (cell "source" r))].

(** The frame of all candidates: [pd.concat([...assign(source=...)...],
    ignore_index=True)]. *)
Definition all_recs (category_recs symptom_recs popular_recs : DataFrame) : DataFrame :=
  concat
    [assign "source" (VStr "category") category_recs;
     assign "source" (VStr "symptom") symptom_recs;
     assign "source" (VStr "popular") popular_recs].

Definition generate_recommendations_db `{Platform} (connection : option Conn)
    (user_history_names : list string) : M (list value * json) :=
  match user_history_names with
  | [] => ret ([], JDict [])
  | _ :: _ =>
      let n := length user_history_names in
      let names := List.map VStr user_history_names in
      let! category_recs :=
        execute_query connection (QCategoryRecs n) (names ++ names) in
      let! symptom_recs :=
        execute_query connection (QSymptomRecs n) (names ++ names) in
      let! popular_recs :=
        execute_query connection (QPopularRecs n) names in
      let! deduped :=
        lift (drop_duplicates "name" (all_recs category_recs symptom_recs popular_recs)) in
      let! unique_recs := lift (sort_values_desc "rating" deduped) in
      let top_recs := head 4 unique_recs in
      let! now := timestamp_now in
      let frames := [rows category_recs; rows symptom_recs; rows popular_recs] in
      let json_response :=
        JDict
          [("recommendations",
            JList (List.map (recommendation_json frames top_recs) (rows top_recs)));
           ("based_on_history", JList (List.map JStr user_history_names));
           ("timestamp", JNum now)] in
      let! recommended := lift (tolist "name" top_recs) in
      ret (recommended, json_response)
  end.

End App.

(* ===================================================================== *)
(** ** Facts about sorting *)
(* ===================================================================== *)

Module SortingFacts.
Import Data Sorting.

Lemma insert_sorted_perm {A} (le : A -> A -> bool) x l :
  Permutation (insert_sorted le x l) (x :: l).
Proof.
  induction l as [|y l IH]; simpl.
  - reflexivity.
  - destruct (le x y).
    + reflexivity.
    + rewrite IH. apply perm_swap.
Qed.

Lemma insertion_sort_perm {A} (le : A -> A -> bool) l :
  Permutation (insertion_sort le l) l.
Proof.
  induction l as [|x l IH]; simpl.
  - reflexivity.
  - rewrite insert_sorted_perm. now rewrite IH.
Qed.

Lemma insert_sorted_sorted {A} (le : A -> A -> bool) x l :
  total le -> transitive le ->
  sorted_by le l -> sorted_by le (insert_sorted le x l).
Proof.
  intros Htot Htr Hs. unfold sorted_by in *.
  induction Hs as [|y l Hs IH Hy]; simpl.
  - repeat constructor.
  - destruct (le x y) eqn:Hxy.
    + constructor.
      * now constructor.
      * constructor; [exact Hxy|].
        eapply Forall_impl; [exact Hy|].
        intros z Hz. eapply Htr; eassumption.
    + constructor; [exact IH|].
      assert (Hyx : le y x = true).
      { destruct (Htot x y) as [H|H]; [congruence|exact H]. }
      rewrite (insert_sorted_perm le x l). now constructor.
Qed.

Lemma insertion_sort_sorted {A} (le : A -> A -> bool) l :
  total le -> transitive le -> sorted_by le (insertion_sort le l).
Proof.
  intros Htot Htr. induction l as [|x l IH]; simpl.
  - constructor.
  - now apply insert_sorted_sorted.
Qed.

(** The sorter that runs the examples. *)
Definition insertion : Sorter :=
  {| sort_with := fun A le l => insertion_sort le l;
     sort_with_perm := fun A le l => insertion_sort_perm le l;
     sort_with_sorted := fun A le l => insertion_sort_sorted le l |}.

(** The platform of the examples: both sorters are insertion sort, and the
    numbers are DECIMAL. *)
Definition reference_platform : Platform :=
  {| sql_order := insertion; pandas_order := insertion;
     missing := fun _ _ _ => PyNone |}.

Definition holds_number (col : string) (r : row) : bool :=
  match cell col r with
  | VNum _ => true
  | _ => false
  end.

(** The same with numbers in FLOAT columns: a column with a number in it is
    float64, and its cells without a number hold NaN. *)
Definition float_platform : Platform :=
  {| sql_order := insertion; pandas_order := insertion;
     missing := fun col frames _ =>
       if existsb (existsb (holds_number col)) frames then NaN else PyNone |}.

End SortingFacts.

(* ===================================================================== *)
(** ** Facts about the order of cells *)
(* ===================================================================== *)

Module OrderFacts.
Import Data Sorting.

Lemma chars_leb_total a b : chars_leb a b = true \/ chars_leb b a = true.
Proof.
  revert b. induction a as [|x a IH]; intros [|y b]; simpl; auto.
  destruct (IH b) as [H|H]; rewrite H;
    destruct (Nat.ltb_spec (nat_of_ascii x) (nat_of_ascii y));
    destruct (Nat.ltb_spec (nat_of_ascii y) (nat_of_ascii x));
    destruct (Nat.eqb_spec (nat_of_ascii x) (nat_of_ascii y));
    destruct (Nat.eqb_spec (nat_of_ascii y) (nat_of_ascii x));
    simpl; auto; lia.
Qed.

Lemma chars_leb_trans a b c :
  chars_leb a b = true -> chars_leb b c = true -> chars_leb a c = true.
Proof.
  revert b c. induction a as [|x a IH]; intros [|y b] [|z c]; simpl; auto;
    try discriminate.
  intros H1 H2.
  apply orb_true_iff in H1. apply orb_true_iff in H2. apply orb_true_iff.
  rewrite !andb_true_iff in *.
  rewrite !Nat.ltb_lt, !Nat.eqb_eq in *.
  destruct H1 as [H1|[H1 H1']], H2 as [H2|[H2 H2']].
  - left. lia.
  - left. lia.
  - left. lia.
  - right. split; [lia|]. eapply IH; eassumption.
Qed.

Lemma value_leb_total a b : value_leb a b = true \/ value_leb b a = true.
Proof.
  destruct a, b; simpl; auto.
  - destruct (Z.leb_spec z z0), (Z.leb_spec z0 z); auto; lia.
  - apply chars_leb_total.
Qed.

Lemma value_leb_trans a b c :
  value_leb a b = true -> value_leb b c = true -> value_leb a c = true.
Proof.
  destruct a, b, c; simpl; auto; try discriminate.
  - rewrite !Z.leb_le. lia.
  - apply chars_leb_trans.
Qed.

Lemma desc_total keys : total (desc keys).
Proof.
  intros r1 r2. induction keys as [|k ks IH]; simpl; auto.
  pose proof (value_leb_total (cell k r1) (cell k r2)) as Htot.
  destruct (value_leb (cell k r1) (cell k r2)),
           (value_leb (cell k r2) (cell k r1)); auto.
Qed.

Lemma desc_trans keys : transitive (desc keys).
Proof.
  intros r1 r2 r3. induction keys as [|k ks IH]; simpl; auto.
  destruct (value_leb (cell k r2) (cell k r1)) eqn:E21; [|discriminate].
  destruct (value_leb (cell k r3) (cell k r2)) eqn:E32;
    [|destruct (value_leb (cell k r1) (cell k r2)); discriminate].
  rewrite (value_leb_trans _ _ _ E32 E21).
  destruct (value_leb (cell k r1) (cell k r2)) eqn:E12.
  - destruct (value_leb (cell k r2) (cell k r3)) eqn:E23.
    + rewrite (value_leb_trans _ _ _ E12 E23). auto.
    + intros _ _. destruct (value_leb (cell k r1) (cell k r3)) eqn:E13; auto.
      rewrite (value_leb_trans _ _ _ E21 E13) in E23. discriminate.
  - intros _ H. destruct (value_leb (cell k r1) (cell k r3)) eqn:E13; auto.
    rewrite (value_leb_trans _ _ _ E13 E32) in E12. discriminate.
Qed.

Lemma order_by_perm `{Platform} keys rs : Permutation (Sql.order_by keys rs) rs.
Proof. apply sort_with_perm. Qed.

Lemma order_by_sorted `{Platform} keys rs : sorted_by (desc keys) (Sql.order_by keys rs).
Proof. apply sort_with_sorted; [apply desc_total|apply desc_trans]. Qed.

Lemma Forall_sublist {A} (P : A -> Prop) (l k : list A) :
  sublist k l -> Forall P l -> Forall P k.
Proof.
  induction 1 as [|x k l Hsub IH|x k l Hsub IH]; intros HP.
  - constructor.
  - inversion HP; subst. constructor; auto.
  - inversion HP; subst. auto.
Qed.

(** A part of a sorted list, in the same order, is sorted. *)
Lemma sorted_by_sublist {A} (le : A -> A -> bool) (l k : list A) :
  sublist k l -> sorted_by le l -> sorted_by le k.
Proof.
  unfold sorted_by.
  induction 1 as [|x k l Hsub IH|x k l Hsub IH]; intros Hs.
  - constructor.
  - inversion Hs; subst. constructor; [auto|].
    eapply Forall_sublist; eassumption.
  - inversion Hs; subst. auto.
Qed.

Lemma sorted_by_firstn {A} (le : A -> A -> bool) n (l : list A) :
  sorted_by le l -> sorted_by le (firstn n l).
Proof. apply sorted_by_sublist, sublist_take. Qed.

End OrderFacts.

(* ===================================================================== *)
(** ** Facts about DISTINCT, GROUP BY and drop_duplicates *)
(* ===================================================================== *)

Module DedupFacts.
Import Data Sorting Sql Pandas.

Lemma dedup_by_sublist {A} (same : A -> A -> bool) seen l :
  sublist (dedup_by same seen l) l.
Proof.
  revert seen. induction l as [|x l IH]; intros seen; simpl.
  - constructor.
  - destruct (existsb (same x) seen).
    + apply sublist_cons, IH.
    + apply sublist_skip, IH.
Qed.

Lemma sublist_In {A} (k l : list A) x : sublist k l -> In x k -> In x l.
Proof.
  induction 1 as [|y k l Hsub IH|y k l Hsub IH]; simpl; intuition.
Qed.

Lemma dedup_by_In {A} (same : A -> A -> bool) seen l x :
  In x (dedup_by same seen l) -> In x l.
Proof. apply sublist_In, dedup_by_sublist. Qed.

Lemma dedup_by_unseen {A} (same : A -> A -> bool) seen l x :
  In x (dedup_by same seen l) -> existsb (same x) seen = false.
Proof.
  revert seen. induction l as [|y l IH]; intros seen; simpl; [tauto|].
  destruct (existsb (same y) seen) eqn:E.
  - apply IH.
  - intros [->|Hin]; [exact E|].
    apply IH in Hin. simpl in Hin. now apply orb_false_iff in Hin.
Qed.

(** The rows kept have pairwise different keys, when rows with one key are
    [same]. *)
Lemma dedup_by_NoDup {A B} (f : A -> B) (same : A -> A -> bool) seen l :
  (forall a b, In a l -> In b l \/ In b seen -> f a = f b -> same a b = true) ->
  NoDup (List.map f (dedup_by same seen l)).
Proof.
  revert seen. induction l as [|x l IH]; intros seen Hsame; simpl.
  - constructor.
  - destruct (existsb (same x) seen) eqn:E.
    + apply IH. intros a b Ha Hb. apply Hsame; simpl; tauto.
    + simpl. constructor.
      * rewrite list_elem_of_In, in_map_iff. intros (y & Hfy & Hy).
        pose proof (dedup_by_In _ _ _ _ Hy) as Hyl.
        apply dedup_by_unseen in Hy. simpl in Hy.
        apply orb_false_iff in Hy as [Hy _].
        rewrite (Hsame y x) in Hy; simpl; auto. discriminate.
      * apply IH. intros a b Ha [Hb|[<-|Hb]]; apply Hsame; simpl; auto.
Qed.

(** Every row has a [same] row among those kept or seen before. *)
Lemma dedup_by_covers {A} (same : A -> A -> bool) seen l x :
  (forall a, same a a = true) ->
  In x l ->
  exists r, (In r seen \/ In r (dedup_by same seen l)) /\ same x r = true.
Proof.
  intros Hrefl. revert seen. induction l as [|y l IH]; intros seen; simpl; [tauto|].
  intros [->|Hin].
  - destruct (existsb (same x) seen) eqn:E.
    + apply existsb_exists in E as (r & Hr & Hxr). eauto.
    + exists x. simpl. auto.
  - destruct (existsb (same y) seen) eqn:E.
    + apply IH, Hin.
    + destruct (IH (y :: seen) Hin) as (r & Hr & Hxr).
      exists r. split; [|exact Hxr].
      simpl in *. destruct Hr as [[Heq|Hr]|Hr]; auto.
Qed.

Lemma same_cell_sym col a b : same_cell col a b = same_cell col b a.
Proof.
  unfold same_cell, value_eqb.
  apply bool_decide_ext. split; congruence.
Qed.

Lemma same_cell_eq col a b : same_cell col a b = true <-> cell col a = cell col b.
Proof. unfold same_cell, value_eqb. apply bool_decide_eq_true. Qed.

Lemma filter_filter {A} (p q : A -> bool) l :
  List.filter p (List.filter q l) = List.filter (fun x => q x && p x) l.
Proof.
  induction l as [|x l IH]; simpl; [reflexivity|].
  destruct (q x); simpl; [destruct (p x)|]; now rewrite IH.
Qed.

Lemma filter_ext_In' {A} (p q : A -> bool) l :
  (forall x, In x l -> p x = q x) -> List.filter p l = List.filter q l.
Proof.
  induction l as [|x l IH]; simpl; intros H; [reflexivity|].
  rewrite (H x) by auto. rewrite IH by auto. reflexivity.
Qed.

Lemma dedup_by_keep_first col seen l :
  dedup_by (same_cell col) seen l =
  List.filter (fun x => negb (existsb (same_cell col x) seen)) (keep_first col l).
Proof.
  revert seen. induction l as [|x l IH]; intros seen; simpl; [reflexivity|].
  destruct (existsb (same_cell col x) seen) eqn:E; simpl.
  - rewrite IH, filter_filter. apply filter_ext_In'. intros y _.
    destruct (same_cell col x y) eqn:Exy; simpl; [|reflexivity].
    apply same_cell_eq in Exy.
    apply existsb_exists in E as (s & Hs & Hxs). apply same_cell_eq in Hxs.
    apply negb_false_iff, existsb_exists. exists s. split; [exact Hs|].
    apply same_cell_eq. congruence.
  - f_equal. rewrite IH, filter_filter. apply filter_ext_In'. intros y _.
    simpl. rewrite negb_orb, (same_cell_sym col y x). reflexivity.
Qed.

Lemma drop_duplicates_keep_first col l :
  dedup_by (same_cell col) [] l = keep_first col l.
Proof.
  rewrite dedup_by_keep_first. simpl.
  induction (keep_first col l) as [|x k IH]; simpl; [reflexivity|].
  now rewrite IH.
Qed.

Lemma keep_first_NoDup col l : NoDup (List.map (cell col) (keep_first col l)).
Proof.
  rewrite <- drop_duplicates_keep_first.
  apply dedup_by_NoDup. intros a b _ _ Hab. now apply same_cell_eq.
Qed.

Lemma keep_first_sublist col l : sublist (keep_first col l) l.
Proof. rewrite <- drop_duplicates_keep_first. apply dedup_by_sublist. Qed.

Lemma has_column_true col df : has_column col df = true <-> In col (columns df).
Proof.
  unfold has_column. rewrite bool_decide_eq_true. apply list_elem_of_In.
Qed.

Lemma drop_duplicates_frame col cols rs :
  In col cols ->
  drop_duplicates col (frame_of rs cols) = Ret (frame_of (keep_first col rs) cols).
Proof.
  intros Hcol. unfold drop_duplicates.
  destruct (empty (frame_of rs cols)) eqn:E.
  - destruct rs as [|r rs]; [reflexivity|].
    destruct cols; [destruct Hcol|discriminate].
  - assert (Hc : has_column col (frame_of rs cols) = true)
      by now apply has_column_true.
    rewrite Hc. simpl. now rewrite drop_duplicates_keep_first.
Qed.

(** *** GROUP BY *)
Lemma group_by_keys {A} (same : A -> A -> bool) l :
  List.map fst (group_by same l) = dedup_by same [] l.
Proof.
  unfold group_by. rewrite map_map. simpl. apply map_id.
Qed.

Lemma group_by_In {A} (same : A -> A -> bool) l g :
  In g (group_by same l) ->
  In (fst g) (dedup_by same [] l) /\ snd g = List.filter (same (fst g)) l.
Proof.
  unfold group_by. rewrite in_map_iff. intros (k & <- & Hk). simpl. auto.
Qed.

End DedupFacts.

(* ===================================================================== *)
(** ** Facts about runs *)
(* ===================================================================== *)

Module RunFacts.
Import Text Data Sorting Sql Pandas App.

(** Case analysis on the next thing a run depends on. *)
Ltac step :=
  match goal with
  | |- context [match ?x with _ => _ end] =>
      match x with
      | context [match _ with _ => _ end] => fail 1
      | _ => destruct x eqn:?
      end
  end.

Ltac unfold_run :=
  unfold execute_query, execute_query_body, reconnect_and_fetch,
    give_up_reconnecting, fetch_frame, run_cursor, ping, is_connected,
    get_db_connection, cache_resource, open_connection, try_except_Error,
    connect, show, emit, driver_call, bind, ret, raise.

Ltac run_cases := simpl; repeat (step; simpl).

Lemma statements_app t1 t2 : statements (t1 ++ t2) = statements t1 ++ statements t2.
Proof. unfold statements. apply flat_map_app. Qed.

(** Showing cached elements again sends nothing. *)
Lemma statements_replay elements : statements (replay elements) = [].
Proof. induction elements as [|x l IH]; [reflexivity|exact IH]. Qed.

(** [execute_query] always returns a frame: the empty one, or the rows and
    columns of the statement.  It leaves the database, the server and the
    clock alone, and keeps a connection that is already cached. *)
Lemma execute_query_shape `{Platform} conn q ps w :
  exists df w',
    execute_query conn q ps w = (Ret df, w')
    /\ db w' = db w /\ up w' = up w /\ clock w' = clock w
    /\ (forall r, cache w = Some r -> cache w' = Some r)
    /\ (df = no_frame
        \/ exists cols rs,
             sql_eval (db w) q ps = Some (cols, rs) /\ df = frame_of rs cols).
Proof.
  unfold_run. destruct conn as [c|]; run_cases;
    do 2 eexists; repeat split; try reflexivity; eauto; try congruence.
Qed.

(** With a server that answers and an open connection, the statement is run
    and its result comes back. *)
Lemma execute_query_healthy `{Platform} c q ps w cols rs :
  healthy w ->
  sql_eval (db w) q ps = Some (cols, rs) ->
  exists w',
    execute_query (Some c) q ps w = (Ret (frame_of rs cols), w')
    /\ db w' = db w /\ healthy w'.
Proof.
  intros Hup Hq. unfold_run. simpl.
  repeat (rewrite Hup; simpl). rewrite Hq. simpl.
  eexists. repeat split. exact Hup.
Qed.





End RunFacts.

(* ===================================================================== *)
(** ** Facts about text and LIKE *)
(* ===================================================================== *)

Module TextFacts.
Import Text.

Lemma chars_text l : chars (text l) = l.
Proof. apply list_ascii_of_string_of_list_ascii. Qed.

Lemma chars_app a b : chars (a +:+ b) = chars a ++ chars b.
Proof. induction a as [|c a IH]; simpl; [reflexivity|]. now rewrite IH. Qed.

Lemma chars_lower s : chars (lower s) = List.map lower_char (chars s).
Proof. apply chars_text. Qed.

Lemma chars_pattern s :
  chars ("%" +:+ s +:+ "%") = "%"%char :: chars s ++ ["%"%char].
Proof. rewrite !chars_app. reflexivity. Qed.

Lemma lower_char_idem c : lower_char (lower_char c) = lower_char c.
Proof. destruct c as [[] [] [] [] [] [] [] []]; reflexivity. Qed.

Lemma lower_char_backslash c :
  Ascii.eqb (lower_char c) "\" = Ascii.eqb c "\".
Proof. destruct c as [[] [] [] [] [] [] [] []]; reflexivity. Qed.

Lemma lower_char_percent c :
  Ascii.eqb (lower_char c) "%" = Ascii.eqb c "%".
Proof. destruct c as [[] [] [] [] [] [] [] []]; reflexivity. Qed.

Lemma lower_char_underscore c :
  Ascii.eqb (lower_char c) "_" = Ascii.eqb c "_".
Proof. destruct c as [[] [] [] [] [] [] [] []]; reflexivity. Qed.

Lemma is_meta_lower c : is_meta (lower_char c) = is_meta c.
Proof.
  unfold is_meta.
  now rewrite lower_char_backslash, lower_char_percent, lower_char_underscore.
Qed.

Lemma meta_free_lower q : meta_free q = true -> meta_free (lower q) = true.
Proof.
  unfold meta_free. rewrite chars_lower.
  induction (chars q) as [|c l IH]; simpl; [reflexivity|].
  rewrite is_meta_lower. intros Hc. apply andb_true_iff in Hc as [Hc Hl].
  rewrite Hc. simpl. now apply IH.
Qed.

Lemma char_eq_refl co c : char_eq co c c = true.
Proof. apply Ascii.eqb_refl. Qed.

Lemma chars_eq_refl co l : chars_eq co l l = true.
Proof.
  induction l as [|c l IH]; simpl; [reflexivity|].
  now rewrite char_eq_refl, IH.
Qed.

Lemma str_eq_refl co s : str_eq co s s = true.
Proof. apply chars_eq_refl. Qed.

(** [%] at the head of a pattern: the rest matches here, or one character
    is skipped. *)
Lemma like_many_unfold co p s :
  like_match co (PMany :: p) s
  = like_match co p s
    || match s with
       | [] => false
       | _ :: s' => like_match co (PMany :: p) s'
       end.
Proof. destruct s; reflexivity. Qed.

Lemma like_many_here co p s :
  like_match co p s = true -> like_match co (PMany :: p) s = true.
Proof. intros Hp. rewrite like_many_unfold, Hp. reflexivity. Qed.

Lemma like_many_skip co p c s :
  like_match co (PMany :: p) s = true -> like_match co (PMany :: p) (c :: s) = true.
Proof.
  intros Hp. rewrite like_many_unfold, Hp. apply orb_true_r.
Qed.

Lemma like_many_last co s : like_match co [PMany] s = true.
Proof.
  induction s as [|c s IH].
  - reflexivity.
  - now apply like_many_skip.
Qed.

(** A text without backslash matches the pattern made of its own lower-case
    form, whatever follows: [%] and [_] in the name match themselves. *)
Lemma like_own_name (s t : list ascii) :
  forallb (fun c => negb (Ascii.eqb c "\")) s = true ->
  like_match general_ci (like_parse (List.map lower_char s ++ ["%"%char])) (s ++ t)
  = true.
Proof.
  induction s as [|c s IH]; intros Hs.
  - apply like_many_last.
  - simpl in Hs. apply andb_true_iff in Hs as [Hc Hs].
    apply negb_true_iff in Hc.
    change (List.map lower_char (c :: s) ++ ["%"%char])
      with (lower_char c :: (List.map lower_char s ++ ["%"%char])).
    change ((c :: s) ++ t) with (c :: (s ++ t)).
    cbn [like_parse]. rewrite lower_char_backslash, Hc.
    destruct (Ascii.eqb (lower_char c) "%") eqn:Ep.
    + apply like_many_skip, like_many_here, IH, Hs.
    + destruct (Ascii.eqb (lower_char c) "_") eqn:Eu.
      * cbn [like_match]. apply IH, Hs.
      * cbn [like_match]. unfold char_eq, fold.
        rewrite lower_char_idem, Ascii.eqb_refl. apply IH, Hs.
Qed.

(** A name without backslash is found by the pattern built from it. *)
Lemma like_lowered_name name :
  backslash_free name = true ->
  sql_like general_ci name ("%" +:+ lower name +:+ "%") = true.
Proof.
  intros Hb. unfold sql_like. rewrite chars_pattern, chars_lower.
  change (like_parse ("%"%char :: List.map lower_char (chars name) ++ ["%"%char]))
    with (PMany :: like_parse (List.map lower_char (chars name) ++ ["%"%char])).
  apply like_many_here.
  rewrite <- (app_nil_r (chars name)) at 2. now apply like_own_name.
Qed.

(** Without metacharacters a pattern is its characters, one by one. *)
Lemma like_parse_plain q :
  forallb (fun c => negb (is_meta c)) q = true ->
  like_parse (q ++ ["%"%char]) = List.map PChar q ++ [PMany].
Proof.
  induction q as [|c q IH]; intros Hq; [reflexivity|].
  simpl in Hq. apply andb_true_iff in Hq as [Hc Hq].
  unfold is_meta in Hc. apply negb_true_iff in Hc.
  apply orb_false_iff in Hc as [Hc Hu]. apply orb_false_iff in Hc as [Hb Hp].
  change ((c :: q) ++ ["%"%char]) with (c :: (q ++ ["%"%char])).
  cbn [like_parse]. rewrite Hb, Hp, Hu. simpl. now rewrite IH.
Qed.

Lemma like_plain_prefix co q s :
  like_match co (List.map PChar q ++ [PMany]) s
  = starts_with (List.map (fold co) q) (List.map (fold co) s).
Proof.
  revert s. induction q as [|c q IH]; intros s.
  - simpl List.map. rewrite like_many_last. now destruct s.
  - destruct s as [|x s]; [reflexivity|].
    simpl. now rewrite IH.
Qed.

Lemma like_plain_anywhere co q s :
  like_match co (PMany :: List.map PChar q ++ [PMany]) s
  = contains_chars (List.map (fold co) q) (List.map (fold co) s).
Proof.
  induction s as [|x s IH].
  - rewrite like_many_unfold, like_plain_prefix. reflexivity.
  - rewrite like_many_unfold, like_plain_prefix, IH. reflexivity.
Qed.

(** For a pattern text [q] without metacharacters, [LIKE '%q%'] asks whether
    the text contains [q], both read through the collation. *)
Lemma like_plain_contains co q s :
  meta_free q = true ->
  sql_like co s ("%" +:+ q +:+ "%") = str_contains (fold_text co q) (fold_text co s).
Proof.
  intros Hq. unfold sql_like, str_contains, fold_text.
  rewrite chars_pattern, !chars_text.
  change (like_parse ("%"%char :: chars q ++ ["%"%char]))
    with (PMany :: like_parse (chars q ++ ["%"%char])).
  rewrite like_parse_plain by exact Hq.
  apply like_plain_anywhere.
Qed.

End TextFacts.

(* ===================================================================== *)
(** ** A small pharmacy to run the model on *)
(* ===================================================================== *)

Module Demo.
Import Text Data Sorting Sql Pandas App SortingFacts.

Definition med (id : Z) (name type treats : string) (rating : Z) : Medicine :=
  {| m_id := id; m_name := name; m_type := type; m_treats := treats;
     m_rating := Some rating; m_price := Some 500; m_reviews := Some 10 |}.

Definition buy (id user medicine quantity date : Z) : Purchase :=
  {| ph_id := id; ph_user_id := user; ph_medicine_id := medicine;
     ph_quantity := quantity; ph_purchase_date := date |}.

Definition aspirin : Medicine := med 1 "Aspirin" "Analgesic" "headache, fever" 85.

Definition pharmacy : Database :=
  {| collation_of := general_ci;
     medicines :=
       [aspirin;
        med 2 "Ibuprofen" "Analgesic" "headache, inflammation" 90;
        med 3 "Metformin" "Antidiabetic" "diabetes" 80;
        med 4 "Paracetamol" "Analgesic" "fever, pain" 88;
        med 5 "Insulin" "Antidiabetic" "diabetes, sugar" 95];
     users := [{| u_id := 7; u_name := "Ada"; u_profile := "adult" |}];
     purchase_history :=
       [buy 1 7 1 2 100; buy 2 7 1 3 120; buy 3 7 3 1 110; buy 4 8 2 5 130] |}.

(** A world with the connection [0] open and cached. *)
Definition world_of (d : Database) (answers : nat -> bool) : World :=
  {| db := d; up := answers; tick := 1; cache := Some (Some 0%nat);
     cached_elements := [(Markdown, Connected 0%nat)];
     trace := [EConnect]; clock := 0 |}.

Definition good_day : World := world_of pharmacy (fun _ => true).

(** The server is gone. *)
Definition bad_day : World := world_of pharmacy (fun _ => false).

(** The server answers the first two calls (is_connected, ping) and then
    stops. *)
Definition server_drops : World := world_of pharmacy (fun t => (t <? 3)%nat).

(** A catalog with an odd name. *)
Definition odd_pharmacy : Database :=
  {| collation_of := general_ci;
     medicines := [med 1 "a\b" "Analgesic" "pain" 70];
     users := [];
     purchase_history := [] |}.

End Demo.

(* ===================================================================== *)
(** ** The properties *)
(* ===================================================================== *)

Import Text Data Sorting Sql Pandas App.
Import SortingFacts OrderFacts DedupFacts TextFacts RunFacts Demo.

(** C10.  With an empty history [generate_recommendations_db] returns the
    empty list and the empty dictionary, and the world is as before: no
    statement was sent, nothing was shown. *)
Theorem empty_history_gives_nothing `{Platform} (conn : option Conn) (w : World) :
  generate_recommendations_db conn [] w = (Ret ([], JDict []), w).
Proof. reflexivity. Qed.

(** C8.  Every search type other than "medicine" and "symptom" runs the
    combined name-or-treats statement; the three search types [main] can
    produce from the select box are "both", "medicine_only" and
    "symptoms_only", so the dashboard always runs the combined statement. *)
Theorem other_search_types_run_the_combined_query `{Platform}
    (conn : option Conn) (query search_type : string) :
  search_type <> "medicine" ->
  search_type <> "symptom" ->
  let p := VStr ("%" +:+ lower query +:+ "%") in
  search_medicines_db conn query search_type
    = execute_query conn (QSearch ByBoth) [p; p; p; p]
  /\ List.map search_type_of_label search_type_labels
       = ["both"; "medicine_only"; "symptoms_only"]
  /\ forall label, In label search_type_labels ->
       search_medicines_db conn query (search_type_of_label label)
         = execute_query conn (QSearch ByBoth) [p; p; p; p].
Proof.
  intros Hm Hs p. split; [|split].
  - unfold search_medicines_db.
    apply String.eqb_neq in Hm. apply String.eqb_neq in Hs.
    rewrite Hm, Hs. reflexivity.
  - reflexivity.
  - intros label Hl. simpl in Hl.
    destruct Hl as [<-|[<-|[<-|[]]]]; reflexivity.
Qed.

Lemma other_search_types_witness :
  search_medicines_db (H := reference_platform) (Some 0%nat) "Aspirin" "medicine_only"
  = execute_query (H := reference_platform) (Some 0%nat) (QSearch ByBoth)
      [VStr "%aspirin%"; VStr "%aspirin%"; VStr "%aspirin%"; VStr "%aspirin%"].
Proof.
  refine (proj1 (@other_search_types_run_the_combined_query reference_platform
                   (Some 0%nat) "Aspirin" "medicine_only" _ _)); discriminate.
Defined.


(** The error branch is taken when the server stops answering after the
    ping: the error is shown and the frame is empty. *)
Example query_error_is_shown :
  let r := execute_query (H := reference_platform) (Some 0%nat) QLoadMedicines []
             server_drops in
  fst r = Ret no_frame
  /\ trace (snd r)
     = [EConnect; EIsConnected 0%nat; EPing 0%nat true 3 1;
        EExecute 0%nat QLoadMedicines [];
        EShow Error (QueryError "execute" QLoadMedicines)].
Proof. split; reflexivity. Qed.

(** C5.  The catalog [load_medicines_from_db] returns is what the statement
    delivered with, for every name, only the first row kept: no name occurs
    twice, and the rows are in descending order of rating. *)
Theorem catalog_is_deduplicated_and_sorted `{Platform}
    (conn : option Conn) (w : World) :
  exists fetched w1 df w',
    execute_query conn QLoadMedicines [] w = (Ret fetched, w1)
    /\ load_medicines_from_db conn w = (Ret df, w')
    /\ rows df = keep_first "name" (rows fetched)
    /\ NoDup (List.map (cell "name") (rows df))
    /\ sorted_by (desc ["rating"]) (rows df).
Proof.
  destruct (execute_query_shape conn QLoadMedicines [] w)
    as (fetched & w1 & Hrun & _ & _ & _ & _ & Hshape).
  exists fetched, w1.
  unfold load_medicines_from_db, bind. rewrite Hrun.
  destruct Hshape as [->|(cols & rs & Hq & ->)].
  - simpl. do 2 eexists. repeat split; constructor.
  - simpl in Hq. injection Hq as <- <-.
    assert (Hdrop : drop_duplicates "name" (frame_of (load_rows (db w)) load_columns)
                    = Ret (frame_of (keep_first "name" (load_rows (db w))) load_columns)).
    { apply drop_duplicates_frame. simpl. auto. }
    assert (Hgoal : forall df,
              df = frame_of (keep_first "name" (load_rows (db w))) load_columns ->
              rows df = keep_first "name" (load_rows (db w))
              /\ NoDup (List.map (cell "name") (rows df))
              /\ sorted_by (desc ["rating"]) (rows df)).
    { intros df ->. unfold frame_of. cbn [rows]. repeat split.
      - apply keep_first_NoDup.
      - eapply sorted_by_sublist; [apply keep_first_sublist|].
        apply order_by_sorted. }
    destruct (empty (frame_of (load_rows (db w)) load_columns)) eqn:E; simpl.
    + destruct (load_rows (db w)) as [|r rs] eqn:Hrows; [|discriminate].
      do 2 eexists. split; [reflexivity|]. split; [reflexivity|].
      simpl. repeat split; constructor.
    + unfold lift. rewrite Hdrop.
      do 2 eexists. split; [reflexivity|]. split; [reflexivity|].
      apply Hgoal. reflexivity.
Qed.


(** With the server gone, the cached connection is asked twice, the page
    shows again that the connection was made, and the statement is never
    sent. *)
Example nothing_is_sent_on_a_bad_day :
  let r := execute_query (H := reference_platform) (Some 0%nat) QLoadMedicines []
             bad_day in
  fst r = Ret no_frame
  /\ trace (snd r)
     = [EConnect; EIsConnected 0%nat; EShow Warning Reconnecting;
        EShow Markdown (Connected 0%nat); EIsConnected 0%nat;
        EShow Error ReconnectFailed].
Proof. split; reflexivity. Qed.

(** *** Search *)

Lemma order_by_In `{Platform} keys rs r : In r (order_by keys rs) <-> In r rs.
Proof.
  split; apply Permutation_in; [|symmetry]; apply order_by_perm.
Qed.

Lemma order_by_nil `{Platform} keys : order_by keys [] = [].
Proof. apply Permutation_nil. symmetry. apply order_by_perm. Qed.

(** C1, as the code has it.  In a world where the server answers, with a
    case-insensitive collation: searching by "medicine" or "both" for the
    name of a catalog row returns that row with relevance score 2, provided
    the name contains no backslash (the escape character of LIKE). *)
Theorem search_by_name_finds_the_medicine `{Platform}
    (c : Conn) (w : World) (m : Medicine) (search_type : string) :
  healthy w ->
  collation_of (db w) = general_ci ->
  In m (medicines (db w)) ->
  backslash_free (m_name m) = true ->
  search_type = "medicine" \/ search_type = "both" ->
  exists df w',
    search_medicines_db (Some c) (m_name m) search_type w = (Ret df, w')
    /\ In (scored 2 m) (rows df).
Proof.
  intros Hup Hco Hm Hb Hst.
  pose proof (like_lowered_name _ Hb) as Hlike.
  set (p := VStr ("%" +:+ lower (m_name m) +:+ "%")).
  destruct Hst as [->| ->].
  - destruct (execute_query_healthy c (QSearch ByMedicine) [p; p] w _ _ Hup eq_refl)
      as (w' & Hrun & _).
    exists (frame_of (search_medicine_rows (db w) p p) search_columns), w'.
    split; [exact Hrun|].
    unfold frame_of. cbn [rows]. unfold search_medicine_rows.
    apply order_by_In, in_map_iff. exists m. rewrite Hco. split.
    + unfold p. cbn [like_param]. now rewrite Hlike.
    + apply filter_In. split; [exact Hm|]. unfold p. cbn [like_param]. exact Hlike.
  - destruct (execute_query_healthy c (QSearch ByBoth) [p; p; p; p] w _ _ Hup eq_refl)
      as (w' & Hrun & _).
    exists (frame_of (search_both_rows (db w) p p p p) search_columns), w'.
    split; [exact Hrun|].
    unfold frame_of. cbn [rows]. unfold search_both_rows.
    apply order_by_In, in_map_iff. exists m. rewrite Hco. split.
    + unfold both_score, p. cbn [like_param]. now rewrite Hlike.
    + apply filter_In. split; [exact Hm|]. unfold p. cbn [like_param].
      now rewrite Hlike.
Qed.

Lemma search_by_name_witness :
  exists df w',
    search_medicines_db (H := reference_platform) (Some 0%nat) "Aspirin" "both" good_day
    = (Ret df, w')
    /\ In (scored 2 aspirin) (rows df).
Proof.
  apply (@search_by_name_finds_the_medicine reference_platform 0%nat good_day
           aspirin "both").
  - intros t. reflexivity.
  - reflexivity.
  - simpl. left. reflexivity.
  - reflexivity.
  - right. reflexivity.
Defined.

(** C1 as stated fails: a medicine named [a\b] is in the catalog, the server
    answers, and searching for its name returns no row at all, because LIKE
    reads the backslash in the pattern as an escape. *)
Lemma name_with_backslash_is_not_found :
  let w := world_of odd_pharmacy (fun _ => true) in
  let m := med 1 "a\b" "Analgesic" "pain" 70 in
  In m (medicines (db w))
  /\ forall (P : Platform) (search_type : string),
       search_type = "medicine" \/ search_type = "both" ->
       exists df w',
         search_medicines_db (Some 0%nat) (m_name m) search_type w = (Ret df, w')
         /\ rows df = [].
Proof.
  intros w m. split; [left; reflexivity|].
  intros P search_type [->| ->].
  - set (p := VStr ("%" +:+ lower (m_name m) +:+ "%")).
    destruct (execute_query_healthy (H := P) 0%nat (QSearch ByMedicine) [p; p] w _ _
                (fun _ => eq_refl) eq_refl) as (w' & Hrun & _).
    do 2 eexists. split; [exact Hrun|]. apply order_by_nil.
  - set (p := VStr ("%" +:+ lower (m_name m) +:+ "%")).
    destruct (execute_query_healthy (H := P) 0%nat (QSearch ByBoth) [p; p; p; p] w _ _
                (fun _ => eq_refl) eq_refl) as (w' & Hrun & _).
    do 2 eexists. split; [exact Hrun|]. apply order_by_nil.
Qed.

(** C4, as the code has it.  In a world where the server answers, searching
    by "both" returns exactly the catalog rows whose name or treats matches
    the LIKE pattern [%q%], [q] being the lower-cased query; a row is scored 2
    when its name matches and 1 when only treats does; the rows come in
    descending order of relevance score, then of rating.  When the query has
    none of the metacharacters [%], [_] and backslash, matching [%q%] means
    containing [q] as a substring, both read through the collation (ignoring
    case for a case-insensitive one). *)
Theorem search_both_returns_the_matching_rows `{Platform}
    (c : Conn) (w : World) (query : string) :
  healthy w ->
  let co := collation_of (db w) in
  let p := "%" +:+ lower query +:+ "%" in
  exists df w',
    search_medicines_db (Some c) query "both" w = (Ret df, w')
    /\ Permutation (rows df)
         (List.map
            (fun m => scored (if sql_like co (m_name m) p then 2 else 1) m)
            (List.filter
               (fun m => sql_like co (m_name m) p || sql_like co (m_treats m) p)
               (medicines (db w))))
    /\ sorted_by (desc ["relevance_score"; "rating"]) (rows df)
    /\ (meta_free query = true ->
        forall s,
          sql_like co s p = str_contains (fold_text co (lower query)) (fold_text co s)).
Proof.
  intros Hup co p.
  destruct (execute_query_healthy c (QSearch ByBoth)
              [VStr p; VStr p; VStr p; VStr p] w _ _ Hup eq_refl)
    as (w' & Hrun & _).
  exists (frame_of (search_both_rows (db w) (VStr p) (VStr p) (VStr p) (VStr p))
            search_columns), w'.
  split; [exact Hrun|]. unfold frame_of. cbn [rows]. unfold search_both_rows.
  split; [|split].
  - rewrite order_by_perm. cbn [like_param]. fold co.
    apply Permutation_refl'. apply map_ext_in. intros m Hm.
    apply filter_In in Hm as [_ Hm]. unfold both_score. cbn [like_param].
    destruct (sql_like co (m_name m) p); [reflexivity|].
    simpl in Hm. now rewrite Hm.
  - apply order_by_sorted.
  - intros Hq s. apply like_plain_contains, meta_free_lower, Hq.
Qed.

Lemma search_both_witness :
  exists df w',
    search_medicines_db (H := reference_platform) (Some 0%nat) "HEAD" "both" good_day
    = (Ret df, w')
    /\ Permutation (rows df)
         (List.map
            (fun m => scored (if sql_like general_ci (m_name m) "%head%" then 2 else 1) m)
            (List.filter
               (fun m => sql_like general_ci (m_name m) "%head%"
                         || sql_like general_ci (m_treats m) "%head%")
               (medicines pharmacy)))
    /\ sorted_by (desc ["relevance_score"; "rating"]) (rows df)
    /\ (meta_free "HEAD" = true ->
        forall s,
          sql_like general_ci s "%head%"
          = str_contains (fold_text general_ci (lower "HEAD")) (fold_text general_ci s)).
Proof.
  apply (@search_both_returns_the_matching_rows reference_platform 0%nat good_day "HEAD").
  intros t. reflexivity.
Defined.

(** C4 as stated fails: the query [%] returns the Aspirin row with score 2,
    although neither its name nor its treats contains a percent sign, with
    or without regard to case. *)
Lemma percent_matches_every_row :
  exists df w',
    search_medicines_db (H := reference_platform) (Some 0%nat) "%" "both" good_day
    = (Ret df, w')
    /\ In (scored 2 aspirin) (rows df)
    /\ length (rows df) = 5%nat
    /\ str_contains (lower "%") (m_name aspirin) = false
    /\ str_contains (lower "%") (m_treats aspirin) = false
    /\ str_contains (lower "%") (lower (m_name aspirin)) = false
    /\ str_contains (lower "%") (lower (m_treats aspirin)) = false.
Proof.
  do 2 eexists. split; [reflexivity|]. split.
  - apply list_elem_of_In. apply (bool_decide_unpack _). vm_compute. reflexivity.
  - repeat split; vm_compute; reflexivity.
Qed.

(** *** Purchase history *)

Module HistoryFacts.

(** What the history of a user should say about one medicine, in the words
    of the claim: the purchases of that user for that medicine, the sum of
    their quantities, the latest of their dates. *)
Definition user_purchases (d : Database) (user_id : Z) (m : Medicine) : list Purchase :=
  List.filter
    (fun ph => (ph_user_id ph =? user_id) && (ph_medicine_id ph =? m_id m))
    (purchase_history d).

Definition maximum (l : list Z) : Z :=
  match l with
  | [] => 0
  | x :: l' => fold_right Z.max x l'
  end.

Definition history_entry (m : Medicine) (phs : list Purchase) : row :=
  <["name" := VStr (m_name m)]>
  (<["type" := VStr (m_type m)]>
  (<["rating" := of_opt (m_rating m)]>
  (<["price" := of_opt (m_price m)]>
  (<["total_quantity" := VNum (sum_Z (List.map ph_quantity phs))]>
  (<["latest_purchase_date" := VNum (maximum (List.map ph_purchase_date phs))]> ∅))))).

Lemma fold_max_bounds x l :
  x <= fold_right Z.max x l /\ Forall (fun y => y <= fold_right Z.max x l) l.
Proof.
  induction l as [|y l [IHx IHl]]; simpl.
  - split; [lia|constructor].
  - split; [lia|]. constructor; [lia|].
    eapply Forall_impl; [exact IHl|]. simpl. intros; lia.
Qed.

Lemma fold_max_attained x l :
  fold_right Z.max x l = x \/ In (fold_right Z.max x l) l.
Proof.
  induction l as [|y l IH]; simpl; [auto|].
  destruct (Z.max_spec y (fold_right Z.max x l)) as [[_ ->]|[_ ->]]; tauto.
Qed.

(** [maximum] is the greatest element of a list that has one. *)
Lemma maximum_spec l :
  l <> [] -> In (maximum l) l /\ Forall (fun y => y <= maximum l) l.
Proof.
  destruct l as [|x l]; [congruence|]. intros _. simpl. split.
  - destruct (fold_max_attained x l); auto.
  - destruct (fold_max_bounds x l). now constructor.
Qed.

Lemma max_Z_maximum x l : In x l -> max_Z x l = maximum l.
Proof.
  intros Hx. assert (Hne : l <> []) by (intros ->; destruct Hx).
  destruct (maximum_spec l Hne) as [Hin Hub].
  destruct (fold_max_bounds x l) as [Hx' Hub'].
  rewrite List.Forall_forall in Hub, Hub'.
  unfold max_Z. apply Z.le_antisymm.
  - destruct (fold_max_attained x l) as [->|H]; auto.
  - auto.
Qed.

Lemma opt_eqb_refl o : opt_eqb o o = true.
Proof. destruct o; simpl; [apply Z.eqb_refl|reflexivity]. Qed.

(** Under a primary key, a row is known by its id. *)
Lemma primary_key_inj (l : list Medicine) a b :
  NoDup (List.map m_id l) -> In a l -> In b l -> m_id a = m_id b -> a = b.
Proof.
  induction l as [|x l IH]; simpl; [tauto|].
  rewrite NoDup_cons, list_elem_of_In, in_map_iff.
  intros [Hx Hl] [->|Ha] [->|Hb] Hid; auto.
  - destruct Hx. eauto.
  - destruct Hx. eauto.
Qed.

Lemma filter_none {A} (p : A -> bool) l :
  (forall x, In x l -> p x = false) -> List.filter p l = [].
Proof.
  induction l as [|x l IH]; simpl; intros Hp; [reflexivity|].
  rewrite (Hp x) by auto. apply IH. auto.
Qed.

Lemma filter_by_id (l : list Medicine) m :
  NoDup (List.map m_id l) -> In m l ->
  List.filter (fun y => m_id m =? m_id y) l = [m].
Proof.
  induction l as [|x l IH]; simpl; [tauto|].
  rewrite NoDup_cons, list_elem_of_In, in_map_iff.
  intros [Hx Hl] [->|Hm].
  - rewrite Z.eqb_refl. f_equal. apply filter_none.
    intros y Hy. apply Z.eqb_neq. intros Hid. apply Hx. eauto.
  - destruct (Z.eqb_spec (m_id m) (m_id x)) as [Hid|_]; [|auto].
    destruct Hx. eauto.
Qed.

Lemma history_join_In d x :
  In x (history_join d) <->
  In (fst x) (purchase_history d) /\ In (snd x) (medicines d)
  /\ ph_medicine_id (fst x) = m_id (snd x).
Proof.
  unfold history_join. rewrite in_flat_map. split.
  - intros (ph & Hph & Hx). apply in_map_iff in Hx as (m & <- & Hm).
    apply filter_In in Hm as [Hm Hid]. apply Z.eqb_eq in Hid. simpl. auto.
  - intros (Hph & Hm & Hid). exists (fst x). split; [exact Hph|].
    apply in_map_iff. exists (snd x). split; [now destruct x|].
    apply filter_In. split; [exact Hm|]. now apply Z.eqb_eq.
Qed.

Lemma same_history_key_id co a b :
  same_history_key co a b = true -> m_id (snd a) = m_id (snd b).
Proof.
  unfold same_history_key. rewrite !andb_true_iff, Z.eqb_eq. tauto.
Qed.

Lemma same_history_key_refl co a b :
  snd a = snd b -> same_history_key co a b = true.
Proof.
  unfold same_history_key. intros ->.
  now rewrite Z.eqb_refl, !TextFacts.str_eq_refl, !opt_eqb_refl.
Qed.

(** The purchases in the group of [k] are the purchases of the user for the
    medicine of [k]. *)
Lemma group_members co d v k (phs : list Purchase) :
  NoDup (List.map m_id (medicines d)) ->
  In (snd k) (medicines d) ->
  List.map fst
    (List.filter (same_history_key co k)
       (List.filter (fun x => user_is v (fst x))
          (flat_map
             (fun ph =>
                List.map (fun m => (ph, m))
                  (List.filter (fun m => ph_medicine_id ph =? m_id m) (medicines d)))
             phs)))
  = List.filter (fun ph => user_is v ph && (ph_medicine_id ph =? m_id (snd k))) phs.
Proof.
  intros Hpk Hk. induction phs as [|ph phs IH]; [reflexivity|].
  cbn [flat_map]. rewrite !List.filter_app, map_app, IH. cbn [List.filter].
  destruct (Z.eqb_spec (ph_medicine_id ph) (m_id (snd k))) as [Hid|Hid].
  - rewrite Hid, (filter_by_id _ _ Hpk Hk). cbn [List.map List.filter fst].
    destruct (user_is v ph); cbn [andb List.filter List.map app]; [|reflexivity].
    rewrite same_history_key_refl by reflexivity. reflexivity.
  - rewrite andb_false_r. rewrite filter_none; [reflexivity|].
    intros x Hx. apply filter_In in Hx as [Hx _].
    apply in_map_iff in Hx as (m & <- & Hm). apply filter_In in Hm as [_ Hm].
    apply Z.eqb_eq in Hm.
    destruct (same_history_key co k (ph, m)) eqn:E; [|reflexivity].
    apply same_history_key_id in E. simpl in E. congruence.
Qed.

End HistoryFacts.

Import HistoryFacts.

(** C6.  In a world where the server answers and [medicines.id] is the
    primary key, [get_user_history] returns one row for each catalog medicine
    the user has a purchase of, and no other row; the row of a medicine
    carries the sum of the quantities and the latest date of the purchases of
    that user for that medicine; the rows come in descending order of the
    latest purchase date. *)
Theorem user_history_is_per_medicine `{Platform}
    (c : Conn) (w : World) (user_id : Z) :
  healthy w ->
  primary_key (db w) ->
  exists df w' ms,
    get_user_history (Some c) user_id w = (Ret df, w')
    /\ NoDup (List.map m_id ms)
    /\ (forall m,
          In m ms <->
          In m (medicines (db w))
          /\ exists ph,
               In ph (purchase_history (db w))
               /\ ph_user_id ph = user_id
               /\ ph_medicine_id ph = m_id m)
    /\ Permutation (rows df)
         (List.map (fun m => history_entry m (user_purchases (db w) user_id m)) ms)
    /\ sorted_by (desc ["latest_purchase_date"]) (rows df).
Proof.
  intros Hup Hpk. unfold primary_key in Hpk.
  destruct (execute_query_healthy c QUserHistory [VNum user_id] w _ _ Hup eq_refl)
    as (w' & Hrun & _).
  set (co := collation_of (db w)).
  set (W := List.filter (fun x => user_is (VNum user_id) (fst x)) (history_join (db w))).
  set (reps := dedup_by (same_history_key co) [] W).
  assert (HW : forall x, In x W <->
            In (fst x) (purchase_history (db w)) /\ In (snd x) (medicines (db w))
            /\ ph_medicine_id (fst x) = m_id (snd x) /\ ph_user_id (fst x) = user_id).
  { intros x. unfold W. rewrite filter_In, history_join_In. simpl.
    rewrite Z.eqb_eq. tauto. }
  assert (Hreps : forall k, In k reps -> In k W)
    by (intros k; apply dedup_by_In).
  exists (frame_of (history_rows (db w) (VNum user_id)) history_columns), w',
    (List.map snd reps).
  split; [exact Hrun|]. unfold frame_of. cbn [rows].
  split; [|split; [|split]].
  - rewrite map_map. apply dedup_by_NoDup.
    intros a b Ha [Hb|[]] Hid. apply same_history_key_refl.
    apply HW in Ha as (_ & Ha & _). apply HW in Hb as (_ & Hb & _).
    eapply primary_key_inj; eassumption.
  - intros m. rewrite in_map_iff. split.
    + intros (k & <- & Hk). apply Hreps, HW in Hk as (Hph & Hm & Hid & Hu). eauto.
    + intros (Hm & ph & Hph & Hu & Hid).
      assert (Hin : In (ph, m) W) by (apply HW; simpl; auto).
      destruct (dedup_by_covers (same_history_key co) [] W (ph, m)
                  (fun a => same_history_key_refl co a a eq_refl) Hin)
        as (r & [[]|Hr] & Hsame).
      exists r. split; [|exact Hr].
      apply same_history_key_id in Hsame. simpl in Hsame.
      apply Hreps, HW in Hr as (_ & Hr & _).
      symmetry. eapply primary_key_inj; eassumption.
  - unfold history_rows. rewrite order_by_perm. fold co. fold W.
    unfold group_by. fold reps. rewrite !map_map.
    apply Permutation_refl'. apply map_ext_in. intros k Hk.
    apply Hreps in Hk. pose proof Hk as Hk'.
    apply HW in Hk' as (Hph & Hm & Hid & Hu).
    assert (Hmem : List.map fst (List.filter (same_history_key co k) W)
                   = user_purchases (db w) user_id (snd k)).
    { unfold W, history_join. rewrite (group_members co (db w)) by assumption.
      reflexivity. }
    unfold history_row, history_entry. cbn [fst snd].
    rewrite <- !(map_map fst), Hmem.
    rewrite max_Z_maximum; [reflexivity|].
    apply in_map. unfold user_purchases. apply filter_In. split; [exact Hph|].
    now rewrite Hu, Hid, !Z.eqb_refl.
  - apply order_by_sorted.
Qed.

Lemma user_history_witness :
  exists df w' ms,
    get_user_history (H := reference_platform) (Some 0%nat) 7 good_day = (Ret df, w')
    /\ NoDup (List.map m_id ms)
    /\ (forall m,
          In m ms <->
          In m (medicines pharmacy)
          /\ exists ph,
               In ph (purchase_history pharmacy)
               /\ ph_user_id ph = 7
               /\ ph_medicine_id ph = m_id m)
    /\ Permutation (rows df)
         (List.map (fun m => history_entry m (user_purchases pharmacy 7 m)) ms)
    /\ sorted_by (desc ["latest_purchase_date"]) (rows df).
Proof.
  apply (@user_history_is_per_medicine reference_platform 0%nat good_day 7).
  - intros t. reflexivity.
  - unfold primary_key. simpl. compute_done.
Defined.

(** On the demo pharmacy user 7 bought Aspirin twice (2 and 3 packs, last on
    day 120) and Metformin once. *)
Example user_7_history :
  List.map (fun r => (cell "name" r, cell "total_quantity" r, cell "latest_purchase_date" r))
    (rows (match fst (get_user_history (H := reference_platform) (Some 0%nat) 7 good_day) with
           | Ret df => df
           | Raise _ => no_frame
           end))
  = [(VStr "Aspirin", VNum 5, VNum 120); (VStr "Metformin", VNum 1, VNum 110)].
Proof. reflexivity. Qed.

(** C6 as stated fails: user 7 has bought Aspirin, a medicine of the catalog
    with a primary key, but on a day the server does not answer
    [get_user_history] returns [pd.DataFrame()], which has no row for it. *)
Lemma no_history_when_the_server_is_gone :
  let ph := buy 1 7 1 2 100 in
  In aspirin (medicines (db bad_day))
  /\ In ph (purchase_history (db bad_day))
  /\ ph_user_id ph = 7
  /\ ph_medicine_id ph = m_id aspirin
  /\ primary_key (db bad_day)
  /\ forall (P : Platform),
       exists w',
         get_user_history (Some 0%nat) 7 bad_day = (Ret no_frame, w')
         /\ rows no_frame = [].
Proof.
  intros ph. split; [left; reflexivity|]. split; [left; reflexivity|].
  split; [reflexivity|]. split; [reflexivity|]. split.
  - unfold primary_key. simpl. compute_done.
  - intros P. eexists. split; reflexivity.
Qed.

(** A catalog in which two medicines carry the same id. *)
Definition twin_pharmacy : Database :=
  {| collation_of := general_ci;
     medicines := [aspirin; med 1 "Aspirin Forte" "Analgesic" "pain" 90];
     users := [];
     purchase_history := [buy 1 7 1 2 100] |}.

(** Without the primary key the join finds both for one purchase, and the
    history counts the two packs twice. *)
Example one_purchase_two_rows :
  List.map (fun r => (cell "name" r, cell "total_quantity" r))
    (rows (match fst (get_user_history (H := reference_platform) (Some 0%nat) 7
                        (world_of twin_pharmacy (fun _ => true))) with
           | Ret df => df
           | Raise _ => no_frame
           end))
  = [(VStr "Aspirin", VNum 2); (VStr "Aspirin Forte", VNum 2)].
Proof. vm_compute. reflexivity. Qed.

(** *** Recommendations *)

Module RecommendFacts.

(** The rows of a frame with their [source] column set. *)
Definition tagged (source : string) (df : DataFrame) : list row :=
  List.map (fun r => <["source" := VStr source]> r) (rows df).

Lemma all_recs_rows c s p :
  rows (all_recs c s p) = tagged "category" c ++ tagged "symptom" s ++ tagged "popular" p.
Proof. unfold all_recs, concat, tagged. simpl. now rewrite app_nil_r. Qed.

Lemma union_columns_seen x seen frames :
  In x seen -> In x (union_columns seen frames).
Proof.
  revert seen. induction frames as [|df frames IH]; intros seen Hx; simpl; [exact Hx|].
  apply IH, in_or_app. now left.
Qed.

Lemma union_columns_In x seen frames df :
  In df frames -> In x (columns df) -> In x (union_columns seen frames).
Proof.
  revert seen. induction frames as [|df' frames IH]; intros seen [].
  - subst df'. intros Hx. simpl. apply union_columns_seen.
    destruct (bool_decide (x ∈ seen)) eqn:E.
    + apply bool_decide_eq_true in E. apply in_or_app. left.
      now apply list_elem_of_In.
    + apply in_or_app. right. apply filter_In. split; [exact Hx|]. now rewrite E.
  - intros Hx. simpl. now apply IH.
Qed.

Lemma assign_columns col v df x : In x (columns df) -> In x (columns (assign col v df)).
Proof.
  intros Hx. unfold assign. simpl.
  destruct (has_column col df); [exact Hx|]. apply in_or_app. now left.
Qed.

Lemma assign_has_column col v df : In col (columns (assign col v df)).
Proof.
  unfold assign. simpl. destruct (has_column col df) eqn:E.
  - now apply has_column_true.
  - apply in_or_app. right. now left.
Qed.

Lemma all_recs_source c s p : In "source" (columns (all_recs c s p)).
Proof.
  unfold all_recs, concat. cbn [columns].
  eapply union_columns_In; [left; reflexivity|apply assign_has_column].
Qed.

Lemma all_recs_column x c s p :
  In x (columns c) \/ In x (columns s) \/ In x (columns p) ->
  In x (columns (all_recs c s p)).
Proof.
  unfold all_recs, concat. cbn [columns].
  intros [Hx|[Hx|Hx]];
    (eapply union_columns_In; [|apply assign_columns, Hx]); simpl; auto.
Qed.

(** The pandas part of the function, on a frame that has the two columns. *)
Lemma pipeline_succeeds `{Platform} (all : DataFrame) :
  In "name" (columns all) ->
  In "rating" (columns all) ->
  exists d u ranked,
    drop_duplicates "name" all = Ret d
    /\ sort_values_desc "rating" d = Ret u
    /\ tolist "name" (head 4 u) = Ret (List.map (cell "name") (firstn 4 ranked))
    /\ rows (head 4 u) = firstn 4 ranked
    /\ Permutation ranked (keep_first "name" (rows all))
    /\ sorted_by (desc ["rating"]) ranked.
Proof.
  destruct all as [cols rs]. cbn [columns rows]. intros Hname Hrating.
  change {| columns := cols; rows := rs |} with (frame_of rs cols).
  exists (frame_of (keep_first "name" rs) cols).
  exists (frame_of (sort_with pandas_order row (desc ["rating"]) (keep_first "name" rs))
            cols).
  exists (sort_with pandas_order row (desc ["rating"]) (keep_first "name" rs)).
  split; [now apply drop_duplicates_frame|].
  split.
  { unfold sort_values_desc.
    assert (Hc : has_column "rating" (frame_of (keep_first "name" rs) cols) = true)
      by now apply has_column_true.
    now rewrite Hc. }
  split.
  { unfold tolist.
    assert (Hc : has_column "name"
                   (head 4 (frame_of (sort_with pandas_order row (desc ["rating"])
                                        (keep_first "name" rs)) cols)) = true)
      by now apply has_column_true.
    now rewrite Hc. }
  split; [reflexivity|].
  split.
  - apply sort_with_perm.
  - apply sort_with_sorted; [apply desc_total|apply desc_trans].
Qed.

(** Whatever the pandas part returns was a name in the frame it started
    from. *)
Lemma pipeline_names `{Platform} (all d u : DataFrame) names v :
  drop_duplicates "name" all = Ret d ->
  sort_values_desc "rating" d = Ret u ->
  tolist "name" (head 4 u) = Ret names ->
  In v names ->
  exists r, In r (rows all) /\ v = cell "name" r.
Proof.
  unfold drop_duplicates, sort_values_desc, tolist, head.
  intros Hd Hu Hn Hv.
  assert (Hrows : forall r, In r (rows d) -> In r (rows all)).
  { destruct (empty all); [injection Hd as <-; auto|].
    destruct (has_column "name" all); [|discriminate].
    injection Hd as <-. cbn [rows]. intros r. apply dedup_by_In. }
  destruct (has_column "rating" d); [|discriminate].
  injection Hu as <-. cbn [columns rows] in Hn.
  match type of Hn with
  | (if ?b then _ else _) = _ => destruct b; [|discriminate]
  end.
  injection Hn as <-.
  apply in_map_iff in Hv as (r & <- & Hr). exists r. split; [|reflexivity].
  apply Hrows. eapply Permutation_in; [apply sort_with_perm|].
  eapply sublist_In; [apply sublist_take|exact Hr].
Qed.

Lemma cell_tagged col source r :
  col <> "source" -> cell col (<["source" := VStr source]> r) = cell col r.
Proof. intros Hne. unfold cell. now rewrite lookup_insert_ne. Qed.

(** *** What NOT IN excludes *)
Lemma not_in_excludes co name outs h :
  holds (sql_not (sql_in co name outs)) = true -> In (VStr h) outs -> name <> h.
Proof.
  unfold sql_in. intros Hh Hin ->.
  destruct (existsb _ outs) eqn:E; [discriminate|].
  assert (Hex : existsb (fun v => bool_decide (text_equals co h v = Some true)) outs = true).
  { apply existsb_exists. exists (VStr h). split; [exact Hin|].
    apply bool_decide_eq_true. simpl. now rewrite TextFacts.str_eq_refl. }
  congruence.
Qed.

Lemma in_history_excludes co ins outs m1 m2 h :
  in_history co ins outs m1 m2 = true -> In (VStr h) outs -> m_name m2 <> h.
Proof.
  unfold in_history. intros Hh. apply (not_in_excludes co).
  destruct (sql_in co (m_name m1) ins) as [[]|],
           (sql_in co (m_name m2) outs) as [[]|]; simpl in *; congruence.
Qed.

Lemma category_rows_exclude `{Platform} d ins outs r h :
  In r (category_rows d ins outs) -> In (VStr h) outs -> cell "name" r <> VStr h.
Proof.
  unfold category_rows, distinct. intros Hr Hh.
  apply (sublist_In _ _ _ (sublist_take _ _)), order_by_In, dedup_by_In in Hr.
  apply in_map_iff in Hr as (g & <- & Hg).
  apply group_by_In in Hg as [Hg _]. apply dedup_by_In, filter_In in Hg as [_ Hg].
  pose proof (in_history_excludes _ _ _ _ _ h Hg Hh) as Hne.
  unfold category_row, cell. rewrite lookup_insert_eq. congruence.
Qed.

(** The [rating] cell of a row of the three statements is a number or NULL. *)
Lemma recommendation_rating `{Platform} d ins outs r :
  In r (category_rows d ins outs)
  \/ In r (symptom_rows d ins outs)
  \/ In r (popular_rows d outs) ->
  exists o, cell "rating" r = of_opt o.
Proof.
  intros [Hr|[Hr|Hr]].
  - unfold category_rows, distinct in Hr.
    apply (sublist_In _ _ _ (sublist_take _ _)), order_by_In, dedup_by_In in Hr.
    apply in_map_iff in Hr as (g & <- & _). eexists. reflexivity.
  - unfold symptom_rows, distinct in Hr.
    apply (sublist_In _ _ _ (sublist_take _ _)), order_by_In, dedup_by_In in Hr.
    apply in_map_iff in Hr as (x & <- & _). eexists. reflexivity.
  - unfold popular_rows in Hr.
    apply (sublist_In _ _ _ (sublist_take _ _)), order_by_In in Hr.
    apply in_map_iff in Hr as (g & <- & _). eexists. reflexivity.
Qed.

Lemma symptom_rows_exclude `{Platform} d ins outs r h :
  In r (symptom_rows d ins outs) -> In (VStr h) outs -> cell "name" r <> VStr h.
Proof.
  unfold symptom_rows, distinct. intros Hr Hh.
  apply (sublist_In _ _ _ (sublist_take _ _)), order_by_In, dedup_by_In in Hr.
  apply in_map_iff in Hr as (x & <- & Hx). apply filter_In in Hx as [_ Hx].
  pose proof (in_history_excludes _ _ _ _ _ h Hx Hh) as Hne.
  unfold symptom_row, cell. rewrite lookup_insert_eq. congruence.
Qed.

Lemma popular_rows_exclude `{Platform} d outs r h :
  In r (popular_rows d outs) -> In (VStr h) outs -> cell "name" r <> VStr h.
Proof.
  unfold popular_rows. intros Hr Hh.
  apply (sublist_In _ _ _ (sublist_take _ _)), order_by_In in Hr.
  apply in_map_iff in Hr as (g & <- & Hg).
  apply group_by_In in Hg as [Hg _]. apply dedup_by_In, filter_In in Hg as [_ Hg].
  pose proof (not_in_excludes _ _ _ h Hg Hh) as Hne.
  unfold popular_row, cell. rewrite lookup_insert_eq. congruence.
Qed.

End RecommendFacts.

Import RecommendFacts.

(** The frame [execute_query] returns for a recommendation statement is
    [pd.DataFrame()] or has [name] and [rating] among its columns, and its
    rows are rows of the statement. *)
Lemma recommendation_frame `{Platform} conn q ps w df w' :
  (exists n, q = QCategoryRecs n \/ q = QSymptomRecs n \/ q = QPopularRecs n) ->
  execute_query conn q ps w = (Ret df, w') ->
  db w' = db w
  /\ (df = no_frame
      \/ (In "name" (columns df) /\ In "rating" (columns df)
          /\ exists cols, sql_eval (db w) q ps = Some (cols, rows df))).
Proof.
  intros (n & Hq) Hrun.
  destruct (execute_query_shape conn q ps w)
    as (df0 & w0 & Hrun0 & Hdb & _ & _ & _ & Hshape).
  rewrite Hrun in Hrun0. injection Hrun0 as <- <-.
  split; [exact Hdb|].
  destruct Hshape as [->|(cols & rs & Hev & ->)]; [now left|right].
  assert (Hcols : In "name" cols /\ In "rating" cols).
  { destruct Hq as [->|[->| ->]]; simpl in Hev;
      destruct (length ps =? _)%nat; try discriminate;
      injection Hev as <- _; simpl; auto. }
  simpl. split; [tauto|]. split; [tauto|]. eauto.
Qed.

(** C2.  For a non-empty history, let [c], [s] and [p] be the frames the
    three statements come back with, not all of them [pd.DataFrame()].  Then
    the function returns, and the names it returns are those of the first
    four rows of a list that is in descending order of rating and is a
    rearrangement of: the rows of [c], [s] and [p] one after the other, each
    tagged with its source, with only the first row of every name kept. *)
Theorem recommendations_are_union_dedup_sort `{Platform}
    (conn : option Conn) (history : list string) (w w1 w2 w3 : World)
    (c s p : DataFrame) :
  history <> [] ->
  let n := length history in
  let names := List.map VStr history in
  execute_query conn (QCategoryRecs n) (names ++ names) w = (Ret c, w1) ->
  execute_query conn (QSymptomRecs n) (names ++ names) w1 = (Ret s, w2) ->
  execute_query conn (QPopularRecs n) names w2 = (Ret p, w3) ->
  columns c <> [] \/ columns s <> [] \/ columns p <> [] ->
  exists ranked json_response,
    generate_recommendations_db conn history w
    = (Ret (List.map (cell "name") (firstn 4 ranked), json_response), w3)
    /\ Permutation ranked
         (keep_first "name"
            (tagged "category" c ++ tagged "symptom" s ++ tagged "popular" p))
    /\ sorted_by (desc ["rating"]) ranked.
Proof.
  intros Hne n names Hc Hs Hp Hsome.
  destruct (recommendation_frame _ _ _ _ _ _ (ex_intro _ n (or_introl eq_refl)) Hc)
    as [_ Hfc].
  destruct (recommendation_frame _ _ _ _ _ _
              (ex_intro _ n (or_intror (or_introl eq_refl))) Hs) as [_ Hfs].
  destruct (recommendation_frame _ _ _ _ _ _
              (ex_intro _ n (or_intror (or_intror eq_refl))) Hp) as [_ Hfp].
  assert (Hcols : In "name" (columns (all_recs c s p))
                  /\ In "rating" (columns (all_recs c s p))).
  { split; apply all_recs_column;
      destruct Hsome as [Hx|[Hx|Hx]];
      [ destruct Hfc as [->|(? & ? & _)]; [now destruct Hx|auto]
      | destruct Hfs as [->|(? & ? & _)]; [now destruct Hx|auto]
      | destruct Hfp as [->|(? & ? & _)]; [now destruct Hx|auto]
      | destruct Hfc as [->|(? & ? & _)]; [now destruct Hx|auto]
      | destruct Hfs as [->|(? & ? & _)]; [now destruct Hx|auto]
      | destruct Hfp as [->|(? & ? & _)]; [now destruct Hx|auto] ]. }
  destruct Hcols as [Hname Hrating].
  destruct (pipeline_succeeds (all_recs c s p) Hname Hrating)
    as (d & u & ranked & Hd & Hu & Hn & Hrows & Hperm & Hsorted).
  rewrite all_recs_rows in Hperm.
  exists ranked. eexists. split; [|split; [exact Hperm|exact Hsorted]].
  destruct history as [|h hs]; [congruence|].
  unfold generate_recommendations_db, bind, lift, timestamp_now, ret.
  fold n. fold names. rewrite Hc, Hs, Hp, Hd, Hu, Hn. reflexivity.
Qed.

(** The three frames of a run on the demo pharmacy for the history
    [Aspirin]. *)
Definition demo_history : list value := [VStr "Aspirin"].

Definition demo_category : Outcome DataFrame * World :=
  execute_query (H := reference_platform) (Some 0%nat) (QCategoryRecs 1)
    (demo_history ++ demo_history) good_day.

Definition demo_symptom : Outcome DataFrame * World :=
  execute_query (H := reference_platform) (Some 0%nat) (QSymptomRecs 1)
    (demo_history ++ demo_history) (snd demo_category).

Definition demo_popular : Outcome DataFrame * World :=
  execute_query (H := reference_platform) (Some 0%nat) (QPopularRecs 1)
    demo_history (snd demo_symptom).

Definition frame_in (r : Outcome DataFrame * World) : DataFrame :=
  match fst r with
  | Ret df => df
  | Raise _ => no_frame
  end.

Lemma recommendations_pipeline_witness :
  exists ranked json_response,
    generate_recommendations_db (H := reference_platform) (Some 0%nat) ["Aspirin"] good_day
    = (Ret (List.map (cell "name") (firstn 4 ranked), json_response), snd demo_popular)
    /\ Permutation ranked
         (keep_first "name"
            (tagged "category" (frame_in demo_category)
             ++ tagged "symptom" (frame_in demo_symptom)
             ++ tagged "popular" (frame_in demo_popular)))
    /\ sorted_by (desc ["rating"]) ranked.
Proof.
  apply (@recommendations_are_union_dedup_sort reference_platform (Some 0%nat)
           ["Aspirin"] good_day (snd demo_category) (snd demo_symptom)
           (snd demo_popular)).
  - discriminate.
  - reflexivity.
  - reflexivity.
  - reflexivity.
  - left. discriminate.
Defined.

(** On the demo pharmacy the history [Aspirin] leads to Ibuprofen,
    Paracetamol and Metformin, in this order. *)
Example recommendations_for_aspirin :
  fst (generate_recommendations_db (H := reference_platform) (Some 0%nat) ["Aspirin"]
         good_day)
  = Ret ([VStr "Ibuprofen"; VStr "Paracetamol"; VStr "Metformin"],
         JDict
           [("recommendations",
             JList
               [JDict [("name", JStr "Ibuprofen"); ("type", JStr "Analgesic");
                       ("rating", JNum 90); ("source", JStr "category")];
                JDict [("name", JStr "Paracetamol"); ("type", JStr "Analgesic");
                       ("rating", JNum 88); ("source", JStr "category")];
                JDict [("name", JStr "Metformin"); ("type", JNaN);
                       ("rating", JNum 80); ("source", JStr "popular")]]);
            ("based_on_history", JList [JStr "Aspirin"]);
            ("timestamp", JNum 0)]).
Proof. reflexivity. Qed.

(** A catalog with a medicine that has no rating. *)
Definition unrated_pharmacy : Database :=
  {| collation_of := general_ci;
     medicines :=
       [aspirin;
        med 2 "Paracetamol" "Analgesic" "fever, pain" 88;
        {| m_id := 3; m_name := "Ibuprofen"; m_type := "Analgesic";
           m_treats := "headache"; m_rating := None; m_price := Some 500;
           m_reviews := Some 10 |}];
     users := [];
     purchase_history := [] |}.

Definition rating_entries (j : json) : list (json * json) :=
  match j with
  | JDict (("recommendations", JList entries) :: _) =>
      flat_map
        (fun entry =>
           match entry with
           | JDict [("name", name); _; ("rating", rating); _] => [(name, rating)]
           | _ => []
           end) entries
  | _ => []
  end.

(** The missing rating reads as 0.0 where the column is DECIMAL, and as NaN
    where it is FLOAT. *)
Example a_missing_rating_is_zero_or_nan :
  let ratings (P : Platform) :=
    match fst (generate_recommendations_db (H := P) (Some 0%nat) ["Aspirin"]
                 (world_of unrated_pharmacy (fun _ => true))) with
    | Ret x => rating_entries (snd x)
    | Raise _ => []
    end in
  ratings reference_platform = [(JStr "Paracetamol", JNum 88); (JStr "Ibuprofen", JNum 0)]
  /\ ratings float_platform = [(JStr "Paracetamol", JNum 88); (JStr "Ibuprofen", JNaN)].
Proof. split; vm_compute; reflexivity. Qed.

(** When all three statements fail, the frame of candidates has no [rating]
    column and [sort_values] raises: the function returns nothing. *)
Example no_recommendations_on_a_bad_day :
  fst (generate_recommendations_db (H := reference_platform) (Some 0%nat) ["Aspirin"]
         bad_day)
  = Raise (KeyError "rating").
Proof. reflexivity. Qed.

Lemma firstn_skipn_double {A} (l : list A) :
  firstn (length l) (l ++ l) = l /\ skipn (length l) (l ++ l) = l.
Proof.
  split.
  - rewrite firstn_app, Nat.sub_diag, firstn_all. simpl. apply app_nil_r.
  - rewrite skipn_app, Nat.sub_diag, skipn_all. reflexivity.
Qed.

Lemma sql_eval_recommendations `{Platform} d (names : list value) :
  sql_eval d (QCategoryRecs (length names)) (names ++ names)
  = Some (category_columns, category_rows d names names)
  /\ sql_eval d (QSymptomRecs (length names)) (names ++ names)
    = Some (symptom_columns, symptom_rows d names names)
  /\ sql_eval d (QPopularRecs (length names)) names
    = Some (popular_columns, popular_rows d names).
Proof.
  destruct (firstn_skipn_double names) as [Hfirst Hskip].
  cbn [sql_eval]. rewrite length_app, !Nat.eqb_refl, Hfirst, Hskip. auto.
Qed.

(** C9.  For a non-empty history, no name [generate_recommendations_db]
    returns is in the history: none of the three statements delivers a row
    whose name is in its NOT IN list, and what pandas does afterwards only
    drops and rearranges rows. *)
Theorem recommendations_exclude_the_history `{Platform}
    (conn : option Conn) (history : list string) (w w' : World)
    (recommended : list value) (json_response : json) :
  history <> [] ->
  generate_recommendations_db conn history w = (Ret (recommended, json_response), w') ->
  (forall h, In h history -> ~ In (VStr h) recommended)
  /\ (forall d ins r h,
        In r (category_rows d ins (List.map VStr history))
        \/ In r (symptom_rows d ins (List.map VStr history))
        \/ In r (popular_rows d (List.map VStr history)) ->
        In h history ->
        cell "name" r <> VStr h).
Proof.
  intros Hne Hrun.
  assert (Hqueries : forall d ins r h,
            In r (category_rows d ins (List.map VStr history))
            \/ In r (symptom_rows d ins (List.map VStr history))
            \/ In r (popular_rows d (List.map VStr history)) ->
            In h history ->
            cell "name" r <> VStr h).
  { intros d ins r h Hr Hh.
    assert (Hin : In (VStr h) (List.map VStr history)) by now apply in_map.
    destruct Hr as [Hr|[Hr|Hr]].
    - eapply category_rows_exclude; eassumption.
    - eapply symptom_rows_exclude; eassumption.
    - eapply popular_rows_exclude; eassumption. }
  split; [|exact Hqueries].
  destruct history as [|h0 hs]; [congruence|].
  set (history := h0 :: hs) in *.
  set (names := List.map VStr history).
  assert (Hlen : length history = length names) by (symmetry; apply length_map).
  destruct (execute_query_shape conn (QCategoryRecs (length names)) (names ++ names) w)
    as (c & w1 & Hc & Hdb1 & _ & _ & _ & Hfc).
  destruct (execute_query_shape conn (QSymptomRecs (length names)) (names ++ names) w1)
    as (s & w2 & Hs & Hdb2 & _ & _ & _ & Hfs).
  destruct (execute_query_shape conn (QPopularRecs (length names)) names w2)
    as (p & w3 & Hp & Hdb3 & _ & _ & _ & Hfp).
  assert (Hrows : forall r, In r (rows (all_recs c s p)) ->
                  forall h, In h history -> cell "name" r <> VStr h).
  { intros r Hr h Hh. rewrite all_recs_rows in Hr. unfold tagged in Hr.
    rewrite !in_app_iff, !in_map_iff in Hr.
    destruct Hr as [(r0 & <- & Hr)|[(r0 & <- & Hr)|(r0 & <- & Hr)]];
      rewrite cell_tagged by discriminate.
    - destruct Hfc as [->|(cols & rs & Hev & ->)]; [destruct Hr|].
      rewrite (proj1 (sql_eval_recommendations (db w) names)) in Hev.
      injection Hev as _ <-. cbn [rows frame_of] in Hr.
      apply (Hqueries (db w) names r0 h); auto.
    - destruct Hfs as [->|(cols & rs & Hev & ->)]; [destruct Hr|].
      rewrite (proj1 (proj2 (sql_eval_recommendations (db w1) names))) in Hev.
      injection Hev as _ <-. cbn [rows frame_of] in Hr.
      apply (Hqueries (db w1) names r0 h); auto.
    - destruct Hfp as [->|(cols & rs & Hev & ->)]; [destruct Hr|].
      rewrite (proj2 (proj2 (sql_eval_recommendations (db w2) names))) in Hev.
      injection Hev as _ <-. cbn [rows frame_of] in Hr.
      apply (Hqueries (db w2) [] r0 h); auto. }
  unfold generate_recommendations_db in Hrun. fold history in Hrun.
  assert (Hrun' :
    (let! category_recs :=
       execute_query conn (QCategoryRecs (length names)) (names ++ names) in
     let! symptom_recs :=
       execute_query conn (QSymptomRecs (length names)) (names ++ names) in
     let! popular_recs :=
       execute_query conn (QPopularRecs (length names)) names in
     let! deduped :=
       lift (drop_duplicates "name" (all_recs category_recs symptom_recs popular_recs)) in
     let! unique_recs := lift (sort_values_desc "rating" deduped) in
     let top_recs := head 4 unique_recs in
     let! now := timestamp_now in
     let frames := [rows category_recs; rows symptom_recs; rows popular_recs] in
     let json_response :=
       JDict
         [("recommendations",
           JList (List.map (recommendation_json frames top_recs) (rows top_recs)));
          ("based_on_history", JList (List.map JStr history));
          ("timestamp", JNum now)] in
     let! recommended := lift (tolist "name" top_recs) in
     ret (recommended, json_response)) w
    = (Ret (recommended, json_response), w')).
  { rewrite <- Hlen. exact Hrun. }
  clear Hrun. rename Hrun' into Hrun.
  unfold bind, lift, timestamp_now, ret in Hrun.

  rewrite Hc, Hs, Hp in Hrun.
  destruct (drop_duplicates "name" (all_recs c s p)) as [d|] eqn:Hd; [|discriminate].
  destruct (sort_values_desc "rating" d) as [u|] eqn:Hu; [|discriminate].
  destruct (tolist "name" (head 4 u)) as [got|] eqn:Hn; [|discriminate].
  injection Hrun as <- _ _.
  intros h Hh Hin.
  destruct (pipeline_names _ _ _ _ _ Hd Hu Hn Hin) as (r & Hr & Hv).
  eapply Hrows; eauto.
Qed.

Lemma recommendations_exclude_witness :
  (forall h, In h ["Aspirin"] ->
     ~ In (VStr h) [VStr "Ibuprofen"; VStr "Paracetamol"; VStr "Metformin"])
  /\ (forall d ins r h,
        In r (category_rows (H := reference_platform) d ins (List.map VStr ["Aspirin"]))
        \/ In r (symptom_rows (H := reference_platform) d ins (List.map VStr ["Aspirin"]))
        \/ In r (popular_rows (H := reference_platform) d (List.map VStr ["Aspirin"])) ->
        In h ["Aspirin"] ->
        cell "name" r <> VStr h).
Proof.
  apply (@recommendations_exclude_the_history reference_platform (Some 0%nat)
           ["Aspirin"] good_day
           (snd (generate_recommendations_db (H := reference_platform) (Some 0%nat)
                   ["Aspirin"] good_day))
           [VStr "Ibuprofen"; VStr "Paracetamol"; VStr "Metformin"]
           (match fst (generate_recommendations_db (H := reference_platform)
                         (Some 0%nat) ["Aspirin"] good_day) with
            | Ret x => snd x
            | Raise _ => JNull
            end)).
  - discriminate.
  - vm_compute. reflexivity.
Defined.

(* ===================================================================== *)
(** ** Further properties of the query layer *)
(* ===================================================================== *)

(** X1.  Called with one of the statements of the query functions,
    [execute_query] sends at most one statement to the server, the one it
    was given with the parameters it was given; a frame with rows can only
    come from a statement that was sent. *)
Theorem execute_query_sends_only_its_statement `{Platform}
    (conn : option Conn) (q : Query) (ps : list value) (w : World) :
  let r := execute_query conn q ps w in
  (statements (trace (snd r)) = statements (trace w)
   \/ statements (trace (snd r)) = statements (trace w) ++ [(q, ps)])
  /\ (forall df, fst r = Ret df -> rows df <> [] ->
        statements (trace (snd r)) = statements (trace w) ++ [(q, ps)]).
Proof.
  unfold_run. destruct conn as [c|]; run_cases;
    rewrite ?statements_app, ?statements_replay; simpl; rewrite ?app_nil_r;
    (split; [auto|]);
    intros df [= <-]; simpl; congruence.
Qed.

(** X2.  A failed first attempt to connect is remembered like a success: when
    the server does not answer the first call of [get_db_connection], the
    call shows the error and the troubleshooting note, returns [None] and
    caches it.  From then on, even on a server that answers again,
    [get_db_connection] hands out [None] without a call to the driver,
    showing again what the cached call put on the page, and [execute_query],
    called without a connection, shows the warning, these elements and the
    failure to reconnect, and returns [pd.DataFrame()] without a single call
    to the driver. *)
Theorem failed_connection_is_cached `{Platform} (w : World) :
  cache w = None ->
  up w (tick w) = false ->
  exists w1,
    get_db_connection w = (Ret None, w1)
    /\ cache w1 = Some None
    /\ cached_elements w1
       = [(Error, ConnectionFailed "connect"); (Info, Troubleshooting)]
    /\ trace w1
       = trace w ++ [EConnect; EShow Error (ConnectionFailed "connect");
                     EShow Info Troubleshooting]
    /\ forall w2 q ps,
         cache w2 = Some None ->
         (exists w2',
            get_db_connection w2 = (Ret None, w2')
            /\ tick w2' = tick w2
            /\ cache w2' = Some None
            /\ trace w2' = trace w2 ++ replay (cached_elements w2))
         /\ exists w3,
              execute_query None q ps w2 = (Ret no_frame, w3)
              /\ tick w3 = tick w2
              /\ cache w3 = Some None
              /\ trace w3
                 = trace w2 ++ [EShow Warning Reconnecting]
                   ++ replay (cached_elements w2)
                   ++ [EShow Error ReconnectFailed].
Proof.
  intros Hc Hup. unfold_run. rewrite Hc. simpl. rewrite Hup. simpl.
  eexists. split; [reflexivity|]. simpl. split; [reflexivity|].
  rewrite <- !app_assoc. simpl.
  rewrite skipn_app, skipn_all, Nat.sub_diag. simpl.
  split; [reflexivity|]. split; [reflexivity|].
  intros w2 q ps Hc2. rewrite Hc2. simpl. rewrite ?Hc2. simpl. split.
  - eexists. split; [reflexivity|]. simpl. auto.
  - eexists. split; [reflexivity|]. simpl.
    rewrite <- !app_assoc. auto.
Qed.

(** A world in which nothing was connected yet and the server is down. *)
Definition first_call_fails : World :=
  {| db := pharmacy; up := fun _ => false; tick := 0; cache := None;
     cached_elements := []; trace := []; clock := 0 |}.

Lemma failed_connection_witness :
  exists w1,
    get_db_connection first_call_fails = (Ret None, w1)
    /\ cache w1 = Some None
    /\ cached_elements w1
       = [(Error, ConnectionFailed "connect"); (Info, Troubleshooting)]
    /\ trace w1
       = trace first_call_fails
         ++ [EConnect; EShow Error (ConnectionFailed "connect");
             EShow Info Troubleshooting]
    /\ forall w2 q ps,
         cache w2 = Some None ->
         (exists w2',
            get_db_connection w2 = (Ret None, w2')
            /\ tick w2' = tick w2
            /\ cache w2' = Some None
            /\ trace w2' = trace w2 ++ replay (cached_elements w2))
         /\ exists w3,
              execute_query (H := reference_platform) None q ps w2 = (Ret no_frame, w3)
              /\ tick w3 = tick w2
              /\ cache w3 = Some None
              /\ trace w3
                 = trace w2 ++ [EShow Warning Reconnecting]
                   ++ replay (cached_elements w2)
                   ++ [EShow Error ReconnectFailed].
Proof.
  apply (@failed_connection_is_cached reference_platform first_call_fails);
    reflexivity.
Defined.

(** After the failed first call, a later query on a server that is back
    shows the connection error again and still sends nothing. *)
Example the_failure_is_shown_again :
  let w1 := snd (get_db_connection first_call_fails) in
  let w2 :=
    {| db := db w1; up := fun _ => true; tick := tick w1; cache := cache w1;
       cached_elements := cached_elements w1; trace := []; clock := clock w1 |} in
  let r := execute_query (H := reference_platform) None QLoadMedicines [] w2 in
  fst r = Ret no_frame
  /\ trace (snd r)
     = [EShow Warning Reconnecting; EShow Error (ConnectionFailed "connect");
        EShow Info Troubleshooting; EShow Error ReconnectFailed].
Proof. split; reflexivity. Qed.

(** X3.  The reconnect of [execute_query] works on first use: called without a
    connection in a world where nothing is cached and the server answers, it
    opens a connection, caches it, and returns the result of the statement
    run on it. *)
Theorem reconnect_opens_the_first_connection `{Platform}
    (q : Query) (ps : list value) (w : World) (cols : list string) (rs : list row) :
  cache w = None ->
  healthy w ->
  sql_eval (db w) q ps = Some (cols, rs) ->
  exists w',
    execute_query None q ps w = (Ret (frame_of rs cols), w')
    /\ cache w' = Some (Some (tick w))
    /\ trace w'
       = trace w
         ++ [EShow Warning Reconnecting; EConnect; EIsConnected (tick w);
             EShow Markdown (Connected (tick w)); EIsConnected (tick w);
             EExecute (tick w) q ps].
Proof.
  intros Hc Hup Hq. unfold_run. simpl. rewrite Hc. simpl.
  repeat (rewrite Hup; simpl). rewrite Hq. simpl.
  eexists. split; [reflexivity|]. simpl. split; [reflexivity|].
  rewrite <- !app_assoc. reflexivity.
Qed.

(** Nothing connected yet, and a server that answers. *)
Definition first_call_works : World :=
  {| db := pharmacy; up := fun _ => true; tick := 0; cache := None;
     cached_elements := []; trace := []; clock := 0 |}.

Lemma reconnect_witness :
  exists w',
    execute_query (H := reference_platform) None QLoadMedicines [] first_call_works
    = (Ret (frame_of (load_rows (H := reference_platform) pharmacy) load_columns), w')
    /\ cache w' = Some (Some 0%nat)
    /\ trace w'
       = [EShow Warning Reconnecting; EConnect; EIsConnected 0%nat;
          EShow Markdown (Connected 0%nat); EIsConnected 0%nat;
          EExecute 0%nat QLoadMedicines []].
Proof.
  apply (@reconnect_opens_the_first_connection reference_platform QLoadMedicines []
           first_call_works).
  - reflexivity.
  - intros t. reflexivity.
  - reflexivity.
Defined.

(** *** More on search *)

Lemma cell_scored_score s m : cell "relevance_score" (scored s m) = VNum s.
Proof. unfold cell, scored. now rewrite lookup_insert_eq. Qed.

Lemma sorted_by_weaken {A} (le le' : A -> A -> bool) (l : list A) :
  (forall x y, In x l -> In y l -> le x y = true -> le' x y = true) ->
  sorted_by le l -> sorted_by le' l.
Proof.
  unfold sorted_by. intros Himp Hs. induction Hs as [|x l Hs IH Hx].
  - constructor.
  - constructor.
    + apply IH. intros a b Ha Hb. apply Himp; simpl; auto.
    + rewrite List.Forall_forall in Hx |- *. intros y Hy.
      apply Himp; simpl; auto.
Qed.

(** Rows with one and the same relevance score are sorted by rating alone. *)
Lemma one_score_sorted_by_rating (s : Z) (l : list row) :
  Forall (fun r => cell "relevance_score" r = VNum s) l ->
  sorted_by (desc ["relevance_score"; "rating"]) l ->
  sorted_by (desc ["rating"]) l.
Proof.
  rewrite List.Forall_forall. intros Hs. apply sorted_by_weaken.
  intros x y Hx Hy. cbn [desc]. rewrite (Hs x Hx), (Hs y Hy).
  simpl. now rewrite Z.leb_refl.
Qed.

(** X4.  Searching by "medicine" returns exactly the catalog rows whose name
    matches the pattern, searching by "symptom" exactly those whose treats
    matches; every row of the first carries score 2, every row of the second
    score 1 (the [ELSE 0] of the statements never applies), so both results
    are in descending order of rating. *)
Theorem single_field_search `{Platform} (c : Conn) (w : World) (query : string) :
  healthy w ->
  let co := collation_of (db w) in
  let p := "%" +:+ lower query +:+ "%" in
  (exists df w',
     search_medicines_db (Some c) query "medicine" w = (Ret df, w')
     /\ Permutation (rows df)
          (List.map (scored 2)
             (List.filter (fun m => sql_like co (m_name m) p) (medicines (db w))))
     /\ sorted_by (desc ["rating"]) (rows df))
  /\ (exists df w',
        search_medicines_db (Some c) query "symptom" w = (Ret df, w')
        /\ Permutation (rows df)
             (List.map (scored 1)
                (List.filter (fun m => sql_like co (m_treats m) p) (medicines (db w))))
        /\ sorted_by (desc ["rating"]) (rows df)).
Proof.
  intros Hup co p. split.
  - destruct (execute_query_healthy c (QSearch ByMedicine) [VStr p; VStr p] w _ _
                Hup eq_refl) as (w' & Hrun & _).
    do 2 eexists. split; [exact Hrun|]. unfold frame_of. cbn [rows].
    unfold search_medicine_rows. cbn [like_param]. fold co.
    assert (Hmap :
      List.map (fun m => scored (if sql_like co (m_name m) p then 2 else 0) m)
        (List.filter (fun m => sql_like co (m_name m) p) (medicines (db w)))
      = List.map (scored 2)
          (List.filter (fun m => sql_like co (m_name m) p) (medicines (db w)))).
    { apply map_ext_in. intros m Hm. apply filter_In in Hm as [_ Hm].
      now rewrite Hm. }
    rewrite Hmap. split; [apply order_by_perm|].
    apply (one_score_sorted_by_rating 2); [|apply order_by_sorted].
    rewrite List.Forall_forall. intros r Hr. apply order_by_In in Hr.
    apply in_map_iff in Hr as (m & <- & _). apply cell_scored_score.
  - destruct (execute_query_healthy c (QSearch BySymptom) [VStr p; VStr p] w _ _
                Hup eq_refl) as (w' & Hrun & _).
    do 2 eexists. split; [exact Hrun|]. unfold frame_of. cbn [rows].
    unfold search_symptom_rows. cbn [like_param]. fold co.
    assert (Hmap :
      List.map (fun m => scored (if sql_like co (m_treats m) p then 1 else 0) m)
        (List.filter (fun m => sql_like co (m_treats m) p) (medicines (db w)))
      = List.map (scored 1)
          (List.filter (fun m => sql_like co (m_treats m) p) (medicines (db w)))).
    { apply map_ext_in. intros m Hm. apply filter_In in Hm as [_ Hm].
      now rewrite Hm. }
    rewrite Hmap. split; [apply order_by_perm|].
    apply (one_score_sorted_by_rating 1); [|apply order_by_sorted].
    rewrite List.Forall_forall. intros r Hr. apply order_by_In in Hr.
    apply in_map_iff in Hr as (m & <- & _). apply cell_scored_score.
Qed.

Lemma single_field_search_witness :
  (exists df w',
     search_medicines_db (H := reference_platform) (Some 0%nat) "Ibu" "medicine" good_day
     = (Ret df, w')
     /\ Permutation (rows df)
          (List.map (scored 2)
             (List.filter (fun m => sql_like general_ci (m_name m) "%ibu%")
                (medicines pharmacy)))
     /\ sorted_by (desc ["rating"]) (rows df))
  /\ (exists df w',
        search_medicines_db (H := reference_platform) (Some 0%nat) "Ibu" "symptom" good_day
        = (Ret df, w')
        /\ Permutation (rows df)
             (List.map (scored 1)
                (List.filter (fun m => sql_like general_ci (m_treats m) "%ibu%")
                   (medicines pharmacy)))
        /\ sorted_by (desc ["rating"]) (rows df)).
Proof.
  apply (@single_field_search reference_platform 0%nat good_day "Ibu").
  intros t. reflexivity.
Defined.

Lemma like_everything co s : sql_like co s "%%" = true.
Proof.
  unfold sql_like. change (like_parse (chars "%%")) with [PMany; PMany].
  apply like_many_here, like_many_last.
Qed.

Lemma filter_all {A} (p : A -> bool) l :
  (forall x, In x l -> p x = true) -> List.filter p l = l.
Proof.
  induction l as [|x l IH]; simpl; intros Hp; [reflexivity|].
  rewrite (Hp x) by auto. f_equal. apply IH. auto.
Qed.

(** X5.  The empty query matches everything: whatever the search type, the whole
    catalog comes back, every row scored 1 under "symptom" and 2 otherwise.
    ([main] only searches when the query is not empty.) *)
Theorem empty_query_returns_the_catalog `{Platform}
    (c : Conn) (w : World) (search_type : string) :
  healthy w ->
  exists df w',
    search_medicines_db (Some c) "" search_type w = (Ret df, w')
    /\ Permutation (rows df)
         (List.map (scored (if String.eqb search_type "symptom" then 1 else 2))
            (medicines (db w))).
Proof.
  intros Hup. unfold search_medicines_db.
  change ("%" +:+ lower "" +:+ "%") with "%%".
  set (co := collation_of (db w)).
  destruct (String.eqb search_type "medicine") eqn:Em.
  - apply String.eqb_eq in Em. subst search_type.
    destruct (execute_query_healthy c (QSearch ByMedicine) [VStr "%%"; VStr "%%"] w _ _
                Hup eq_refl) as (w' & Hrun & _).
    do 2 eexists. split; [exact Hrun|]. unfold frame_of. cbn [rows].
    unfold search_medicine_rows. cbn [like_param]. rewrite order_by_perm.
    rewrite filter_all by (intros; apply like_everything).
    apply Permutation_refl'. apply map_ext. intros m. now rewrite like_everything.
  - destruct (String.eqb search_type "symptom") eqn:Es.
    + destruct (execute_query_healthy c (QSearch BySymptom) [VStr "%%"; VStr "%%"] w _ _
                  Hup eq_refl) as (w' & Hrun & _).
      do 2 eexists. split; [exact Hrun|]. unfold frame_of. cbn [rows].
      unfold search_symptom_rows. cbn [like_param]. rewrite order_by_perm.
      rewrite filter_all by (intros; apply like_everything).
      apply Permutation_refl'. apply map_ext. intros m. now rewrite like_everything.
    + destruct (execute_query_healthy c (QSearch ByBoth)
                  [VStr "%%"; VStr "%%"; VStr "%%"; VStr "%%"] w _ _ Hup eq_refl)
        as (w' & Hrun & _).
      do 2 eexists. split; [exact Hrun|]. unfold frame_of. cbn [rows].
      unfold search_both_rows, both_score. cbn [like_param]. rewrite order_by_perm.
      rewrite filter_all by (intros; rewrite like_everything; reflexivity).
      apply Permutation_refl'. apply map_ext. intros m. now rewrite like_everything.
Qed.

Lemma empty_query_witness :
  exists df w',
    search_medicines_db (H := reference_platform) (Some 0%nat) "" "both" good_day
    = (Ret df, w')
    /\ Permutation (rows df) (List.map (scored 2) (medicines pharmacy)).
Proof.
  apply (@empty_query_returns_the_catalog reference_platform 0%nat good_day "both").
  intros t. reflexivity.
Defined.

(** A list in descending order of a score that is 2 or 1 is its rows of
    score 2 followed by its rows of score 1. *)
Lemma split_by_score (l : list row) :
  Forall (fun r => cell "relevance_score" r = VNum 2
                   \/ cell "relevance_score" r = VNum 1) l ->
  sorted_by (desc ["relevance_score"; "rating"]) l ->
  exists a b,
    l = a ++ b
    /\ Forall (fun r => cell "relevance_score" r = VNum 2) a
    /\ Forall (fun r => cell "relevance_score" r = VNum 1) b.
Proof.
  unfold sorted_by. intros Hsc Hs. induction Hs as [|x l Hs IH Hx].
  - exists [], []. repeat split; constructor.
  - inversion Hsc as [|? ? Hx2 Hl]; subst.
    destruct (IH Hl) as (a & b & -> & Ha & Hb).
    destruct Hx2 as [Hx2|Hx1].
    + exists (x :: a), b. repeat split; [now constructor|exact Hb].
    + exists [], (x :: a ++ b). repeat split; [constructor|].
      constructor; [exact Hx1|].
      rewrite List.Forall_forall in Hx, Hl |- *. intros y Hy.
      specialize (Hx y Hy). cbn [desc] in Hx. rewrite Hx1 in Hx.
      destruct (Hl y Hy) as [Hy2|Hy1]; [|exact Hy1].
      rewrite Hy2 in Hx. simpl in Hx. discriminate.
Qed.

(** X6.  In a search by "both" the name matches come first: the result is the
    rows of score 2 followed by the rows of score 1, each part in descending
    order of rating, and no row has score 0. *)
Theorem name_matches_come_first `{Platform} (c : Conn) (w : World) (query : string) :
  healthy w ->
  exists df w' by_name by_treats,
    search_medicines_db (Some c) query "both" w = (Ret df, w')
    /\ rows df = by_name ++ by_treats
    /\ Forall (fun r => cell "relevance_score" r = VNum 2) by_name
    /\ Forall (fun r => cell "relevance_score" r = VNum 1) by_treats
    /\ sorted_by (desc ["rating"]) by_name
    /\ sorted_by (desc ["rating"]) by_treats.
Proof.
  intros Hup.
  set (p := VStr ("%" +:+ lower query +:+ "%")).
  destruct (execute_query_healthy c (QSearch ByBoth) [p; p; p; p] w _ _ Hup eq_refl)
    as (w' & Hrun & _).
  assert (Hscores :
    Forall (fun r => cell "relevance_score" r = VNum 2
                     \/ cell "relevance_score" r = VNum 1)
      (search_both_rows (db w) p p p p)).
  { rewrite List.Forall_forall. intros r Hr. unfold search_both_rows in Hr.
    apply order_by_In in Hr. apply in_map_iff in Hr as (m & <- & Hm).
    apply filter_In in Hm as [_ Hm]. rewrite cell_scored_score. unfold both_score.
    destruct (like_param _ (m_name m) p); [now left|].
    rewrite orb_false_l in Hm. rewrite Hm. now right. }
  assert (Hsorted : sorted_by (desc ["relevance_score"; "rating"])
                      (search_both_rows (db w) p p p p))
    by apply order_by_sorted.
  destruct (split_by_score _ Hscores Hsorted) as (a & b & Hab & Ha & Hb).
  exists (frame_of (search_both_rows (db w) p p p p) search_columns), w', a, b.
  split; [exact Hrun|]. split; [exact Hab|]. split; [exact Ha|]. split; [exact Hb|].
  rewrite Hab in Hsorted. split.
  - apply (one_score_sorted_by_rating 2 a Ha).
    eapply sorted_by_sublist; [|exact Hsorted]. now apply sublist_inserts_r.
  - apply (one_score_sorted_by_rating 1 b Hb).
    eapply sorted_by_sublist; [|exact Hsorted]. now apply sublist_inserts_l.
Qed.

Lemma name_matches_witness :
  exists df w' by_name by_treats,
    search_medicines_db (H := reference_platform) (Some 0%nat) "in" "both" good_day
    = (Ret df, w')
    /\ rows df = by_name ++ by_treats
    /\ Forall (fun r => cell "relevance_score" r = VNum 2) by_name
    /\ Forall (fun r => cell "relevance_score" r = VNum 1) by_treats
    /\ sorted_by (desc ["rating"]) by_name
    /\ sorted_by (desc ["rating"]) by_treats.
Proof.
  apply (@name_matches_come_first reference_platform 0%nat good_day "in").
  intros t. reflexivity.
Defined.

(** Searching the demo pharmacy for "in": Insulin, Aspirin and Metformin by
    name, then Ibuprofen and Paracetamol by what they treat. *)
Example search_for_in :
  List.map (fun r => (cell "name" r, cell "relevance_score" r, cell "rating" r))
    (rows (frame_in (search_medicines_db (H := reference_platform) (Some 0%nat) "in"
                       "both" good_day)))
  = [(VStr "Insulin", VNum 2, VNum 95); (VStr "Aspirin", VNum 2, VNum 85);
     (VStr "Metformin", VNum 2, VNum 80); (VStr "Ibuprofen", VNum 1, VNum 90);
     (VStr "Paracetamol", VNum 1, VNum 88)].
Proof. vm_compute. reflexivity. Qed.

(** *** More on the catalog and the purchase history *)

Lemma same_medicine_id co a b : same_medicine co a b = true -> m_id a = m_id b.
Proof.
  unfold same_medicine. rewrite !andb_true_iff, Z.eqb_eq. tauto.
Qed.

Lemma same_medicine_refl co a : same_medicine co a a = true.
Proof.
  unfold same_medicine.
  now rewrite Z.eqb_refl, !str_eq_refl, !opt_eqb_refl.
Qed.

(** What [load_medicines_from_db] makes of the frame it fetched. *)
Lemma load_medicines_from_frame `{Platform} conn w w1 rs :
  execute_query conn QLoadMedicines [] w = (Ret (frame_of rs load_columns), w1) ->
  load_medicines_from_db conn w
  = (Ret (frame_of (keep_first "name" rs) load_columns), w1).
Proof.
  intros Hrun. unfold load_medicines_from_db, bind. rewrite Hrun.
  destruct rs as [|r rs]; [reflexivity|].
  change (negb (empty (frame_of (r :: rs) load_columns))) with true. cbn iota.
  unfold lift. rewrite drop_duplicates_frame; [reflexivity|]. simpl. auto.
Qed.

Lemma keep_first_covers col l r :
  In r l -> exists r', In r' (keep_first col l) /\ cell col r' = cell col r.
Proof.
  intros Hr. rewrite <- drop_duplicates_keep_first.
  destruct (dedup_by_covers (same_cell col) [] l r) as (r' & [[]|Hr'] & Hsame).
  - intros a. now apply same_cell_eq.
  - exact Hr.
  - exists r'. split; [exact Hr'|]. apply same_cell_eq in Hsame. congruence.
Qed.

Lemma cell_name_medicine_row m : cell "name" (medicine_row m) = VStr (m_name m).
Proof.
  unfold cell, medicine_row.
  rewrite lookup_insert_ne by discriminate. now rewrite lookup_insert_eq.
Qed.

(** X7.  When the server answers and [medicines.id] is the primary key, the
    catalog loses no name: every name of the table is the name of a row of the
    catalog, and every row of the catalog is a row of the table together with
    the number of purchases of that medicine. *)
Theorem catalog_keeps_every_name `{Platform} (c : Conn) (w : World) :
  healthy w ->
  primary_key (db w) ->
  exists df w',
    load_medicines_from_db (Some c) w = (Ret df, w')
    /\ (forall m, In m (medicines (db w)) ->
          In (VStr (m_name m)) (List.map (cell "name") (rows df)))
    /\ (forall r, In r (rows df) ->
          exists m,
            In m (medicines (db w))
            /\ r = <["purchase_count" := VNum (count_distinct_purchases (db w) m)]>
                     (medicine_row m)).
Proof.
  intros Hup Hpk.
  destruct (execute_query_healthy c QLoadMedicines [] w _ _ Hup eq_refl)
    as (w' & Hrun & _).
  exists (frame_of (keep_first "name" (load_rows (db w))) load_columns), w'.
  split; [now apply load_medicines_from_frame|].
  unfold frame_of. cbn [rows].
  assert (Hrows : forall r, In r (load_rows (db w)) <->
            exists m, In m (medicines (db w))
              /\ r = <["purchase_count" := VNum (count_distinct_purchases (db w) m)]>
                       (medicine_row m)).
  { intros r. unfold load_rows. rewrite order_by_In, in_map_iff. split.
    - intros (g & <- & Hg). apply group_by_In in Hg as [Hg _].
      apply dedup_by_In in Hg. eauto.
    - intros (m & Hm & ->).
      destruct (dedup_by_covers (same_medicine (collation_of (db w))) []
                  (medicines (db w)) m (same_medicine_refl _) Hm)
        as (k & [[]|Hk] & Hsame).
      assert (m = k) as <-.
      { eapply primary_key_inj; [exact Hpk|exact Hm| |].
        - eapply dedup_by_In, Hk.
        - eapply same_medicine_id, Hsame. }
      exists (m, List.filter (same_medicine (collation_of (db w)) m) (medicines (db w))).
      split; [reflexivity|]. unfold group_by. apply in_map_iff. eauto. }
  split.
  - intros m Hm.
    destruct (keep_first_covers "name" (load_rows (db w))
                (<["purchase_count" := VNum (count_distinct_purchases (db w) m)]>
                   (medicine_row m))) as (r' & Hr' & Hname).
    { apply Hrows. eauto. }
    apply in_map_iff. exists r'. split; [|exact Hr'].
    rewrite Hname. unfold cell at 1. rewrite lookup_insert_ne by discriminate.
    apply cell_name_medicine_row.
  - intros r Hr. apply Hrows. eapply sublist_In; [apply keep_first_sublist|exact Hr].
Qed.

Lemma catalog_keeps_every_name_witness :
  exists df w',
    load_medicines_from_db (H := reference_platform) (Some 0%nat) good_day = (Ret df, w')
    /\ (forall m, In m (medicines pharmacy) ->
          In (VStr (m_name m)) (List.map (cell "name") (rows df)))
    /\ (forall r, In r (rows df) ->
          exists m,
            In m (medicines pharmacy)
            /\ r = <["purchase_count" := VNum (count_distinct_purchases pharmacy m)]>
                     (medicine_row m)).
Proof.
  apply (@catalog_keeps_every_name reference_platform 0%nat good_day).
  - intros t. reflexivity.
  - unfold primary_key. simpl. compute_done.
Defined.

Lemma dedup_by_nil {A} (same : A -> A -> bool) (l : list A) :
  dedup_by same [] l = [] <-> l = [].
Proof.
  split; [|intros ->; reflexivity].
  destruct l as [|x l]; [reflexivity|]. simpl. discriminate.
Qed.

Lemma order_by_is_nil `{Platform} keys rs : order_by keys rs = [] <-> rs = [].
Proof.
  split.
  - intros Hnil. pose proof (order_by_perm keys rs) as Hp. rewrite Hnil in Hp.
    now apply Permutation_nil.
  - intros ->. apply order_by_nil.
Qed.

(** X8.  When the server answers, the history of a user is empty exactly when no
    purchase of that user refers to a medicine of the catalog; in particular
    a user id the database does not know has an empty history. *)
Theorem history_is_empty_without_purchases `{Platform}
    (c : Conn) (w : World) (user_id : Z) :
  healthy w ->
  exists df w',
    get_user_history (Some c) user_id w = (Ret df, w')
    /\ (rows df = [] <->
        forall ph m,
          In ph (purchase_history (db w)) -> In m (medicines (db w)) ->
          ph_user_id ph = user_id -> ph_medicine_id ph <> m_id m).
Proof.
  intros Hup.
  destruct (execute_query_healthy c QUserHistory [VNum user_id] w _ _ Hup eq_refl)
    as (w' & Hrun & _).
  do 2 eexists. split; [exact Hrun|]. unfold frame_of. cbn [rows].
  unfold history_rows, group_by.
  rewrite order_by_is_nil. split.
  - intros Hnil ph m Hph Hm Hu Hid.
    apply map_eq_nil, map_eq_nil, dedup_by_nil in Hnil.
    assert (Hin : In (ph, m)
                    (List.filter (fun x => user_is (VNum user_id) (fst x))
                       (history_join (db w)))).
    { apply filter_In. split; [apply history_join_In; simpl; auto|].
      simpl. now apply Z.eqb_eq. }
    rewrite Hnil in Hin. destruct Hin.
  - intros Hnone.
    destruct (List.filter (fun x => user_is (VNum user_id) (fst x))
                (history_join (db w))) as [|x l] eqn:E; [reflexivity|].
    assert (Hin : In x (x :: l)) by now left.
    rewrite <- E in Hin. apply filter_In in Hin as [Hj Hu].
    apply history_join_In in Hj as (Hph & Hm & Hid).
    simpl in Hu. apply Z.eqb_eq in Hu.
    destruct (Hnone _ _ Hph Hm Hu Hid).
Qed.

Lemma history_is_empty_witness :
  exists df w',
    get_user_history (H := reference_platform) (Some 0%nat) 99 good_day = (Ret df, w')
    /\ (rows df = [] <->
        forall ph m,
          In ph (purchase_history pharmacy) -> In m (medicines pharmacy) ->
          ph_user_id ph = 99 -> ph_medicine_id ph <> m_id m).
Proof.
  apply (@history_is_empty_without_purchases reference_platform 0%nat good_day 99).
  intros t. reflexivity.
Defined.

(** *** More on recommendations *)

(** The pandas part of [generate_recommendations_db], whenever it goes
    through. *)
Lemma pipeline_shape `{Platform} (all d u : DataFrame) (names : list value) :
  drop_duplicates "name" all = Ret d ->
  sort_values_desc "rating" d = Ret u ->
  tolist "name" (head 4 u) = Ret names ->
  exists ranked,
    names = List.map (cell "name") (firstn 4 ranked)
    /\ rows (head 4 u) = firstn 4 ranked
    /\ columns u = columns all
    /\ Permutation ranked (keep_first "name" (rows all))
    /\ sorted_by (desc ["rating"]) ranked.
Proof.
  intros Hd Hu Hn.
  assert (Hdrows : rows d = keep_first "name" (rows all) /\ columns d = columns all).
  { unfold drop_duplicates in Hd. destruct (empty all) eqn:E.
    - injection Hd as <-. split; [|reflexivity].
      unfold sort_values_desc in Hu.
      destruct (has_column "rating" all) eqn:Hc; [|discriminate].
      apply has_column_true in Hc. unfold empty in E.
      destruct (rows all) as [|r rs]; [reflexivity|].
      destruct (columns all); [destruct Hc|discriminate].
    - destruct (has_column "name" all); [|discriminate].
      injection Hd as <-. cbn [rows columns]. split; [|reflexivity].
      apply drop_duplicates_keep_first. }
  destruct Hdrows as [Hdrows Hdcols].
  unfold sort_values_desc in Hu.
  destruct (has_column "rating" d); [|discriminate]. injection Hu as <-.
  unfold tolist, head in Hn. cbn [columns rows] in Hn.
  match type of Hn with
  | (if ?b then _ else _) = _ => destruct b; [|discriminate]
  end.
  injection Hn as <-.
  exists (sort_with pandas_order row (desc ["rating"]) (rows d)).
  split; [reflexivity|]. split; [reflexivity|]. split; [exact Hdcols|]. split.
  - rewrite <- Hdrows. apply sort_with_perm.
  - apply sort_with_sorted; [apply desc_total|apply desc_trans].
Qed.

(** The run of the function for a non-empty history, step by step. *)
Lemma generate_run `{Platform} conn (history : list string) w w' recommended json_response :
  history <> [] ->
  generate_recommendations_db conn history w = (Ret (recommended, json_response), w') ->
  let n := length history in
  let names := List.map VStr history in
  exists c w1 s w2 p d u,
    execute_query conn (QCategoryRecs n) (names ++ names) w = (Ret c, w1)
    /\ execute_query conn (QSymptomRecs n) (names ++ names) w1 = (Ret s, w2)
    /\ execute_query conn (QPopularRecs n) names w2 = (Ret p, w')
    /\ drop_duplicates "name" (all_recs c s p) = Ret d
    /\ sort_values_desc "rating" d = Ret u
    /\ tolist "name" (head 4 u) = Ret recommended
    /\ json_response
       = JDict
           [("recommendations",
             JList (List.map (recommendation_json [rows c; rows s; rows p] (head 4 u))
                      (rows (head 4 u))));
            ("based_on_history", JList (List.map JStr history));
            ("timestamp", JNum (clock w'))].
Proof.
  intros Hne Hrun n names.
  destruct history as [|h hs]; [congruence|].
  unfold generate_recommendations_db, bind, lift, timestamp_now, ret in Hrun.
  fold n in Hrun. fold names in Hrun.
  destruct (execute_query conn (QCategoryRecs n) (names ++ names) w)
    as [[c|] w1] eqn:Hc; [|discriminate].
  destruct (execute_query conn (QSymptomRecs n) (names ++ names) w1)
    as [[s|] w2] eqn:Hs; [|discriminate].
  destruct (execute_query conn (QPopularRecs n) names w2)
    as [[p|] w3] eqn:Hp; [|discriminate].
  destruct (drop_duplicates "name" (all_recs c s p)) as [d|] eqn:Hd; [|discriminate].
  destruct (sort_values_desc "rating" d) as [u|] eqn:Hu; [|discriminate].
  destruct (tolist "name" (head 4 u)) as [got|] eqn:Hn; [|discriminate].
  injection Hrun as <- <- <-.
  exists c, w1, s, w2, p, d, u. repeat split; assumption.
Qed.

Lemma NoDup_map_take {A B} (f : A -> B) n (l : list A) :
  NoDup (List.map f l) -> NoDup (List.map f (firstn n l)).
Proof.
  intros Hnd. rewrite <- firstn_map.
  apply (sublist_NoDup (firstn n (List.map f l)) (List.map f l));
    [exact Hnd|apply sublist_take].
Qed.

(** X9.  The function never returns more than four names, and never the same
    name twice. *)
Theorem at_most_four_distinct_recommendations `{Platform}
    (conn : option Conn) (history : list string) (w w' : World)
    (recommended : list value) (json_response : json) :
  generate_recommendations_db conn history w = (Ret (recommended, json_response), w') ->
  (length recommended <= 4)%nat /\ NoDup recommended.
Proof.
  intros Hrun. destruct history as [|h hs].
  - injection Hrun as <- _ _. split; [simpl; lia|constructor].
  - destruct (generate_run conn (h :: hs) w w' recommended json_response
                ltac:(discriminate) Hrun)
      as (c & w1 & s & w2 & p & d & u & _ & _ & _ & Hd & Hu & Hn & _).
    destruct (pipeline_shape _ _ _ _ Hd Hu Hn) as (ranked & -> & _ & _ & Hperm & _).
    split.
    + rewrite length_map, length_take. lia.
    + apply NoDup_map_take. rewrite Hperm. apply keep_first_NoDup.
Qed.

Lemma at_most_four_witness :
  (length [VStr "Ibuprofen"; VStr "Paracetamol"; VStr "Metformin"] <= 4)%nat
  /\ NoDup [VStr "Ibuprofen"; VStr "Paracetamol"; VStr "Metformin"].
Proof.
  apply (@at_most_four_distinct_recommendations reference_platform (Some 0%nat)
           ["Aspirin"] good_day
           (snd (generate_recommendations_db (H := reference_platform) (Some 0%nat)
                   ["Aspirin"] good_day))
           [VStr "Ibuprofen"; VStr "Paracetamol"; VStr "Metformin"]
           (match fst (generate_recommendations_db (H := reference_platform)
                         (Some 0%nat) ["Aspirin"] good_day) with
            | Ret x => snd x
            | Raise _ => JNull
            end)).
  vm_compute. reflexivity.
Defined.

Lemma sorted_app_order {A} (le : A -> A -> bool) (a b : list A) x y :
  sorted_by le (a ++ b) -> In x a -> In y b -> le x y = true.
Proof.
  unfold sorted_by. induction a as [|z a IH]; simpl; [tauto|].
  intros Hs [->|Hx] Hy; inversion Hs as [|? ? Hs' Hz]; subst.
  - rewrite List.Forall_forall in Hz. apply Hz, in_or_app. now right.
  - now apply IH.
Qed.

Lemma NoDup_map_inj {A B} (f : A -> B) (l : list A) x y :
  NoDup (List.map f l) -> In x l -> In y l -> f x = f y -> x = y.
Proof.
  induction l as [|z l IH]; simpl; [tauto|].
  rewrite NoDup_cons, list_elem_of_In, in_map_iff.
  intros [Hz Hl] [->|Hx] [->|Hy] Hf; auto.
  - destruct Hz. eauto.
  - destruct Hz. eauto.
Qed.

Lemma desc_rating r1 r2 :
  desc ["rating"] r1 r2 = true ->
  value_leb (cell "rating" r2) (cell "rating" r1) = true.
Proof.
  cbn [desc]. destruct (value_leb (cell "rating" r2) (cell "rating" r1));
    [reflexivity|discriminate].
Qed.

(** X10.  The names returned are those of the best rated candidates.  With the
    candidates being the rows of the three frames, each tagged with its
    source, first row of every name kept: every name returned is the name of
    a candidate; no candidate left out is rated higher than a candidate
    returned; and when there are at most four candidates, all of them are
    returned. *)
Theorem recommendations_are_the_best_rated `{Platform}
    (conn : option Conn) (history : list string) (w w' : World)
    (recommended : list value) (json_response : json) :
  history <> [] ->
  generate_recommendations_db conn history w = (Ret (recommended, json_response), w') ->
  let n := length history in
  let names := List.map VStr history in
  exists c w1 s w2 p,
    execute_query conn (QCategoryRecs n) (names ++ names) w = (Ret c, w1)
    /\ execute_query conn (QSymptomRecs n) (names ++ names) w1 = (Ret s, w2)
    /\ execute_query conn (QPopularRecs n) names w2 = (Ret p, w')
    /\ let candidates :=
         keep_first "name"
           (tagged "category" c ++ tagged "symptom" s ++ tagged "popular" p) in
       (forall v, In v recommended -> exists r, In r candidates /\ cell "name" r = v)
       /\ (forall out kept,
             In out candidates -> In kept candidates ->
             ~ In (cell "name" out) recommended ->
             In (cell "name" kept) recommended ->
             value_leb (cell "rating" out) (cell "rating" kept) = true)
       /\ ((length candidates <= 4)%nat ->
           forall r, In r candidates -> In (cell "name" r) recommended).
Proof.
  intros Hne Hrun n names.
  destruct (generate_run conn history w w' recommended json_response Hne Hrun)
    as (c & w1 & s & w2 & p & d & u & Hc & Hs & Hp & Hd & Hu & Hn & _).
  exists c, w1, s, w2, p. split; [exact Hc|]. split; [exact Hs|]. split; [exact Hp|].
  destruct (pipeline_shape _ _ _ _ Hd Hu Hn) as (ranked & -> & _ & _ & Hperm & Hsorted).
  rewrite all_recs_rows in Hperm. intros candidates. fold candidates in Hperm.
  assert (Hnd : NoDup (List.map (cell "name") ranked)).
  { rewrite Hperm. apply keep_first_NoDup. }
  assert (Hin : forall r, In r ranked <-> In r candidates).
  { intros r. split; apply Permutation_in; [|symmetry]; exact Hperm. }
  split; [|split].
  - intros v Hv. apply in_map_iff in Hv as (r & <- & Hr).
    exists r. split; [|reflexivity].
    apply Hin. eapply sublist_In; [apply sublist_take|exact Hr].
  - intros out kept Hout Hkept Hnot Hyes.
    apply desc_rating.
    apply (sorted_app_order _ (firstn 4 ranked) (skipn 4 ranked)).
    + now rewrite firstn_skipn.
    + apply in_map_iff in Hyes as (k & Hname & Hk).
      assert (k = kept) as <-; [|exact Hk].
      eapply NoDup_map_inj; [exact Hnd| |now apply Hin|exact Hname].
      eapply sublist_In; [apply sublist_take|exact Hk].
    + apply Hin in Hout. rewrite <- (firstn_skipn 4 ranked) in Hout.
      apply in_app_or in Hout as [Hout|Hout]; [|exact Hout].
      destruct Hnot. now apply in_map.
  - intros Hlen r Hr. apply in_map. apply Hin in Hr.
    rewrite firstn_all2; [exact Hr|].
    rewrite (Permutation_length Hperm). exact Hlen.
Qed.

Lemma best_rated_witness :
  exists c w1 s w2 p,
    execute_query (H := reference_platform) (Some 0%nat) (QCategoryRecs 1)
      (demo_history ++ demo_history) good_day = (Ret c, w1)
    /\ execute_query (H := reference_platform) (Some 0%nat) (QSymptomRecs 1)
         (demo_history ++ demo_history) w1 = (Ret s, w2)
    /\ execute_query (H := reference_platform) (Some 0%nat) (QPopularRecs 1)
         demo_history w2 = (Ret p, snd demo_popular)
    /\ let candidates :=
         keep_first "name"
           (tagged "category" c ++ tagged "symptom" s ++ tagged "popular" p) in
       (forall v, In v [VStr "Ibuprofen"; VStr "Paracetamol"; VStr "Metformin"] ->
          exists r, In r candidates /\ cell "name" r = v)
       /\ (forall out kept,
             In out candidates -> In kept candidates ->
             ~ In (cell "name" out) [VStr "Ibuprofen"; VStr "Paracetamol"; VStr "Metformin"] ->
             In (cell "name" kept) [VStr "Ibuprofen"; VStr "Paracetamol"; VStr "Metformin"] ->
             value_leb (cell "rating" out) (cell "rating" kept) = true)
       /\ ((length candidates <= 4)%nat ->
           forall r, In r candidates ->
             In (cell "name" r) [VStr "Ibuprofen"; VStr "Paracetamol"; VStr "Metformin"]).
Proof.
  apply (@recommendations_are_the_best_rated reference_platform (Some 0%nat)
           ["Aspirin"] good_day (snd demo_popular)
           [VStr "Ibuprofen"; VStr "Paracetamol"; VStr "Metformin"]
           (match fst (generate_recommendations_db (H := reference_platform)
                         (Some 0%nat) ["Aspirin"] good_day) with
            | Ret x => snd x
            | Raise _ => JNull
            end)).
  - discriminate.
  - vm_compute. reflexivity.
Defined.

(** *** When the server is gone *)

Lemma execute_query_server_gone `{Platform} conn q ps w :
  (forall t, up w t = false) ->
  exists w', execute_query conn q ps w = (Ret no_frame, w') /\ up w' = up w.
Proof.
  intros Hup. unfold_run. destruct conn as [c|]; simpl;
    repeat (rewrite Hup; simpl); run_cases;
    repeat match goal with
           | Hx : context [up w _] |- _ => rewrite Hup in Hx; simpl in Hx
           end;
    try discriminate; eexists; split; reflexivity.
Qed.

(** X11.  With a history that is not empty and a server that does not answer, all
    three statements fail, the frame of candidates has no [rating] column,
    and [sort_values] raises: the function does not return, it raises
    [KeyError]. *)
Theorem recommendations_raise_when_the_server_is_gone `{Platform}
    (conn : option Conn) (history : list string) (w : World) :
  history <> [] ->
  (forall t, up w t = false) ->
  exists w', generate_recommendations_db conn history w = (Raise (KeyError "rating"), w').
Proof.
  intros Hne Hup. destruct history as [|h hs]; [congruence|].
  unfold generate_recommendations_db, bind.
  destruct (execute_query_server_gone conn (QCategoryRecs (length (h :: hs)))
              (List.map VStr (h :: hs) ++ List.map VStr (h :: hs)) w Hup)
    as (w1 & -> & Hup1).
  rewrite <- Hup1 in Hup.
  destruct (execute_query_server_gone conn (QSymptomRecs (length (h :: hs)))
              (List.map VStr (h :: hs) ++ List.map VStr (h :: hs)) w1 Hup)
    as (w2 & -> & Hup2).
  rewrite <- Hup2 in Hup.
  destruct (execute_query_server_gone conn (QPopularRecs (length (h :: hs)))
              (List.map VStr (h :: hs)) w2 Hup)
    as (w3 & -> & _).
  exists w3. reflexivity.
Qed.

Lemma recommendations_raise_witness :
  exists w',
    generate_recommendations_db (H := reference_platform) (Some 0%nat) ["Aspirin"] bad_day
    = (Raise (KeyError "rating"), w').
Proof.
  apply (@recommendations_raise_when_the_server_is_gone reference_platform
           (Some 0%nat) ["Aspirin"] bad_day).
  - discriminate.
  - intros t. reflexivity.
Defined.

(** *** From the purchase history to the recommendations *)

(** The part of [main] that leads from the selected user to the
    recommendations: the names of the user's history
    ([user_history_df['name'].tolist() if not user_history_df.empty else []]),
    the manual selection taking their place when there are none, and the call
    of [generate_recommendations_db] when there is a history to use. *)
Module Dashboard.

Definition history_names (user_history_df : DataFrame) : Outcome (list value) :=
  if negb (empty user_history_df) then tolist "name" user_history_df
  else Ret [].

Definition history_to_use (user_history_names manual_history : list value) : list value :=
  match user_history_names with
  | [] => manual_history
  | _ :: _ => user_history_names
  end.

(** Names are text, both as cells of the [name] column and as options of the
    multiselect; [generate_recommendations_db] is modelled on texts. *)
Definition name_texts (names : list value) : list string :=
  flat_map
    (fun v =>
       match v with
       | VStr s => [s]
       | _ => []
       end) names.

(** [None] stands for the hint shown when there is no history to use. *)
Definition recommendations_for_user `{Platform} (connection : option Conn)
    (selected_user_id : Z) (manual_history : list value)
  : M (option (list value * json)) :=
  let! user_history_df := get_user_history connection selected_user_id in
  let! user_history_names := lift (history_names user_history_df) in
  match history_to_use user_history_names manual_history with
  | [] => ret None
  | h :: hs =>
      let! r := generate_recommendations_db connection (name_texts (h :: hs)) in
      ret (Some r)
  end.

End Dashboard.

Import Dashboard.

(** No returned name is in the history (shared by the properties below). *)
Lemma recommended_names_exclude `{Platform} conn history w w' recommended json_response :
  history <> [] ->
  generate_recommendations_db conn history w = (Ret (recommended, json_response), w') ->
  forall h, In h history -> ~ In (VStr h) recommended.
Proof.
  intros Hne Hrun h Hh Hin.
  destruct (generate_run conn history w w' recommended json_response Hne Hrun)
    as (c & w1 & s & w2 & p & d & u & Hc & Hs & Hp & Hd & Hu & Hn & _).
  rewrite <- (length_map VStr history) in Hc, Hs, Hp.
  set (names := List.map VStr history) in *.
  assert (Hvh : In (VStr h) names) by now apply in_map.
  destruct (pipeline_names _ _ _ _ _ Hd Hu Hn Hin) as (r & Hr & Hv).
  rewrite all_recs_rows in Hr. unfold tagged in Hr.
  rewrite !in_app_iff, !in_map_iff in Hr.
  destruct (execute_query_shape conn (QCategoryRecs (length names)) (names ++ names) w)
    as (c0 & w10 & Hc0 & _ & _ & _ & _ & Hfc).
  rewrite Hc in Hc0. injection Hc0 as <- <-.
  destruct (execute_query_shape conn (QSymptomRecs (length names)) (names ++ names) w1)
    as (s0 & w20 & Hs0 & _ & _ & _ & _ & Hfs).
  rewrite Hs in Hs0. injection Hs0 as <- <-.
  destruct (execute_query_shape conn (QPopularRecs (length names)) names w2)
    as (p0 & w30 & Hp0 & _ & _ & _ & _ & Hfp).
  rewrite Hp in Hp0. injection Hp0 as <- <-.
  destruct Hr as [(r0 & <- & Hr)|[(r0 & <- & Hr)|(r0 & <- & Hr)]];
    rewrite cell_tagged in Hv by discriminate.
  - destruct Hfc as [->|(cols & rs & Hev & ->)]; [destruct Hr|].
    rewrite (proj1 (sql_eval_recommendations (db w) names)) in Hev.
    injection Hev as _ <-. cbn [rows frame_of] in Hr.
    eapply category_rows_exclude; eauto.
  - destruct Hfs as [->|(cols & rs & Hev & ->)]; [destruct Hr|].
    rewrite (proj1 (proj2 (sql_eval_recommendations (db w1) names))) in Hev.
    injection Hev as _ <-. cbn [rows frame_of] in Hr.
    eapply symptom_rows_exclude; eauto.
  - destruct Hfp as [->|(cols & rs & Hev & ->)]; [destruct Hr|].
    rewrite (proj2 (proj2 (sql_eval_recommendations (db w2) names))) in Hev.
    injection Hev as _ <-. cbn [rows frame_of] in Hr.
    eapply popular_rows_exclude; eauto.
Qed.

Lemma name_texts_In s l : In (VStr s) l -> In s (name_texts l).
Proof.
  intros Hs. unfold name_texts. apply in_flat_map.
  exists (VStr s). split; [exact Hs|]. now left.
Qed.

(** A medicine the user bought has a row in the history of the user. *)
Lemma purchased_medicine_has_a_row `{Platform} d user_id ph m :
  NoDup (List.map m_id (medicines d)) ->
  In ph (purchase_history d) -> In m (medicines d) ->
  ph_user_id ph = user_id -> ph_medicine_id ph = m_id m ->
  exists r, In r (history_rows d (VNum user_id)) /\ cell "name" r = VStr (m_name m).
Proof.
  intros Hpk Hph Hm Hu Hid.
  set (W := List.filter (fun x => user_is (VNum user_id) (fst x)) (history_join d)).
  assert (Hin : In (ph, m) W).
  { apply filter_In. split; [apply history_join_In; simpl; auto|].
    simpl. now apply Z.eqb_eq. }
  destruct (dedup_by_covers (same_history_key (collation_of d)) [] W (ph, m)
              (fun a => same_history_key_refl _ a a eq_refl) Hin)
    as (k & [[]|Hk] & Hsame).
  assert (Hkm : snd k = m).
  { apply same_history_key_id in Hsame. simpl in Hsame.
    pose proof (dedup_by_In _ _ _ _ Hk) as HkW.
    apply filter_In in HkW as [HkW _]. apply history_join_In in HkW as (_ & HkW & _).
    symmetry. eapply primary_key_inj; eassumption. }
  exists (history_row (k, List.filter (same_history_key (collation_of d) k) W)).
  split.
  - unfold history_rows. apply order_by_In, in_map_iff.
    exists (k, List.filter (same_history_key (collation_of d) k) W).
    split; [reflexivity|]. unfold group_by. apply in_map_iff. eauto.
  - unfold history_row, cell. rewrite lookup_insert_eq. cbn [fst snd].
    now rewrite Hkm.
Qed.

(** X12.  From the history to the recommendations: when the server answers and
    [medicines.id] is the primary key, nothing recommended to a user from the
    history of that user is a medicine the user already bought. *)
Theorem own_purchases_are_never_recommended `{Platform}
    (c : Conn) (w w' : World) (user_id : Z) (manual_history recommended : list value)
    (json_response : json) :
  healthy w ->
  primary_key (db w) ->
  recommendations_for_user (Some c) user_id manual_history w
  = (Ret (Some (recommended, json_response)), w') ->
  forall ph m,
    In ph (purchase_history (db w)) -> In m (medicines (db w)) ->
    ph_user_id ph = user_id -> ph_medicine_id ph = m_id m ->
    ~ In (VStr (m_name m)) recommended.
Proof.
  intros Hup Hpk Hrun ph m Hph Hm Hu Hid.
  destruct (execute_query_healthy c QUserHistory [VNum user_id] w _ _ Hup eq_refl)
    as (w1 & Hrun1 & _ & _).
  destruct (purchased_medicine_has_a_row (db w) user_id ph m Hpk Hph Hm Hu Hid)
    as (r & Hr & Hname).
  unfold recommendations_for_user, get_user_history, bind in Hrun.
  rewrite Hrun1 in Hrun. unfold lift, history_names in Hrun.
  destruct (history_rows (db w) (VNum user_id)) as [|r0 rs] eqn:Hrows; [destruct Hr|].
  change (negb (empty (frame_of (r0 :: rs) history_columns))) with true in Hrun.
  cbn iota in Hrun.
  change (tolist "name" (frame_of (r0 :: rs) history_columns))
    with (Ret (List.map (cell "name") (r0 :: rs))) in Hrun.
  assert (Hin : In (VStr (m_name m)) (List.map (cell "name") (r0 :: rs))).
  { rewrite <- Hname. now apply in_map. }
  cbn [List.map history_to_use] in Hrun, Hin.
  destruct (generate_recommendations_db (Some c)
              (name_texts (cell "name" r0 :: List.map (cell "name") rs)) w1)
    as [[[recs js]|e] w2] eqn:Hgen; [|discriminate].
  unfold ret in Hrun. injection Hrun as <- <- <-.
  apply name_texts_In in Hin.
  eapply recommended_names_exclude; [|exact Hgen|exact Hin].
  intros Hnil. rewrite Hnil in Hin. destruct Hin.
Qed.

Lemma own_purchases_witness :
  ~ In (VStr (m_name aspirin))
      (match fst (recommendations_for_user (H := reference_platform) (Some 0%nat) 7 []
                    good_day) with
       | Ret (Some x) => fst x
       | _ => []
       end).
Proof.
  apply (@own_purchases_are_never_recommended reference_platform 0%nat good_day
           (snd (recommendations_for_user (H := reference_platform) (Some 0%nat) 7 []
                   good_day))
           7 []
           (match fst (recommendations_for_user (H := reference_platform) (Some 0%nat)
                         7 [] good_day) with
            | Ret (Some x) => fst x
            | _ => []
            end)
           (match fst (recommendations_for_user (H := reference_platform) (Some 0%nat)
                         7 [] good_day) with
            | Ret (Some x) => snd x
            | _ => JNull
            end)
           ltac:(intros t; reflexivity)
           ltac:(unfold primary_key; simpl; compute_done)
           ltac:(vm_compute; reflexivity)
           (buy 1 7 1 2 100) aspirin).
  - simpl. left. reflexivity.
  - simpl. left. reflexivity.
  - reflexivity.
  - reflexivity.
Defined.

(** User 7 bought Aspirin and Metformin and is pointed to the three best
    rated of the other medicines. *)
Example recommendations_for_user_7 :
  match fst (recommendations_for_user (H := reference_platform) (Some 0%nat) 7 []
               good_day) with
  | Ret (Some x) => fst x
  | _ => []
  end
  = [VStr "Insulin"; VStr "Ibuprofen"; VStr "Paracetamol"].
Proof. vm_compute. reflexivity. Qed.

(** *** The JSON response *)

Lemma Forall2_map_same {A B C} (P : B -> C -> Prop) (f : A -> B) (g : A -> C) l :
  (forall x, In x l -> P (f x) (g x)) -> Forall2 P (List.map f l) (List.map g l).
Proof.
  induction l as [|x l IH]; simpl; intros Hp; constructor; auto.
Qed.

Lemma cell_source_tagged source r :
  cell "source" (<["source" := VStr source]> r) = VStr source.
Proof. unfold cell. now rewrite lookup_insert_eq. Qed.

Lemma execute_query_clock `{Platform} conn q ps w r w' :
  execute_query conn q ps w = (r, w') -> clock w' = clock w.
Proof.
  intros Hrun.
  destruct (execute_query_shape conn q ps w) as (df & w0 & E & _ & _ & Hk & _).
  rewrite Hrun in E. injection E as -> ->. exact Hk.
Qed.

(** X13.  The dictionary returned beside the names says the same as the names: its
    "recommendations" are one entry per returned name, in the same order and
    with that name; every entry is attributed to "category", "symptom" or
    "popular"; "based_on_history" repeats the history, and "timestamp" is the
    time of the call. *)
Theorem json_response_matches_the_names `{Platform}
    (conn : option Conn) (history : list string) (w w' : World)
    (recommended : list value) (json_response : json) :
  history <> [] ->
  generate_recommendations_db conn history w = (Ret (recommended, json_response), w') ->
  exists entries,
    json_response
    = JDict [("recommendations", JList entries);
             ("based_on_history", JList (List.map JStr history));
             ("timestamp", JNum (clock w))]
    /\ Forall2
         (fun entry name =>
            exists type rating source,
              entry = JDict [("name", json_of name); ("type", type);
                             ("rating", rating); ("source", JStr source)]
              /\ (source = "category" \/ source = "symptom" \/ source = "popular"))
         entries recommended.
Proof.
  intros Hne Hrun.
  destruct (generate_run conn history w w' recommended json_response Hne Hrun)
    as (c & w1 & s & w2 & p & d & u & Hc & Hs & Hp & Hd & Hu & Hn & ->).
  assert (Hclock : clock w' = clock w).
  { rewrite (execute_query_clock _ _ _ _ _ _ Hp), (execute_query_clock _ _ _ _ _ _ Hs).
    apply (execute_query_clock _ _ _ _ _ _ Hc). }
  destruct (pipeline_shape _ _ _ _ Hd Hu Hn) as (ranked & -> & Hrows & _ & Hperm & _).
  rewrite Hrows, Hclock. eexists. split; [reflexivity|].
  apply Forall2_map_same. intros r Hr.
  assert (Hsrc : exists source,
            cell "source" r = VStr source
            /\ (source = "category" \/ source = "symptom" \/ source = "popular")).
  { apply (sublist_In _ _ _ (sublist_take _ _)) in Hr.
    apply (Permutation_in _ Hperm) in Hr.
    apply (sublist_In _ _ _ (keep_first_sublist _ _)) in Hr.
    rewrite all_recs_rows in Hr. unfold tagged in Hr.
    rewrite !in_app_iff, !in_map_iff in Hr.
    destruct Hr as [(r0 & <- & _)|[(r0 & <- & _)|(r0 & <- & _)]];
      rewrite cell_source_tagged; eauto 6. }
  destruct Hsrc as (source & Hsource & Hwhich).
  unfold recommendation_json. rewrite Hsource. simpl json_of at 3.
  do 3 eexists. split; [reflexivity|exact Hwhich].
Qed.

Lemma json_response_witness :
  exists entries,
    match fst (generate_recommendations_db (H := reference_platform) (Some 0%nat)
                 ["Aspirin"] good_day) with
    | Ret x => snd x
    | Raise _ => JNull
    end
    = JDict [("recommendations", JList entries);
             ("based_on_history", JList (List.map JStr ["Aspirin"]));
             ("timestamp", JNum (clock good_day))]
    /\ Forall2
         (fun entry name =>
            exists type rating source,
              entry = JDict [("name", json_of name); ("type", type);
                             ("rating", rating); ("source", JStr source)]
              /\ (source = "category" \/ source = "symptom" \/ source = "popular"))
         entries [VStr "Ibuprofen"; VStr "Paracetamol"; VStr "Metformin"].
Proof.
  apply (@json_response_matches_the_names reference_platform (Some 0%nat)
           ["Aspirin"] good_day
           (snd (generate_recommendations_db (H := reference_platform) (Some 0%nat)
                   ["Aspirin"] good_day))).
  - discriminate.
  - vm_compute. reflexivity.
Defined.

(** *** What the three recommendation statements deliver *)

Lemma in_history_parts co ins outs m1 m2 :
  in_history co ins outs m1 m2 = true ->
  sql_in co (m_name m1) ins = Some true
  /\ holds (sql_not (sql_in co (m_name m2) outs)) = true.
Proof.
  unfold in_history.
  destruct (sql_in co (m_name m1) ins) as [[]|],
           (sql_in co (m_name m2) outs) as [[]|]; simpl; intros; auto; discriminate.
Qed.

(** [s IN (...)] is true when some parameter is a text equal to [s] up to the
    collation. *)
Lemma sql_in_true co s vs :
  sql_in co s vs = Some true <-> exists t, In (VStr t) vs /\ str_eq co s t = true.
Proof.
  unfold sql_in. split.
  - destruct (existsb _ vs) eqn:E.
    + intros _. apply existsb_exists in E as (v & Hv & Heq).
      apply bool_decide_eq_true in Heq.
      destruct v as [|z|t]; simpl in Heq; try discriminate.
      exists t. split; [exact Hv|congruence].
    + intros Hx. destruct (existsb _ vs) in Hx; discriminate Hx.
  - intros (t & Ht & Heq).
    assert (E : existsb (fun v => bool_decide (text_equals co s v = Some true)) vs = true).
    { apply existsb_exists. exists (VStr t). split; [exact Ht|].
      apply bool_decide_eq_true. simpl. now rewrite Heq. }
    now rewrite E.
Qed.

Lemma category_join_In d x :
  In x (category_join d) ->
  In (fst (fst x)) (medicines d) /\ In (snd (fst x)) (medicines d)
  /\ str_eq (collation_of d) (m_type (fst (fst x))) (m_type (snd (fst x))) = true.
Proof.
  unfold category_join. rewrite in_flat_map. intros (m1 & Hm1 & Hx).
  apply in_flat_map in Hx as (m2 & Hm2 & Hx).
  apply filter_In in Hm2 as [Hm2 Hty].
  apply in_map_iff in Hx as (ph & <- & _). simpl. auto.
Qed.

Lemma symptom_join_In d x :
  In x (symptom_join d) ->
  In (fst x) (medicines d) /\ In (snd x) (medicines d)
  /\ shares_symptom (collation_of d) (fst x) (snd x) = true.
Proof.
  unfold symptom_join. rewrite in_flat_map. intros (m1 & Hm1 & Hx).
  apply in_map_iff in Hx as (m2 & <- & Hm2).
  apply filter_In in Hm2 as [Hm2 Hs]. simpl. auto.
Qed.

Lemma popular_join_In d x : In x (popular_join d) -> In (fst x) (medicines d).
Proof.
  unfold popular_join. rewrite in_flat_map. intros (m & Hm & Hx).
  apply in_map_iff in Hx as (ph & <- & _). exact Hm.
Qed.

(** X14.  The statement for medicines of the same type delivers at most three
    rows, each the name, rating and type of a catalog medicine that is not in
    the history and has the type of a catalog medicine that is; the statement
    for the same symptoms at most three, each of a medicine not in the history
    whose treats contains the first symptom of a medicine of the history, or
    the other way round; the statement for the most purchased at most two,
    each of a medicine not in the history.  "In the history" is up to the
    collation. *)
Theorem recommendation_statements_deliver_related_medicines `{Platform}
    (d : Database) (history : list string) :
  let co := collation_of d in
  let names := List.map VStr history in
  let outside m := forall h, In h history -> str_eq co (m_name m) h = false in
  let inside m := exists h, In h history /\ str_eq co (m_name m) h = true in
  ((length (category_rows d names names) <= 3)%nat
   /\ forall r, In r (category_rows d names names) ->
        exists m1 m2,
          In m1 (medicines d) /\ In m2 (medicines d)
          /\ inside m1 /\ outside m2
          /\ str_eq co (m_type m1) (m_type m2) = true
          /\ cell "name" r = VStr (m_name m2)
          /\ cell "rating" r = of_opt (m_rating m2)
          /\ cell "type" r = VStr (m_type m2))
  /\ ((length (symptom_rows d names names) <= 3)%nat
      /\ forall r, In r (symptom_rows d names names) ->
           exists m1 m2,
             In m1 (medicines d) /\ In m2 (medicines d)
             /\ inside m1 /\ outside m2
             /\ shares_symptom co m1 m2 = true
             /\ cell "name" r = VStr (m_name m2)
             /\ cell "rating" r = of_opt (m_rating m2))
  /\ ((length (popular_rows d names) <= 2)%nat
      /\ forall r, In r (popular_rows d names) ->
           exists m,
             In m (medicines d) /\ outside m
             /\ cell "name" r = VStr (m_name m)
             /\ cell "rating" r = of_opt (m_rating m)).
Proof.
  intros co names outside inside.
  assert (Hinside : forall m, sql_in co (m_name m) names = Some true -> inside m).
  { intros m Hm. apply sql_in_true in Hm as (t & Ht & Heq).
    apply in_map_iff in Ht as (h & [= ->] & Hh). exists t. auto. }
  assert (Houtside : forall m,
            holds (sql_not (sql_in co (m_name m) names)) = true -> outside m).
  { intros m Hm h Hh.
    destruct (str_eq co (m_name m) h) eqn:E; [|reflexivity].
    assert (Hin : sql_in co (m_name m) names = Some true).
    { apply sql_in_true. exists h. split; [now apply in_map|exact E]. }
    rewrite Hin in Hm. discriminate. }
  split; [|split].
  - split; [apply firstn_le_length|].
    intros r Hr. unfold category_rows, distinct in Hr.
    apply (sublist_In _ _ _ (sublist_take _ _)), order_by_In, dedup_by_In in Hr.
    apply in_map_iff in Hr as (g & <- & Hg).
    apply group_by_In in Hg as [Hg _]. apply dedup_by_In, filter_In in Hg as [Hj Hg].
    apply category_join_In in Hj as (Hm1 & Hm2 & Hty).
    apply in_history_parts in Hg as [Hin Hout].
    exists (fst (fst (fst g))), (snd (fst (fst g))).
    repeat split; auto.
  - split; [apply firstn_le_length|].
    intros r Hr. unfold symptom_rows, distinct in Hr.
    apply (sublist_In _ _ _ (sublist_take _ _)), order_by_In, dedup_by_In in Hr.
    apply in_map_iff in Hr as (x & <- & Hx). apply filter_In in Hx as [Hj Hx].
    apply symptom_join_In in Hj as (Hm1 & Hm2 & Hs).
    apply in_history_parts in Hx as [Hin Hout].
    exists (fst x), (snd x). repeat split; auto.
  - split; [apply firstn_le_length|].
    intros r Hr. unfold popular_rows in Hr.
    apply (sublist_In _ _ _ (sublist_take _ _)), order_by_In in Hr.
    apply in_map_iff in Hr as (g & <- & Hg).
    apply group_by_In in Hg as [Hg _]. apply dedup_by_In, filter_In in Hg as [Hj Hg].
    apply popular_join_In in Hj.
    exists (fst (fst g)). repeat split; auto.
Qed.

(** *** Quantities in the purchase history *)

(** [row['total_quantity']] as a number. *)
Definition total_quantity_of (r : row) : Z :=
  match cell "total_quantity" r with
  | VNum z => z
  | _ => 0
  end.

(** The purchase refers to a medicine of the catalog. *)
Definition refers_to_catalog (d : Database) (ph : Purchase) : bool :=
  existsb (fun m => ph_medicine_id ph =? m_id m) (medicines d).

Lemma sum_Z_app a b : sum_Z (a ++ b) = sum_Z a + sum_Z b.
Proof. unfold sum_Z. induction a as [|x a IH]; simpl; lia. Qed.

Lemma sum_Z_perm a b : Permutation a b -> sum_Z a = sum_Z b.
Proof.
  unfold sum_Z. induction 1; simpl; lia.
Qed.

Lemma sum_Z_plus {A} (f g : A -> Z) l :
  sum_Z (List.map (fun x => f x + g x) l)
  = sum_Z (List.map f l) + sum_Z (List.map g l).
Proof. unfold sum_Z. induction l as [|x l IH]; simpl; lia. Qed.

(** Among rows with pairwise different keys, exactly one has a given key that
    occurs. *)
Lemma sum_at_key {A} (key : A -> Z) (v : Z) (z : Z) (reps : list A) :
  NoDup (List.map key reps) ->
  (exists k, In k reps /\ key k = z) ->
  sum_Z (List.map (fun k => if key k =? z then v else 0) reps) = v.
Proof.
  unfold sum_Z. induction reps as [|k reps IH]; simpl.
  - intros _ (k & [] & _).
  - rewrite NoDup_cons, list_elem_of_In, in_map_iff. intros [Hk Hnd] (k0 & [->|Hk0] & Hz).
    + rewrite Hz, Z.eqb_refl.
      assert (Hzero : fold_right Z.add 0
                (List.map (fun k => if key k =? z then v else 0) reps) = 0).
      { clear IH Hnd. induction reps as [|k1 reps IH]; simpl; [reflexivity|].
        destruct (Z.eqb_spec (key k1) z) as [E|_].
        - destruct Hk. exists k1. split; [congruence|now left].
        - rewrite IH; [reflexivity|]. intros (y & Hy & Hin). apply Hk.
          exists y. split; [exact Hy|now right]. }
      rewrite Hzero. lia.
    + destruct (Z.eqb_spec (key k) z) as [E|_].
      * destruct Hk. exists k0. split; [congruence|exact Hk0].
      * rewrite IH; [lia|exact Hnd|eauto].
Qed.

(** Summing group by group is summing over all rows. *)
Lemma sum_over_groups {A} (q : A -> Z) (same : A -> A -> bool) (key : A -> Z)
    (reps l : list A) :
  (forall k x, In k reps -> In x l -> same k x = (key k =? key x)) ->
  NoDup (List.map key reps) ->
  (forall x, In x l -> exists k, In k reps /\ key k = key x) ->
  sum_Z (List.map (fun k => sum_Z (List.map q (List.filter (same k) l))) reps)
  = sum_Z (List.map q l).
Proof.
  intros Hsame Hnd Hcov. induction l as [|x l IH].
  - simpl. clear. unfold sum_Z. induction reps; simpl; auto.
  - assert (Hstep :
      List.map (fun k => sum_Z (List.map q (List.filter (same k) (x :: l)))) reps
      = List.map (fun k => (if key k =? key x then q x else 0)
                           + sum_Z (List.map q (List.filter (same k) l))) reps).
    { apply map_ext_in. intros k Hk. cbn [List.filter].
      rewrite (Hsame k x Hk) by now left.
      destruct (key k =? key x); [reflexivity|lia]. }
    rewrite Hstep, sum_Z_plus, IH.
    + rewrite (sum_at_key key (q x) (key x) reps Hnd) by (apply Hcov; now left).
      reflexivity.
    + intros k y Hk Hy. apply Hsame; [exact Hk|now right].
    + intros y Hy. apply Hcov. now right.
Qed.

(** Under a primary key every purchase is joined with at most one medicine:
    the purchases in the join are those that refer to the catalog. *)
Lemma joined_purchases d (p : Purchase -> bool) :
  NoDup (List.map m_id (medicines d)) ->
  List.map fst (List.filter (fun x => p (fst x)) (history_join d))
  = List.filter (fun ph => p ph && refers_to_catalog d ph) (purchase_history d).
Proof.
  intros Hpk. unfold history_join.
  induction (purchase_history d) as [|ph phs IH]; [reflexivity|].
  cbn [flat_map]. rewrite List.filter_app, map_app, IH. cbn [List.filter].
  unfold refers_to_catalog at 2.
  destruct (existsb (fun m => ph_medicine_id ph =? m_id m) (medicines d)) eqn:E.
  - apply existsb_exists in E as (m & Hm & Hid). apply Z.eqb_eq in Hid.
    rewrite Hid, (filter_by_id _ _ Hpk Hm). cbn [List.map List.filter fst].
    rewrite andb_true_r. now destruct (p ph).
  - rewrite andb_false_r. rewrite (filter_none (fun m => ph_medicine_id ph =? m_id m)).
    + reflexivity.
    + intros m Hm. destruct (ph_medicine_id ph =? m_id m) eqn:Hid; [|reflexivity].
      assert (Hex : existsb (fun m => ph_medicine_id ph =? m_id m) (medicines d) = true)
        by (apply existsb_exists; eauto).
      congruence.
Qed.

Lemma total_quantity_of_history_row g :
  total_quantity_of (history_row g)
  = sum_Z (List.map (fun x => ph_quantity (fst x)) (snd g)).
Proof.
  unfold total_quantity_of, history_row, cell.
  do 4 (rewrite lookup_insert_ne by discriminate). now rewrite lookup_insert_eq.
Qed.

(** X15.  Quantities are conserved: when the server answers and [medicines.id] is
    the primary key, the total quantities of the rows of a user's history add
    up to the quantities of all purchases of that user that refer to a
    medicine of the catalog; no purchase is counted twice, none is lost. *)
Theorem history_conserves_quantities `{Platform} (c : Conn) (w : World) (user_id : Z) :
  healthy w ->
  primary_key (db w) ->
  exists df w',
    get_user_history (Some c) user_id w = (Ret df, w')
    /\ sum_Z (List.map total_quantity_of (rows df))
       = sum_Z (List.map ph_quantity
                  (List.filter
                     (fun ph => (ph_user_id ph =? user_id)
                                && refers_to_catalog (db w) ph)
                     (purchase_history (db w)))).
Proof.
  intros Hup Hpk. unfold primary_key in Hpk.
  destruct (execute_query_healthy c QUserHistory [VNum user_id] w _ _ Hup eq_refl)
    as (w' & Hrun & _).
  do 2 eexists. split; [exact Hrun|]. unfold frame_of. cbn [rows].
  unfold history_rows.
  rewrite (sum_Z_perm _ _ (Permutation_map total_quantity_of (order_by_perm _ _))).
  set (co := collation_of (db w)).
  set (W := List.filter (fun x => user_is (VNum user_id) (fst x)) (history_join (db w))).
  assert (HW : forall x, In x W -> In (snd x) (medicines (db w))).
  { intros x Hx. apply filter_In in Hx as [Hx _].
    now apply history_join_In in Hx as (_ & Hx & _). }
  unfold group_by. rewrite !map_map.
  assert (Hrows :
    List.map (fun k => total_quantity_of
                         (history_row (k, List.filter (same_history_key co k) W)))
      (dedup_by (same_history_key co) [] W)
    = List.map (fun k => sum_Z (List.map (fun x => ph_quantity (fst x))
                                  (List.filter (same_history_key co k) W)))
        (dedup_by (same_history_key co) [] W)).
  { apply map_ext. intros k. apply total_quantity_of_history_row. }
  rewrite Hrows.
  rewrite (sum_over_groups (fun x => ph_quantity (fst x)) (same_history_key co)
             (fun x => m_id (snd x))).
  - rewrite <- (map_map fst ph_quantity). unfold W.
    rewrite (joined_purchases (db w) (user_is (VNum user_id)) Hpk). reflexivity.
  - intros k x Hk Hx. apply dedup_by_In in Hk.
    destruct (Z.eqb_spec (m_id (snd k)) (m_id (snd x))) as [Hid|Hid].
    + apply same_history_key_refl.
      eapply primary_key_inj; [exact Hpk|now apply HW|now apply HW|exact Hid].
    + destruct (same_history_key co k x) eqn:E; [|reflexivity].
      apply same_history_key_id in E. contradiction.
  - apply dedup_by_NoDup. intros a b Ha [Hb|[]] Hid.
    apply same_history_key_refl.
    eapply primary_key_inj; [exact Hpk|now apply HW|now apply HW|exact Hid].
  - intros x Hx.
    destruct (dedup_by_covers (same_history_key co) [] W x
                (fun a => same_history_key_refl co a a eq_refl) Hx)
      as (k & [[]|Hk] & Hsame).
    exists k. split; [exact Hk|]. apply same_history_key_id in Hsame. congruence.
Qed.

Lemma history_conserves_quantities_witness :
  exists df w',
    get_user_history (H := reference_platform) (Some 0%nat) 7 good_day = (Ret df, w')
    /\ sum_Z (List.map total_quantity_of (rows df))
       = sum_Z (List.map ph_quantity
                  (List.filter
                     (fun ph => (ph_user_id ph =? 7) && refers_to_catalog pharmacy ph)
                     (purchase_history pharmacy))).
Proof.
  apply (@history_conserves_quantities reference_platform 0%nat good_day 7).
  - intros t. reflexivity.
  - unfold primary_key. simpl. compute_done.
Defined.

(** *** The query functions when the server is gone *)

Lemma execute_query_server_gone_sends_nothing `{Platform} conn q ps w :
  (forall t, up w t = false) ->
  exists w', execute_query conn q ps w = (Ret no_frame, w')
             /\ statements (trace w') = statements (trace w).
Proof.
  intros Hup. unfold_run. destruct conn as [c|]; simpl;
    repeat (rewrite Hup; simpl); run_cases;
    repeat match goal with
           | Hx : context [up w _] |- _ => rewrite Hup in Hx; simpl in Hx
           end;
    try discriminate; eexists; (split; [reflexivity|]); simpl;
    rewrite ?statements_app, ?statements_replay; simpl; rewrite ?app_nil_r;
    reflexivity.
Qed.

(** X16.  With a server that does not answer, the catalog, the history and the
    search all come back as [pd.DataFrame()]: none of the three functions
    raises (the emptiness test of [load_medicines_from_db] keeps
    [drop_duplicates] away from the frame without columns), and none sends a
    statement. *)
Theorem query_functions_degrade_to_empty_frames `{Platform}
    (conn : option Conn) (w : World) (user_id : Z) (query search_type : string) :
  (forall t, up w t = false) ->
  (exists w', load_medicines_from_db conn w = (Ret no_frame, w')
              /\ statements (trace w') = statements (trace w))
  /\ (exists w', get_user_history conn user_id w = (Ret no_frame, w')
                 /\ statements (trace w') = statements (trace w))
  /\ (exists w', search_medicines_db conn query search_type w = (Ret no_frame, w')
                 /\ statements (trace w') = statements (trace w)).
Proof.
  intros Hup.
  assert (Hgone : forall q ps,
            exists w', execute_query conn q ps w = (Ret no_frame, w')
                       /\ statements (trace w') = statements (trace w))
    by (intros q ps; now apply execute_query_server_gone_sends_nothing).
  split; [|split].
  - destruct (Hgone QLoadMedicines []) as (w' & Hrun & Hs).
    exists w'. split; [|exact Hs].
    unfold load_medicines_from_db, bind. rewrite Hrun. reflexivity.
  - apply Hgone.
  - unfold search_medicines_db.
    destruct (String.eqb search_type "medicine"); [apply Hgone|].
    destruct (String.eqb search_type "symptom"); apply Hgone.
Qed.

Lemma degrade_witness :
  (exists w', load_medicines_from_db (H := reference_platform) (Some 0%nat) bad_day
              = (Ret no_frame, w')
              /\ statements (trace w') = statements (trace bad_day))
  /\ (exists w', get_user_history (H := reference_platform) (Some 0%nat) 7 bad_day
                 = (Ret no_frame, w')
                 /\ statements (trace w') = statements (trace bad_day))
  /\ (exists w', search_medicines_db (H := reference_platform) (Some 0%nat) "aspirin"
                   "both" bad_day = (Ret no_frame, w')
                 /\ statements (trace w') = statements (trace bad_day)).
Proof.
  apply (@query_functions_degrade_to_empty_frames reference_platform (Some 0%nat)
           bad_day 7 "aspirin" "both").
  intros t. reflexivity.
Defined.
